(** * Single-URL scraping orchestration (apps/api/src/scraper/WebScraper/single_url.ts)

    A shallow embedding of the orchestration core of [single_url.ts]: the
    host parameter resolver [generateRequestParams], the fallback order planner
    [getScrapingFallbackOrder], the per-attempt closure [attemptScraping] and
    the loop of [scrapSingleUrl], followed by the properties of the
    specification that were checked against them.

    Conventions of the embedding.
    - A JavaScript string is a [string]; a character stands for one code unit
      (the model covers code units below 256).
    - [undefined] is [None]; a value of type [number | undefined] is an
      [option Z].
    - [async]/[await] is sequential here (every call is awaited at once), so
      a promise is the computation it stands for.
    - Network calls, the PDF extractor, the override hook, the HTML cleaner,
      the markdown converter and the metadata extractor are collaborators of
      the module: they are Section variables, a network-facing one receives
      the trace of the calls made so far (so two calls with equal arguments
      may answer differently), and each of them may throw.
    - [console.log]/[console.error]/[console.info] are not modelled. *)

From Stdlib Require Import ZArith Ascii String List Bool Lia.
From stdpp Require Import base option list strings gmap.

Local Open Scope string_scope.
Local Open Scope Z_scope.
Local Open Scope list_scope.

(** ** JavaScript strings *)

Module JS.

(** ECMAScript WhiteSpace and LineTerminator code units below 256:
    TAB, LF, VT, FF, CR, SP, NBSP. *)
Definition is_white_space (c : ascii) : bool :=
  let n := N_of_ascii c in
  ((9 <=? n)%N && (n <=? 13)%N) || (n =? 32)%N || (n =? 160)%N.

Fixpoint trimStart (s : string) : string :=
  match s with
  | String c s' => if is_white_space c then trimStart s' else s
  | EmptyString => EmptyString
  end.

Definition trimEnd (s : string) : string :=
  String.rev (trimStart (String.rev s)).

(** [String.prototype.trim]. *)
Definition trim (s : string) : string := trimEnd (trimStart s).

(** [s.length], as a [Z]. *)
Definition length (s : string) : Z := Z.of_nat (String.length s).

(** Truthiness of a string: the empty string is falsy. *)
Definition truthy_string (s : string) : bool :=
  match s with EmptyString => false | String _ _ => true end.

(** Truthiness of a [string | undefined]. *)
Definition truthy_ostring (o : option string) : bool :=
  match o with Some s => truthy_string s | None => false end.

(** Truthiness of a [number | undefined]: [undefined] and [0] are falsy. *)
Definition truthy_onumber (o : option Z) : bool :=
  match o with Some n => negb (n =? 0) | None => false end.

(** [o >= k] and [o < k] for [o : number | undefined]: a comparison with
    [undefined] is [false] both ways. *)
Definition oge (o : option Z) (k : Z) : bool :=
  match o with Some n => k <=? n | None => false end.
Definition olt (o : option Z) (k : Z) : bool :=
  match o with Some n => n <? k | None => false end.

(** [a || undefined] on a [string | undefined]. *)
Definition or_undefined (o : option string) : option string :=
  if truthy_ostring o then o else None.

(** [s.replace(/^www\./, "")]. *)
Definition strip_www (s : string) : string :=
  if String.prefix "www." s
  then String.substring 4 (String.length s - 4) s
  else s.

(** [arr.includes(x)] on an array of strings. *)
Definition includes (arr : list string) (x : string) : bool :=
  existsb (String.eqb x) arr.

(** An ECMAScript [Set] of strings keeps its elements in insertion order;
    [add] of an element already present changes nothing. *)
Definition Set_add (s : list string) (x : string) : list string :=
  if includes s x then s else s ++ [x].

(** [new Set(arr)] adds the elements of [arr] from left to right, and
    [Array.from(set)] lists the set in insertion order. *)
Definition new_Set (arr : list string) : list string :=
  fold_left Set_add arr [].
Definition Array_from (s : list string) : list string := s.

(** JSON-like values, for the request-parameter and metadata objects. *)
#[local] Set Warnings "-register-all".
Inductive value : Type :=
| VUndefined
| VNull
| VBool (b : bool)
| VNum (n : Z)
| VStr (s : string)
| VObj (fields : list (string * value)).
#[local] Set Warnings "register-all".

(** A [string | undefined] as a value. *)
Definition of_ostring (o : option string) : value :=
  match o with Some s => VStr s | None => VUndefined end.

(** Object spread [{...a, ...b}]: the fields of [b] win. *)
Definition spread (a b : gmap string value) : gmap string value := b ∪ a.

End JS.

(** ** Configuration: [process.env] and the host override table *)

Record Env := {
  SCRAPING_BEE_API_KEY : option string;
  FIRE_ENGINE_BETA_URL : option string;
  PLAYWRIGHT_MICROSERVICE_URL : option string;
}.

(** ** The fallback order planner ([getScrapingFallbackOrder], lines 404-454) *)

Definition baseScrapers : list string :=
  ["fire-engine"; "scrapingBee"; "playwright"; "scrapingBeeLoad"; "fetch"].

Definition universalTimeout : Z := 15000.

(** The predicate of [baseScrapers.filter(...)]: the [switch] on the scraper
    name that reads the environment. *)
Definition scraper_configured (env : Env) (scraper : string) : bool :=
  if (scraper =? "scrapingBee")%string || (scraper =? "scrapingBeeLoad")%string
  then JS.truthy_ostring (SCRAPING_BEE_API_KEY env)
  else if (scraper =? "fire-engine")%string
  then JS.truthy_ostring (FIRE_ENGINE_BETA_URL env)
  else if (scraper =? "playwright")%string
  then JS.truthy_ostring (PLAYWRIGHT_MICROSERVICE_URL env)
  else true.

Definition availableScrapers (env : Env) : list string :=
  List.filter (scraper_configured env) baseScrapers.

Definition defaultOrder0 : list string :=
  ["scrapingBee"; "fire-engine"; "playwright"; "scrapingBeeLoad"; "fetch"].

Definition defaultOrder (isWaitPresent isScreenshotPresent isHeadersPresent : bool)
  : list string :=
  if isWaitPresent || isScreenshotPresent || isHeadersPresent
  then "fire-engine" :: "playwright" ::
       List.filter
         (fun scraper => negb (scraper =? "fire-engine")%string
                         && negb (scraper =? "playwright")%string)
         defaultOrder0
  else defaultOrder0.

Definition filteredDefaultOrder (env : Env) (w s h : bool) : list string :=
  List.filter (JS.includes (availableScrapers env)) (defaultOrder w s h).

(** The array handed to [new Set(...)]. *)
Definition plan_candidates
    (env : Env) (defaultScraper : option string)
    (isWaitPresent isScreenshotPresent isHeadersPresent : bool) : list string :=
  let filtered :=
    filteredDefaultOrder env isWaitPresent isScreenshotPresent isHeadersPresent in
  if JS.truthy_ostring defaultScraper
  then default "" defaultScraper :: filtered ++ availableScrapers env
  else filtered ++ availableScrapers env.

Definition getScrapingFallbackOrder
    (env : Env) (defaultScraper : option string)
    (isWaitPresent isScreenshotPresent isHeadersPresent : bool) : list string :=
  let uniqueScrapers :=
    JS.new_Set
      (plan_candidates env defaultScraper
         isWaitPresent isScreenshotPresent isHeadersPresent) in
  let scrapersInOrder := JS.Array_from uniqueScrapers in
  scrapersInOrder.

(** ** Exceptions *)

Inductive Exn : Type :=
| TypeError (msg : string)
| Error (msg : string).

Inductive Result (A : Type) : Type :=
| Ok (a : A)
| Throw (e : Exn).
Arguments Ok {A} a.
Arguments Throw {A} e.

(** [try { body } catch (error) { handler }] on a computation without state. *)
Definition try_catch_pure {A} (body : Result A) (handler : Exn -> Result A)
  : Result A :=
  match body with
  | Ok a => Ok a
  | Throw e => handler e
  end.

(** ** The host parameter resolver ([generateRequestParams], lines 25-47) *)

Section Resolver.

(** [new URL(url).hostname]; the constructor throws a [TypeError] on a
    malformed URL. *)
Variable URL_hostname : string -> Result string.

(** The table of [./utils/custom/website_params]: host key to override
    object. *)
Variable urlSpecificParams : gmap string (gmap string JS.value).

Definition defaultParams (url wait_browser : string) (timeout : Z)
  : gmap string JS.value :=
  {[ "url" := JS.VStr url;
     "params" := JS.VObj [("timeout", JS.VNum timeout);
                          ("wait_browser", JS.VStr wait_browser)];
     "headers" := JS.VObj [("ScrapingService-Request", JS.VStr "TRUE")] ]}.

(** The key both [generateRequestParams] and [scrapSingleUrl] compute. *)
Definition urlKey_of (url : string) : Result string :=
  match URL_hostname url with
  | Ok hostname => Ok (JS.strip_www hostname)
  | Throw e => Throw e
  end.

Definition generateRequestParams (url wait_browser : string) (timeout : Z)
  : Result (gmap string JS.value) :=
  let defaultParams := defaultParams url wait_browser timeout in
  try_catch_pure
    (match urlKey_of url with
     | Ok urlKey =>
         match urlSpecificParams !! urlKey with
         | Some override => Ok (JS.spread defaultParams override)
         | None => Ok defaultParams
         end
     | Throw e => Throw e
     end)
    (fun error => Ok defaultParams).

End Resolver.

(** ** Data of one scrape *)

Definition Headers := list (string * string).

Module PageOptions.
Record t := {
  onlyMainContent : option bool;
  includeHtml : option bool;
  includeRawHtml : option bool;
  waitFor : option Z;
  screenshot : option bool;
  headers : option Headers;
  parsePDF : option bool;
  fallback : option bool;
  scrollXPaths : option (list string);
}.
End PageOptions.

Module ExtractorOptions.
Record t := { mode : string }.
End ExtractorOptions.

(** [FireEngineResponse] of [lib/entities]. *)
Module FireEngineResponse.
Record t := {
  html : string;
  screenshot : string;
  pageStatusCode : option Z;
  pageError : option string;
}.
End FireEngineResponse.

(** The answer of the other adapters and of the PDF extractor:
    [{ content; pageStatusCode?; pageError? }]. *)
Module ContentResponse.
Record t := {
  content : string;
  pageStatusCode : option Z;
  pageError : option string;
}.
End ContentResponse.

(** The object argument of [scrapWithFireEngine], before its defaults. *)
Module FireEngineArgs.
Record t := {
  url : string;
  waitFor : option Z;
  screenshot : option bool;
  pageOptions : PageOptions.t;
  headers : option Headers;
}.
End FireEngineArgs.

(** Modelled from the spec: the directive type of [handleCustomScraping]
    ([./custom/handleCustomScraping] is not part of the sources). The hook
    answers [{backend: "fire-engine"|"pdf", ...params} | none]; the fields are
    those [attemptScraping] reads. *)
Module Directive.
Inductive backend := FireEngine | Pdf.
Record t := {
  scraper : backend;
  url : string;
  waitAfterLoad : option Z;
  pageOptions : PageOptions.t;
}.
End Directive.

(** [scraperResponse] of [attemptScraping]. *)
Module ScraperResponse.
Record t := {
  text : string;
  screenshot : string;
  pageStatusCode : option Z;
  pageError : option string;
}.
End ScraperResponse.

(** What [attemptScraping] returns. *)
Module Attempt.
Record t := {
  text : string;
  html : string;
  rawHtml : string;
  screenshot : string;
  pageStatusCode : option Z;
  pageError : option string;
}.
End Attempt.

(** The [let] variables of [scrapSingleUrl] that the loop reassigns. *)
Module Vars.
Record t := {
  text : string;
  html : string;
  rawHtml : string;
  screenshot : string;
  pageStatusCode : Z;
  pageError : option string;
}.
Definition init : t :=
  {| text := ""; html := ""; rawHtml := ""; screenshot := "";
     pageStatusCode := 200; pageError := None |}.
End Vars.

Module Document.
Record t := {
  content : string;
  markdown : string;
  html : option string;
  rawHtml : option string;
  metadata : gmap string JS.value;
}.
End Document.

(** ** Calls that leave the module *)

Inductive Event : Type :=
| CallFireEngine (args : FireEngineArgs.t)
| CallScrapingBee (url wait_browser : string) (timeout : Z)
| CallPlaywright (url : string) (waitFor : option Z) (headers : option Headers)
| CallFetch (url : string)
| CallPdf (url : string) (parsePDF : option bool)
| CallHook (text url : string).

Definition is_adapter_call (ev : Event) : bool :=
  match ev with
  | CallFireEngine _ | CallScrapingBee _ _ _ | CallPlaywright _ _ _
  | CallFetch _ => true
  | CallPdf _ _ | CallHook _ _ => false
  end.

(** An extra fetch is made through the render service or the PDF extractor. *)
Definition is_fetch_call (ev : Event) : bool :=
  match ev with
  | CallHook _ _ => false
  | _ => true
  end.

Definition is_hook_call (ev : Event) : bool :=
  match ev with
  | CallHook _ _ => true
  | _ => false
  end.

(** The collaborators. The adapters ([scrapWithFireEngine] and the like) are
    network code: the loop depends on their answers only, so an adapter is the
    function from the history and its arguments to its answer. *)
Record World := {
  scrapWithFireEngine :
    list Event -> FireEngineArgs.t -> Result FireEngineResponse.t;
  scrapWithScrapingBee :
    list Event -> string -> string -> Z -> Result ContentResponse.t;
  scrapWithPlaywright :
    list Event -> string -> option Z -> option Headers ->
    Result ContentResponse.t;
  scrapWithFetch : list Event -> string -> Result ContentResponse.t;
  fetchAndProcessPdf :
    list Event -> string -> option bool -> Result ContentResponse.t;
  handleCustomScraping :
    list Event -> string -> string -> Result (option Directive.t);
  removeUnwantedElements : string -> PageOptions.t -> Result string;
  parseMarkdown : string -> Result string;
  (** [extractMetadata(cheerio.load(rawHtml), url)] *)
  extractMetadata : string -> string -> Result (gmap string JS.value);
}.

(** ** State and exceptions *)

Record Machine := {
  trace : list Event;
  vars : Vars.t;
}.

Definition M (A : Type) : Type := Machine -> Machine * Result A.

Definition ret {A} (a : A) : M A := fun m => (m, Ok a).

Definition bind {A B} (c : M A) (k : A -> M B) : M B :=
  fun m =>
    match c m with
    | (m', Ok a) => k a m'
    | (m', Throw e) => (m', Throw e)
    end.

Definition throw {A} (e : Exn) : M A := fun m => (m, Throw e).

(** The state a [catch] block sees is the state at the [throw]. *)
Definition try_catch {A} (body : M A) (handler : Exn -> M A) : M A :=
  fun m =>
    match body m with
    | (m', Ok a) => (m', Ok a)
    | (m', Throw e) => handler e m'
    end.

Definition lift {A} (r : Result A) : M A := fun m => (m, r).

Definition get_vars : M Vars.t := fun m => (m, Ok (vars m)).

Definition modify_vars (f : Vars.t -> Vars.t) : M unit :=
  fun m => ({| trace := trace m; vars := f (vars m) |}, Ok tt).

(** A call that leaves the module: it is recorded, then answered. *)
Definition call {A} (ev : Event) (answer : list Event -> Result A) : M A :=
  fun m => ({| trace := trace m ++ [ev]; vars := vars m |}, answer (trace m)).

Declare Scope js_scope.
Delimit Scope js_scope with js.
Notation "'let!' x ':=' c 'in' k" := (bind c (fun x => k))
  (at level 10, x name, c at level 99, k at level 200) : js_scope.
Notation "c ';;' k" := (bind c (fun _ => k))
  (at level 100, k at level 200, right associativity) : js_scope.

(** ** [scrapSingleUrl] (lines 456-700) *)

Section ScrapSingleUrl.

Variable env : Env.
Variable URL_hostname : string -> Result string.
Variable urlSpecificParams : gmap string (gmap string JS.value).
Variable W : World.

Local Open Scope js_scope.

(** [urlSpecificParams[urlKey]?.defaultScraper ?? ""]; the table declares
    [defaultScraper] as a string. *)
Definition defaultScraper_of (urlKey : string) : string :=
  match urlSpecificParams !! urlKey with
  | Some override =>
      match override !! "defaultScraper" with
      | Some (JS.VStr s) => s
      | _ => ""
      end
  | None => ""
  end.

Section Call.

Variable pageOptions : PageOptions.t.
Variable extractorOptions : ExtractorOptions.t.
Variable existingHtml : string.

Definition emptyResponse : ScraperResponse.t :=
  {| ScraperResponse.text := ""; ScraperResponse.screenshot := "";
     ScraperResponse.pageStatusCode := None;
     ScraperResponse.pageError := None |}.

Definition ofContentResponse (response : ContentResponse.t)
  : ScraperResponse.t :=
  {| ScraperResponse.text := ContentResponse.content response;
     ScraperResponse.screenshot := "";
     ScraperResponse.pageStatusCode := ContentResponse.pageStatusCode response;
     ScraperResponse.pageError := ContentResponse.pageError response |}.

(** The first [switch] of [attemptScraping]: the adapter named [method], when
    its endpoint or key is configured. *)
Definition callScraper (url method : string) : M ScraperResponse.t :=
  if (method =? "fire-engine")%string then
    if JS.truthy_ostring (FIRE_ENGINE_BETA_URL env) then
      let args :=
        {| FireEngineArgs.url := url;
           FireEngineArgs.waitFor := PageOptions.waitFor pageOptions;
           FireEngineArgs.screenshot := PageOptions.screenshot pageOptions;
           FireEngineArgs.pageOptions := pageOptions;
           FireEngineArgs.headers := PageOptions.headers pageOptions |} in
      let! response :=
        call (CallFireEngine args) (fun h => scrapWithFireEngine W h args) in
      ret {| ScraperResponse.text := FireEngineResponse.html response;
             ScraperResponse.screenshot :=
               FireEngineResponse.screenshot response;
             ScraperResponse.pageStatusCode :=
               FireEngineResponse.pageStatusCode response;
             ScraperResponse.pageError :=
               FireEngineResponse.pageError response |}
    else ret emptyResponse
  else if (method =? "scrapingBee")%string then
    if JS.truthy_ostring (SCRAPING_BEE_API_KEY env) then
      let timeout :=
        match PageOptions.fallback pageOptions with
        | Some false => 7000
        | _ => 15000
        end in
      let! response :=
        call (CallScrapingBee url "domcontentloaded" timeout)
             (fun h => scrapWithScrapingBee W h url "domcontentloaded" timeout) in
      ret (ofContentResponse response)
    else ret emptyResponse
  else if (method =? "playwright")%string then
    if JS.truthy_ostring (PLAYWRIGHT_MICROSERVICE_URL env) then
      let waitFor := PageOptions.waitFor pageOptions in
      let headers := PageOptions.headers pageOptions in
      let! response :=
        call (CallPlaywright url waitFor headers)
             (fun h => scrapWithPlaywright W h url waitFor headers) in
      ret (ofContentResponse response)
    else ret emptyResponse
  else if (method =? "scrapingBeeLoad")%string then
    if JS.truthy_ostring (SCRAPING_BEE_API_KEY env) then
      let! response :=
        call (CallScrapingBee url "networkidle2" universalTimeout)
             (fun h => scrapWithScrapingBee W h url "networkidle2"
                         universalTimeout) in
      ret (ofContentResponse response)
    else ret emptyResponse
  else if (method =? "fetch")%string then
    let! response := call (CallFetch url) (fun h => scrapWithFetch W h url) in
    ret (ofContentResponse response)
  else ret emptyResponse.

(** The second [switch]: the extra fetch a directive of the hook asks for.
    [screenshot] is the local variable of [attemptScraping]. *)
Definition customScrape (screenshot : string) (directive : Directive.t)
  : M (option FireEngineResponse.t) :=
  match Directive.scraper directive with
  | Directive.FireEngine =>
      let args :=
        {| FireEngineArgs.url := Directive.url directive;
           FireEngineArgs.waitFor := Directive.waitAfterLoad directive;
           FireEngineArgs.screenshot := Some false;
           FireEngineArgs.pageOptions := Directive.pageOptions directive;
           FireEngineArgs.headers := None |} in
      let! customScrapedContent :=
        call (CallFireEngine args) (fun h => scrapWithFireEngine W h args) in
      ret (Some
             (if JS.truthy_string screenshot
              then {| FireEngineResponse.html :=
                        FireEngineResponse.html customScrapedContent;
                      FireEngineResponse.screenshot := screenshot;
                      FireEngineResponse.pageStatusCode :=
                        FireEngineResponse.pageStatusCode customScrapedContent;
                      FireEngineResponse.pageError :=
                        FireEngineResponse.pageError customScrapedContent |}
              else customScrapedContent))
  | Directive.Pdf =>
      let url := Directive.url directive in
      let parsePDF := PageOptions.parsePDF pageOptions in
      let! pdf :=
        call (CallPdf url parsePDF) (fun h => fetchAndProcessPdf W h url parsePDF) in
      ret (Some {| FireEngineResponse.html := ContentResponse.content pdf;
                   FireEngineResponse.screenshot := screenshot;
                   FireEngineResponse.pageStatusCode :=
                     ContentResponse.pageStatusCode pdf;
                   FireEngineResponse.pageError :=
                     ContentResponse.pageError pdf |})
  end.

(** The closure [attemptScraping] (lines 473-592). *)
Definition attemptScraping (url method : string) : M Attempt.t :=
  let screenshot := "" in
  let! scraperResponse := callScraper url method in
  let! customScraperResult :=
    call (CallHook (ScraperResponse.text scraperResponse) url)
         (fun h => handleCustomScraping W h
                     (ScraperResponse.text scraperResponse) url) in
  let! customScrapedContent :=
    match customScraperResult with
    | Some directive => customScrape screenshot directive
    | None => ret None
    end in
  (* [if (customScrapedContent)]: the text of [scraperResponse] and the local
     [screenshot] are reassigned; [scraperResponse.screenshot] is not. *)
  let text' :=
    match customScrapedContent with
    | Some c => FireEngineResponse.html c
    | None => ScraperResponse.text scraperResponse
    end in
  let screenshot' :=
    match customScrapedContent with
    | Some c => FireEngineResponse.screenshot c
    | None => screenshot
    end in
  let! cleanedHtml := lift (removeUnwantedElements W text' pageOptions) in
  let! markdown := lift (parseMarkdown W cleanedHtml) in
  ret {| Attempt.text := markdown;
         Attempt.html := cleanedHtml;
         Attempt.rawHtml := text';
         Attempt.screenshot := ScraperResponse.screenshot scraperResponse;
         Attempt.pageStatusCode :=
           ScraperResponse.pageStatusCode scraperResponse;
         Attempt.pageError :=
           JS.or_undefined (ScraperResponse.pageError scraperResponse) |}.

(** [text && text.trim().length >= 100] *)
Definition sufficient (text : string) : bool :=
  JS.truthy_string text && (100 <=? JS.length (JS.trim text)).

(** The four assignments from the attempt. *)
Definition assign_attempt (attempt : Attempt.t) (v : Vars.t) : Vars.t :=
  {| Vars.text := Attempt.text attempt;
     Vars.html := Attempt.html attempt;
     Vars.rawHtml := Attempt.rawHtml attempt;
     Vars.screenshot := Attempt.screenshot attempt;
     Vars.pageStatusCode := Vars.pageStatusCode v;
     Vars.pageError := Vars.pageError v |}.

(** [if (attempt.pageStatusCode) pageStatusCode = attempt.pageStatusCode;] *)
Definition carry_status (attempt : Attempt.t) (v : Vars.t) : Vars.t :=
  match Attempt.pageStatusCode attempt with
  | Some code =>
      if JS.truthy_onumber (Some code)
      then {| Vars.text := Vars.text v; Vars.html := Vars.html v;
              Vars.rawHtml := Vars.rawHtml v;
              Vars.screenshot := Vars.screenshot v;
              Vars.pageStatusCode := code;
              Vars.pageError := Vars.pageError v |}
      else v
  | None => v
  end.

Definition set_pageError (e : option string) (v : Vars.t) : Vars.t :=
  {| Vars.text := Vars.text v; Vars.html := Vars.html v;
     Vars.rawHtml := Vars.rawHtml v; Vars.screenshot := Vars.screenshot v;
     Vars.pageStatusCode := Vars.pageStatusCode v;
     Vars.pageError := e |}.

(** [if (attempt.pageError && attempt.pageStatusCode >= 400) ...
     else if (attempt.pageStatusCode < 400) ...] *)
Definition carry_error (attempt : Attempt.t) (v : Vars.t) : Vars.t :=
  if JS.truthy_ostring (Attempt.pageError attempt)
     && JS.oge (Attempt.pageStatusCode attempt) 400
  then set_pageError (Attempt.pageError attempt) v
  else if JS.olt (Attempt.pageStatusCode attempt) 400
  then set_pageError None v
  else v.

(** One attempt folded into the carried variables. *)
Definition carry (attempt : Attempt.t) (v : Vars.t) : Vars.t :=
  carry_error attempt (carry_status attempt (assign_attempt attempt v)).

(** [pageStatusCode && pageStatusCode == 404], on the carried status. *)
Definition carried_404 (v : Vars.t) : bool :=
  JS.truthy_onumber (Some (Vars.pageStatusCode v))
  && (Vars.pageStatusCode v =? 404).

Definition set_text (t : string) (v : Vars.t) : Vars.t :=
  {| Vars.text := t; Vars.html := Vars.html v;
     Vars.rawHtml := Vars.rawHtml v; Vars.screenshot := Vars.screenshot v;
     Vars.pageStatusCode := Vars.pageStatusCode v;
     Vars.pageError := Vars.pageError v |}.

Definition set_html (h : string) (v : Vars.t) : Vars.t :=
  {| Vars.text := Vars.text v; Vars.html := h;
     Vars.rawHtml := Vars.rawHtml v; Vars.screenshot := Vars.screenshot v;
     Vars.pageStatusCode := Vars.pageStatusCode v;
     Vars.pageError := Vars.pageError v |}.

(** The branch of the loop body that uses the text coming from the crawler. *)
Definition use_existingHtml : M unit :=
  let! cleanedHtml := lift (removeUnwantedElements W existingHtml pageOptions) in
  let! markdown := lift (parseMarkdown W cleanedHtml) in
  modify_vars (set_text markdown);;
  modify_vars (set_html cleanedHtml);;
  ret tt.

(** [for (const scraper of scrapersInOrder) { ... }] (lines 617-647);
    returning [tt] without the recursive call is [break]. *)
Fixpoint for_scrapers (urlToScrap : string) (scrapersInOrder : list string)
  : M unit :=
  match scrapersInOrder with
  | [] => ret tt
  | scraper :: rest =>
      if sufficient existingHtml then use_existingHtml
      else
        let! attempt := attemptScraping urlToScrap scraper in
        modify_vars (assign_attempt attempt);;
        modify_vars (carry_status attempt);;
        modify_vars (carry_error attempt);;
        let! v := get_vars in
        if sufficient (Vars.text v) then ret tt
        else if carried_404 v then ret tt
        else for_scrapers urlToScrap rest
  end.

(** The judging step in the words of the specification: first the length of
    the trimmed text of the attempt, then the status code of the attempt. *)
Inductive Verdict : Type := Succeeded | Exhausted | Advance.

Definition judge (attempt : Attempt.t) : Verdict :=
  if 100 <=? JS.length (JS.trim (Attempt.text attempt)) then Succeeded
  else
    match Attempt.pageStatusCode attempt with
    | Some code => if code =? 404 then Exhausted else Advance
    | None => Advance
    end.

(** The loop in the words of the specification, to be compared with
    [for_scrapers]: attempt, fold the attempt into the carried variables,
    judge the attempt. *)
Fixpoint judging_loop (urlToScrap : string) (scrapersInOrder : list string)
  : M unit :=
  match scrapersInOrder with
  | [] => ret tt
  | scraper :: rest =>
      if sufficient existingHtml then use_existingHtml
      else
        let! attempt := attemptScraping urlToScrap scraper in
        modify_vars (carry attempt);;
        match judge attempt with
        | Succeeded => ret tt
        | Exhausted => ret tt
        | Advance => judging_loop urlToScrap rest
        end
  end.

(** The three flags [scrapSingleUrl] passes to the planner, by truthiness. *)
Definition isWaitPresent : bool :=
  match PageOptions.waitFor pageOptions with
  | Some w => negb (w =? 0) && (0 <? w)
  | None => false
  end.
Definition isScreenshotPresent : bool :=
  match PageOptions.screenshot pageOptions with
  | Some b => b
  | None => false
  end.
Definition isHeadersPresent : bool :=
  match PageOptions.headers pageOptions with
  | Some _ => true
  | None => false
  end.

Definition plan_for (urlToScrap : string) : list string :=
  let urlKey :=
    match urlKey_of URL_hostname urlToScrap with
    | Ok k => k
    | Throw _ => urlToScrap
    end in
  let defaultScraper := defaultScraper_of urlKey in
  getScrapingFallbackOrder env (Some defaultScraper)
    isWaitPresent isScreenshotPresent isHeadersPresent.

Definition is_true_option (o : option bool) : bool :=
  match o with Some b => b | None => false end.

Definition build_document (urlToScrap : string) (v : Vars.t)
    (metadata : gmap string JS.value) : Document.t :=
  let html :=
    if is_true_option (PageOptions.includeHtml pageOptions)
    then Some (Vars.html v) else None in
  let rawHtml :=
    if is_true_option (PageOptions.includeRawHtml pageOptions)
       || (ExtractorOptions.mode extractorOptions
           =? "llm-extraction-from-raw-html")%string
    then Some (Vars.rawHtml v) else None in
  let tail :=
    <["sourceURL" := JS.VStr urlToScrap]>
      (<["pageStatusCode" := JS.VNum (Vars.pageStatusCode v)]>
         (<["pageError" := JS.of_ostring (Vars.pageError v)]> metadata)) in
  if JS.truthy_string (Vars.screenshot v)
     && (0 <? JS.length (Vars.screenshot v))
  then {| Document.content := Vars.text v;
          Document.markdown := Vars.text v;
          Document.html := html;
          Document.rawHtml := rawHtml;
          Document.metadata :=
            <["screenshot" := JS.VStr (Vars.screenshot v)]> tail |}
  else {| Document.content := Vars.text v;
          Document.markdown := Vars.text v;
          Document.html := html;
          Document.rawHtml := rawHtml;
          Document.metadata := tail |}.

(** The document of the [catch] block (lines 689-698). *)
Definition degraded_document (urlToScrap : string) (pageStatusCode : Z)
    (pageError : option string) : Document.t :=
  {| Document.content := "";
     Document.markdown := "";
     Document.html := Some "";
     Document.rawHtml := None;
     Document.metadata :=
       {[ "sourceURL" := JS.VStr urlToScrap;
          "pageStatusCode" := JS.VNum pageStatusCode;
          "pageError" := JS.of_ostring pageError ]} |}.

(** The body of the [try] block (lines 603-686). *)
Definition scrapSingleUrl_try (urlToScrap : string) : M Document.t :=
  let scrapersInOrder := plan_for urlToScrap in
  for_scrapers urlToScrap scrapersInOrder;;
  let! v := get_vars in
  if negb (JS.truthy_string (Vars.text v)) then
    throw (Error ("All scraping methods failed for URL: " +:+ urlToScrap))
  else
    let! metadata := lift (extractMetadata W (Vars.rawHtml v) urlToScrap) in
    ret (build_document urlToScrap v metadata).

Definition scrapSingleUrl (urlToScrap : string) : M Document.t :=
  let urlToScrap := JS.trim urlToScrap in
  modify_vars (fun _ => Vars.init);;
  try_catch
    (scrapSingleUrl_try urlToScrap)
    (fun error =>
       let! v := get_vars in
       ret (degraded_document urlToScrap
              (Vars.pageStatusCode v) (Vars.pageError v))).

End Call.

End ScrapSingleUrl.

(** ** Vocabulary of the properties and concrete configurations *)

(** The render service and the browser microservice. *)
Definition is_heavy (scraper : string) : bool :=
  (scraper =? "fire-engine")%string || (scraper =? "playwright")%string.

Definition env_all : Env :=
  {| SCRAPING_BEE_API_KEY := Some "key";
     FIRE_ENGINE_BETA_URL := Some "http://fire";
     PLAYWRIGHT_MICROSERVICE_URL := Some "http://pw" |}.

Definition env_none : Env :=
  {| SCRAPING_BEE_API_KEY := None;
     FIRE_ENGINE_BETA_URL := None;
     PLAYWRIGHT_MICROSERVICE_URL := None |}.

(** The attempts of a run, folded into the carried variables in order. *)
Definition carry_all (attempts : list Attempt.t) (v : Vars.t) : Vars.t :=
  fold_left (fun v attempt => carry attempt v) attempts v.

(** The attempts on the backends [scrapers], one after the other: each
    attempt starts from the trace the previous one left, and is folded into
    the carried variables. [None] when an attempt throws. *)
Fixpoint attempts_on (env : Env) (W : World) (pageOptions : PageOptions.t)
    (url : string) (scrapers : list string) (m : Machine)
  : option (list Attempt.t * Machine) :=
  match scrapers with
  | [] => Some ([], m)
  | scraper :: rest =>
      match attemptScraping env W pageOptions url scraper m with
      | (m1, Ok a) =>
          match attempts_on env W pageOptions url rest
                  {| trace := trace m1; vars := carry a (vars m1) |} with
          | Some (attempts, m') => Some (a :: attempts, m')
          | None => None
          end
      | (_, Throw _) => None
      end
  end.

(** The most recent status code that is not [undefined], in the words of the
    specification. *)
Definition last_non_null_status (attempts : list Attempt.t) : option Z :=
  fold_left
    (fun acc attempt =>
       match Attempt.pageStatusCode attempt with
       | Some code => Some code
       | None => acc
       end)
    attempts None.

(** The most recent status code that is truthy: neither [undefined] nor 0. *)
Definition last_truthy_status (attempts : list Attempt.t) : option Z :=
  fold_left
    (fun acc attempt =>
       if JS.truthy_onumber (Attempt.pageStatusCode attempt)
       then Attempt.pageStatusCode attempt
       else acc)
    attempts None.

(** The error is carried only with a status of 400 or more. *)
Definition error_needs_failure (v : Vars.t) : Prop :=
  Vars.pageError v ≠ None → 400 ≤ Vars.pageStatusCode v.

(** A computation that leaves the loop variables alone. *)
Definition preserves_vars {A} (c : M A) : Prop :=
  ∀ m, vars (c m).1 = vars m.

(** A computation that makes no call out of the module. *)
Definition silent {A} (c : M A) : Prop :=
  ∀ m, trace (c m).1 = trace m.

(** The default value of the [pageOptions] parameter of [scrapSingleUrl]. *)
Definition defaultPageOptions : PageOptions.t :=
  {| PageOptions.onlyMainContent := Some true;
     PageOptions.includeHtml := Some false;
     PageOptions.includeRawHtml := Some false;
     PageOptions.waitFor := Some 0;
     PageOptions.screenshot := Some false;
     PageOptions.headers := None;
     PageOptions.parsePDF := None;
     PageOptions.fallback := None;
     PageOptions.scrollXPaths := None |}.

Definition defaultExtractorOptions : ExtractorOptions.t :=
  {| ExtractorOptions.mode := "llm-extraction-from-markdown" |}.

Definition emptyContent : ContentResponse.t :=
  {| ContentResponse.content := "";
     ContentResponse.pageStatusCode := None;
     ContentResponse.pageError := None |}.

(** A world where every backend fails at the transport level: each adapter
    returns its [catch] answer, an empty content without status. The hook
    has no directive, cleaning and conversion keep the text. *)
Definition offline_world : World :=
  {| scrapWithFireEngine := fun _ _ =>
       Ok {| FireEngineResponse.html := "";
             FireEngineResponse.screenshot := "";
             FireEngineResponse.pageStatusCode := None;
             FireEngineResponse.pageError := None |};
     scrapWithScrapingBee := fun _ _ _ _ => Ok emptyContent;
     scrapWithPlaywright := fun _ _ _ _ => Ok emptyContent;
     scrapWithFetch := fun _ _ => Ok emptyContent;
     fetchAndProcessPdf := fun _ _ _ => Ok emptyContent;
     handleCustomScraping := fun _ _ _ => Ok None;
     removeUnwantedElements := fun html _ => Ok html;
     parseMarkdown := fun html => Ok html;
     extractMetadata := fun _ _ => Ok ∅ |}.

(** [pageOptions] of a request that wants a screenshot. *)
Definition screenshotPageOptions : PageOptions.t :=
  {| PageOptions.onlyMainContent := Some true;
     PageOptions.includeHtml := Some false;
     PageOptions.includeRawHtml := Some false;
     PageOptions.waitFor := Some 0;
     PageOptions.screenshot := Some true;
     PageOptions.headers := None;
     PageOptions.parsePDF := None;
     PageOptions.fallback := None;
     PageOptions.scrollXPaths := None |}.

(** The answer of the render service in [redirect_world]: a page with its
    screenshot when a screenshot is asked for, another page without
    screenshot otherwise. *)
Definition redirect_fire_engine (args : FireEngineArgs.t)
  : FireEngineResponse.t :=
  match FireEngineArgs.screenshot args with
  | Some true =>
      {| FireEngineResponse.html := "<p>landing page</p>";
         FireEngineResponse.screenshot := "shot-of-landing-page";
         FireEngineResponse.pageStatusCode := Some 200;
         FireEngineResponse.pageError := None |}
  | _ =>
      {| FireEngineResponse.html := "<p>documentation page</p>";
         FireEngineResponse.screenshot := "";
         FireEngineResponse.pageStatusCode := Some 200;
         FireEngineResponse.pageError := None |}
  end.

(** The extra fetch the hook of [redirect_world] asks for. *)
Definition redirect_directive (url : string) : Directive.t :=
  {| Directive.scraper := Directive.FireEngine;
     Directive.url := url;
     Directive.waitAfterLoad := Some 1000;
     Directive.pageOptions := defaultPageOptions |}.

(** A world where the hook sends every page to the render service again. *)
Definition redirect_world : World :=
  {| scrapWithFireEngine := fun _ args => Ok (redirect_fire_engine args);
     scrapWithScrapingBee := fun _ _ _ _ => Ok emptyContent;
     scrapWithPlaywright := fun _ _ _ _ => Ok emptyContent;
     scrapWithFetch := fun _ _ => Ok emptyContent;
     fetchAndProcessPdf := fun _ _ _ => Ok emptyContent;
     handleCustomScraping := fun _ _ url => Ok (Some (redirect_directive url));
     removeUnwantedElements := fun html _ => Ok html;
     parseMarkdown := fun html => Ok html;
     extractMetadata := fun _ _ => Ok ∅ |}.


Definition env_fire_engine : Env :=
  {| SCRAPING_BEE_API_KEY := None;
     FIRE_ENGINE_BETA_URL := Some "http://fire";
     PLAYWRIGHT_MICROSERVICE_URL := None |}.

Definition machine0 : Machine := {| trace := []; vars := Vars.init |}.

(** A text of [n] characters. *)
Definition chars (n : nat) : string :=
  string_of_list_ascii (repeat "a"%char n).

Definition hundred_chars : string := chars 100.

(** A world where the proxy answers a short page and the render service a
    long one. *)
Definition two_step_world : World :=
  {| scrapWithFireEngine := fun _ _ =>
       Ok {| FireEngineResponse.html := chars 150;
             FireEngineResponse.screenshot := "";
             FireEngineResponse.pageStatusCode := Some 200;
             FireEngineResponse.pageError := None |};
     scrapWithScrapingBee := fun _ _ _ _ =>
       Ok {| ContentResponse.content := chars 40;
             ContentResponse.pageStatusCode := Some 200;
             ContentResponse.pageError := None |};
     scrapWithPlaywright := fun _ _ _ _ => Ok emptyContent;
     scrapWithFetch := fun _ _ => Ok emptyContent;
     fetchAndProcessPdf := fun _ _ _ => Ok emptyContent;
     handleCustomScraping := fun _ _ _ => Ok None;
     removeUnwantedElements := fun html _ => Ok html;
     parseMarkdown := fun html => Ok html;
     extractMetadata := fun _ _ => Ok ∅ |}.

(** A world where the proxy answers 404 without content. *)
Definition not_found_world : World :=
  {| scrapWithFireEngine := fun _ _ =>
       Ok {| FireEngineResponse.html := chars 150;
             FireEngineResponse.screenshot := "";
             FireEngineResponse.pageStatusCode := Some 200;
             FireEngineResponse.pageError := None |};
     scrapWithScrapingBee := fun _ _ _ _ =>
       Ok {| ContentResponse.content := "";
             ContentResponse.pageStatusCode := Some 404;
             ContentResponse.pageError := Some "Not Found" |};
     scrapWithPlaywright := fun _ _ _ _ => Ok emptyContent;
     scrapWithFetch := fun _ _ => Ok emptyContent;
     fetchAndProcessPdf := fun _ _ _ => Ok emptyContent;
     handleCustomScraping := fun _ _ _ => Ok None;
     removeUnwantedElements := fun html _ => Ok html;
     parseMarkdown := fun html => Ok html;
     extractMetadata := fun _ _ => Ok ∅ |}.

(** A world where the render service answers 500 without content and every
    other backend fails at the transport level. *)
Definition server_error_world : World :=
  {| scrapWithFireEngine := fun _ _ =>
       Ok {| FireEngineResponse.html := "";
             FireEngineResponse.screenshot := "";
             FireEngineResponse.pageStatusCode := Some 500;
             FireEngineResponse.pageError := Some "Internal Server Error" |};
     scrapWithScrapingBee := fun _ _ _ _ => Ok emptyContent;
     scrapWithPlaywright := fun _ _ _ _ => Ok emptyContent;
     scrapWithFetch := fun _ _ => Ok emptyContent;
     fetchAndProcessPdf := fun _ _ _ => Ok emptyContent;
     handleCustomScraping := fun _ _ _ => Ok None;
     removeUnwantedElements := fun html _ => Ok html;
     parseMarkdown := fun html => Ok html;
     extractMetadata := fun _ _ => Ok ∅ |}.

(** [pageOptions] of a request that wants the cleaned and the raw HTML. *)
Definition htmlPageOptions : PageOptions.t :=
  {| PageOptions.onlyMainContent := Some true;
     PageOptions.includeHtml := Some true;
     PageOptions.includeRawHtml := Some true;
     PageOptions.waitFor := Some 0;
     PageOptions.screenshot := Some false;
     PageOptions.headers := None;
     PageOptions.parsePDF := None;
     PageOptions.fallback := None;
     PageOptions.scrollXPaths := None |}.

(** The adapters a run invoked, by name. *)
Definition adapter_name (ev : Event) : option string :=
  match ev with
  | CallFireEngine _ => Some "fire-engine"
  | CallScrapingBee _ wait_browser _ =>
      if (wait_browser =? "networkidle2")%string
      then Some "scrapingBeeLoad" else Some "scrapingBee"
  | CallPlaywright _ _ _ => Some "playwright"
  | CallFetch _ => Some "fetch"
  | CallPdf _ _ | CallHook _ _ => None
  end.

Definition adapters_invoked (m : Machine) : list string :=
  omap adapter_name (trace m).

Definition mkAttempt (status : option Z) (error : option string) : Attempt.t :=
  {| Attempt.text := ""; Attempt.html := ""; Attempt.rawHtml := "";
     Attempt.screenshot := "";
     Attempt.pageStatusCode := status; Attempt.pageError := error |}.

(** A URL parser that knows one URL, and a table with one override. *)
Definition example_URL_hostname (url : string) : Result string :=
  if (url =? "https://www.example.com/docs")%string
  then Ok "www.example.com"
  else Throw (TypeError "Invalid URL").

Definition example_override : gmap string JS.value :=
  {[ "defaultScraper" := JS.VStr "playwright";
     "params" := JS.VObj [("wait", JS.VNum 3000)] ]}.

Definition example_urlSpecificParams : gmap string (gmap string JS.value) :=
  {[ "example.com" := example_override ]}.

(** ** Vocabulary of the further properties *)

(** The calls of a trace that satisfy [p]. *)
Definition count_calls (p : Event → bool) (tr : list Event) : nat :=
  length (List.filter p tr).

(** The variables and the document of the run in [two_step_world]. *)
Definition two_step_vars : Vars.t :=
  {| Vars.text := chars 150; Vars.html := chars 150;
     Vars.rawHtml := chars 150; Vars.screenshot := "";
     Vars.pageStatusCode := 200; Vars.pageError := None |}.


(** The document of the same run for a request that wants the cleaned and
    the raw HTML. *)
Definition two_step_html_document : Document.t :=
  build_document htmlPageOptions defaultExtractorOptions
    "https://example.org" two_step_vars ∅.

(** The document made from [hundred_chars] coming from the crawler. *)
Definition prefetched_document : Document.t :=
  build_document defaultPageOptions defaultExtractorOptions
    "https://example.org"
    (set_html hundred_chars (set_text hundred_chars Vars.init)) ∅.

(** ** The backend adapters (lines 50-396)

    [scrapWithFireEngine], [scrapWithScrapingBee], [scrapWithPlaywright] and
    [scrapWithFetch], each a [try]/[catch]/[finally] around one outbound
    request. The HTTP clients, [TextDecoder], [JSON.parse], the PDF extractor
    and [logScrape] are collaborators; payload fields are taken at their
    declared types; [Date.now()] and the fields of the log record computed
    from it are not modelled. *)

(** [s.includes(sub)] *)
Definition string_includes (s sub : string) : bool :=
  match String.index 0 sub s with
  | Some _ => true
  | None => false
  end.

(** [contentType && contentType.includes("application/pdf")] *)
Definition is_pdf (contentType : option string) : bool :=
  match contentType with
  | Some ct => JS.truthy_string ct && string_includes ct "application/pdf"
  | None => false
  end.

(** The error an HTTP client rejects with: [error.code], [error.message],
    and [error.response] with its [status] and [statusText]. *)
Module AxiosError.
Record t := {
  code : option string;
  message : string;
  response : option (Z * string);
}.
End AxiosError.

(** What a [catch] block of an adapter can receive. *)
Inductive Thrown : Type :=
| Rejected (e : AxiosError.t)
| Raised (e : Exn).

Definition thrown_code (error : Thrown) : option string :=
  match error with
  | Rejected e => AxiosError.code e
  | Raised _ => None
  end.

Definition thrown_message (error : Thrown) : string :=
  match error with
  | Rejected e => AxiosError.message e
  | Raised (TypeError msg) => msg
  | Raised (Error msg) => msg
  end.

(** [error.response?.status] and [error.response?.statusText] *)
Definition thrown_status (error : Thrown) : option Z :=
  match error with
  | Rejected e => fst <$> AxiosError.response e
  | Raised _ => None
  end.

Definition thrown_statusText (error : Thrown) : option string :=
  match error with
  | Rejected e => snd <$> AxiosError.response e
  | Raised _ => None
  end.

Inductive Outcome (A : Type) : Type :=
| Returned (a : A)
| Threw (error : Thrown).
Arguments Returned {A} a.
Arguments Threw {A} error.

Definition of_result {A} (r : Result A) : Outcome A :=
  match r with
  | Ok a => Returned a
  | Throw e => Threw (Raised e)
  end.

(** An HTTP response: [status], [statusText], [headers["content-type"]] and
    [data]. *)
Module HttpResponse.
Record t (D : Type) := {
  status : Z;
  statusText : string;
  contentType : option string;
  data : D;
}.
Arguments status {D} _.
Arguments statusText {D} _.
Arguments contentType {D} _.
Arguments data {D} _.
End HttpResponse.

(** The JSON object the render service and the browser microservice answer:
    [{ content, screenshot, pageStatusCode, pageError }]. *)
Module PagePayload.
Record t := {
  content : option string;
  screenshot : option string;
  pageStatusCode : option Z;
  pageError : option string;
}.
End PagePayload.

(** [logParams]. *)
Module LogRecord.
Record t := {
  url : string;
  scraper : string;
  success : bool;
  response_code : option Z;
  error_message : option string;
  html : option string;
}.
Definition initial (url scraper : string) : t :=
  {| url := url; scraper := scraper; success := false;
     response_code := None; error_message := Some ""; html := Some "" |}.
Definition set_success (b : bool) (l : t) : t :=
  {| url := url l; scraper := scraper l; success := b;
     response_code := response_code l; error_message := error_message l;
     html := html l |}.
Definition set_response_code (c : option Z) (l : t) : t :=
  {| url := url l; scraper := scraper l; success := success l;
     response_code := c; error_message := error_message l;
     html := html l |}.
Definition set_error_message (e : option string) (l : t) : t :=
  {| url := url l; scraper := scraper l; success := success l;
     response_code := response_code l; error_message := e;
     html := html l |}.
Definition set_html (h : option string) (l : t) : t :=
  {| url := url l; scraper := scraper l; success := success l;
     response_code := response_code l; error_message := error_message l;
     html := h |}.
End LogRecord.

(** The JSON body of the POST to the render service. *)
Module FireEngineBody.
Record t := {
  url : string;
  wait : Z;
  screenshot : bool;
  headers : option Headers;
  pageOptions : PageOptions.t;
}.
End FireEngineBody.

(** The JSON body of the POST to the browser microservice. *)
Module PlaywrightBody.
Record t := {
  url : string;
  wait_after_load : Z;
  headers : option Headers;
}.
End PlaywrightBody.

(** The calls an adapter makes. *)
Inductive NetCall : Type :=
| PostFireEngine (endpoint : string) (body : FireEngineBody.t) (timeout : Z)
| PostPlaywright (endpoint : option string) (body : PlaywrightBody.t)
    (timeout : Z)
| GetUrl (url : string) (timeout : Z)
| ScrapingBeeGet (apiKey : option string) (params : gmap string JS.value)
| ProcessPdf (url : string) (parsePDF : option bool)
| LogScrape (record : LogRecord.t).

Definition is_request (c : NetCall) : bool :=
  match c with
  | PostFireEngine _ _ _ | PostPlaywright _ _ _ | GetUrl _ _
  | ScrapingBeeGet _ _ => true
  | ProcessPdf _ _ | LogScrape _ => false
  end.

Definition is_log (c : NetCall) : bool :=
  match c with
  | LogScrape _ => true
  | _ => false
  end.

(** The collaborators of the adapters; a call that leaves the process
    receives the calls made so far. *)
Module Net.
Record t := {
  axios_post_fire_engine :
    list NetCall → string → FireEngineBody.t → Z →
    Outcome (HttpResponse.t (option PagePayload.t));
  (** with [transformResponse: [(data) => data]], the data is the raw text *)
  axios_post_playwright :
    list NetCall → option string → PlaywrightBody.t → Z →
    Outcome (HttpResponse.t string);
  axios_get : list NetCall → string → Z → Outcome (HttpResponse.t string);
  (** [new ScrapingBeeClient(key).get(params)]; the data is a buffer *)
  scrapingBee_get :
    list NetCall → option string → gmap string JS.value →
    Outcome (HttpResponse.t string);
  TextDecoder_decode : string → Outcome string;
  (** [JSON.parse]; [None] is [null] *)
  JSON_parse : string → Outcome (option PagePayload.t);
  fetchAndProcessPdf :
    list NetCall → string → option bool → Outcome ContentResponse.t;
  logScrape : list NetCall → LogRecord.t → Outcome unit;
}.
End Net.

(** The state of an adapter call: [logParams] and the calls made. *)
Module AdapterState.
Record t := {
  log : LogRecord.t;
  calls : list NetCall;
}.
End AdapterState.

Definition Adapter (A : Type) : Type :=
  AdapterState.t → AdapterState.t * Outcome A.

Module Ad.

Definition ret {A} (a : A) : Adapter A := λ s, (s, Returned a).

Definition bind {A B} (c : Adapter A) (k : A → Adapter B) : Adapter B :=
  λ s,
    match c s with
    | (s', Returned a) => k a s'
    | (s', Threw error) => (s', Threw error)
    end.

Definition throw {A} (error : Thrown) : Adapter A := λ s, (s, Threw error).

Definition lift {A} (o : Outcome A) : Adapter A := λ s, (s, o).

Definition try_catch {A} (body : Adapter A) (handler : Thrown → Adapter A)
  : Adapter A :=
  λ s,
    match body s with
    | (s', Returned a) => (s', Returned a)
    | (s', Threw error) => handler error s'
    end.

(** [try { body } finally { cleanup }]: the cleanup runs on every exit of the
    body; what it throws replaces the outcome of the body. *)
Definition finally {A} (body : Adapter A) (cleanup : Adapter unit)
  : Adapter A :=
  λ s,
    match body s with
    | (s', outcome) =>
        match cleanup s' with
        | (s'', Returned _) => (s'', outcome)
        | (s'', Threw error) => (s'', Threw error)
        end
    end.

Definition get_log : Adapter LogRecord.t :=
  λ s, (s, Returned (AdapterState.log s)).

Definition modify_log (f : LogRecord.t → LogRecord.t) : Adapter unit :=
  λ s, ({| AdapterState.log := f (AdapterState.log s);
           AdapterState.calls := AdapterState.calls s |}, Returned tt).

Definition request {A} (c : NetCall) (answer : list NetCall → Outcome A)
  : Adapter A :=
  λ s, ({| AdapterState.log := AdapterState.log s;
           AdapterState.calls := AdapterState.calls s ++ [c] |},
        answer (AdapterState.calls s)).

End Ad.

Declare Scope adapter_scope.
Delimit Scope adapter_scope with adapter.
Notation "'let!' x ':=' c 'in' k" := (Ad.bind c (fun x => k))
  (at level 10, x name, c at level 99, k at level 200) : adapter_scope.
Notation "c ';;' k" := (Ad.bind c (fun _ => k))
  (at level 100, k at level 200, right associativity) : adapter_scope.

(** [reqParams["params"]?.[k]]; the table declares [params] as an object. *)
Definition param_of (reqParams : gmap string JS.value) (k : string)
  : option JS.value :=
  match reqParams !! "params" with
  | Some (JS.VObj fields) =>
      snd <$> List.find (λ kv, (fst kv =? k)%string) fields
  | _ => None
  end.

(** [reqParams["params"]?.wait ?? waitFor]; the table declares [wait] as a
    number. *)
Definition wait_param (reqParams : gmap string JS.value) (waitFor : Z) : Z :=
  match param_of reqParams "wait" with
  | Some (JS.VNum n) => n
  | _ => waitFor
  end.

(** [reqParams["params"]?.screenshot ?? screenshot] *)
Definition screenshot_param (reqParams : gmap string JS.value)
    (screenshot : bool) : bool :=
  match param_of reqParams "screenshot" with
  | Some (JS.VBool b) => b
  | _ => screenshot
  end.

(** [{...fields, [k]: v}] on the fields of an object: an existing key keeps
    its place, a new one comes last. *)
Fixpoint set_field (k : string) (v : JS.value)
    (fields : list (string * JS.value)) : list (string * JS.value) :=
  match fields with
  | [] => [(k, v)]
  | (k', v') :: rest =>
      if (k' =? k)%string then (k, v) :: rest
      else (k', v') :: set_field k v rest
  end.

(** The fields [...clientParams.params] spreads. *)
Definition params_fields (clientParams : gmap string JS.value)
  : list (string * JS.value) :=
  match clientParams !! "params" with
  | Some (JS.VObj fields) => fields
  | _ => []
  end.

(** [status >= 200 && status < 300 || status === 404] *)
Definition success_status (code : option Z) : bool :=
  JS.oge code 200 && JS.olt code 300
  || match code with Some c => c =? 404 | None => false end.

(** [pageOptions?.parsePDF], for [pageOptions = { parsePDF: true }] by
    default. *)
Definition parsePDF_of (pageOptions : option PageOptions.t) : option bool :=
  match pageOptions with
  | Some po => PageOptions.parsePDF po
  | None => Some true
  end.

Definition emptyFireEngineResponse : FireEngineResponse.t :=
  {| FireEngineResponse.html := "";
     FireEngineResponse.screenshot := "";
     FireEngineResponse.pageStatusCode := None;
     FireEngineResponse.pageError := None |}.

(** The body [scrapWithFireEngine] posts:
    [{ url, wait: waitParam, screenshot: screenshotParam, headers,
       pageOptions }]. *)
Definition fireEngine_post_body (args : FireEngineArgs.t)
    (reqParams : gmap string JS.value) : FireEngineBody.t :=
  {| FireEngineBody.url := FireEngineArgs.url args;
     FireEngineBody.wait :=
       wait_param reqParams (default 0 (FireEngineArgs.waitFor args));
     FireEngineBody.screenshot :=
       screenshot_param reqParams
         (default false (FireEngineArgs.screenshot args));
     FireEngineBody.headers := FireEngineArgs.headers args;
     FireEngineBody.pageOptions := FireEngineArgs.pageOptions args |}.

(** The body [scrapWithPlaywright] posts:
    [{ url, wait_after_load: waitParam, headers }]. *)
Definition playwright_post_body (url : string) (waitFor : option Z)
    (headers : option Headers) (reqParams : gmap string JS.value)
  : PlaywrightBody.t :=
  {| PlaywrightBody.url := url;
     PlaywrightBody.wait_after_load := wait_param reqParams (default 0 waitFor);
     PlaywrightBody.headers := headers |}.

(** The object [scrapWithScrapingBee] hands to the client:
    [{...clientParams, params: {...clientParams.params,
       transparent_status_code: "True"}}]. *)
Definition scrapingBee_params (clientParams : gmap string JS.value)
  : gmap string JS.value :=
  <["params" :=
      JS.VObj (set_field "transparent_status_code" (JS.VStr "True")
                 (params_fields clientParams))]> clientParams.

Section Adapters.

Variable env : Env.
Variable URL_hostname : string → Result string.
Variable urlSpecificParams : gmap string (gmap string JS.value).
Variable N : Net.t.

Local Open Scope adapter_scope.

(** The [catch] block of the three adapters on axios: only the logged message
    tells a timeout from another error. [error.message || error] is logged as
    the message of the error; an error with an empty message, which is logged
    as the error object itself, is written here as the empty message. *)
Definition log_failure (error : Thrown) : Adapter unit :=
  if bool_decide (thrown_code error = Some "ECONNABORTED")
  then Ad.modify_log (LogRecord.set_error_message (Some "Request timed out"))
  else Ad.modify_log
         (LogRecord.set_error_message (Some (thrown_message error))).

(** The [finally] block: [await logScrape(logParams)]. *)
Definition log_scrape : Adapter unit :=
  let! record := Ad.get_log in
  Ad.request (LogScrape record) (λ h, Net.logScrape N h record).

Definition process_pdf (url : string) (parsePDF : option bool)
  : Adapter ContentResponse.t :=
  Ad.request (ProcessPdf url parsePDF)
    (λ h, Net.fetchAndProcessPdf N h url parsePDF).

(** [scrapWithFireEngine] (lines 50-161). *)
Definition scrapWithFireEngine_body (args : FireEngineArgs.t)
  : Adapter FireEngineResponse.t :=
  let url := FireEngineArgs.url args in
  let pageOptions := FireEngineArgs.pageOptions args in
  Ad.modify_log (λ _, LogRecord.initial url "fire-engine");;
  Ad.finally
    (Ad.try_catch
       (let! reqParams :=
          Ad.lift (of_result
                     (generateRequestParams URL_hostname urlSpecificParams
                        url "domcontentloaded" 15000)) in
        let body := fireEngine_post_body args reqParams in
        let waitParam := FireEngineBody.wait body in
        let endpoint :=
          default "undefined" (FIRE_ENGINE_BETA_URL env) +:+ "/scrape" in
        let timeout := universalTimeout + waitParam in
        let! response :=
          Ad.request (PostFireEngine endpoint body timeout)
            (λ h, Net.axios_post_fire_engine N h endpoint body timeout) in
        let data := HttpResponse.data response in
        if negb (HttpResponse.status response =? 200) then
          Ad.modify_log
            (LogRecord.set_error_message (data ≫= PagePayload.pageError));;
          Ad.modify_log
            (LogRecord.set_response_code (data ≫= PagePayload.pageStatusCode));;
          Ad.ret
            {| FireEngineResponse.html := "";
               FireEngineResponse.screenshot := "";
               FireEngineResponse.pageStatusCode :=
                 data ≫= PagePayload.pageStatusCode;
               FireEngineResponse.pageError :=
                 data ≫= PagePayload.pageError |}
        else if is_pdf (HttpResponse.contentType response) then
          let! pdf := process_pdf url (PageOptions.parsePDF pageOptions) in
          Ad.modify_log (LogRecord.set_success true);;
          Ad.ret
            {| FireEngineResponse.html := ContentResponse.content pdf;
               FireEngineResponse.screenshot := "";
               FireEngineResponse.pageStatusCode :=
                 ContentResponse.pageStatusCode pdf;
               FireEngineResponse.pageError :=
                 ContentResponse.pageError pdf |}
        else
          match data with
          | None =>
              Ad.throw
                (Raised (TypeError "Cannot read properties of undefined"))
          | Some data =>
              Ad.modify_log
                (LogRecord.set_success
                   (success_status (PagePayload.pageStatusCode data)));;
              Ad.modify_log
                (LogRecord.set_html
                   (Some (default "" (PagePayload.content data))));;
              Ad.modify_log
                (LogRecord.set_response_code (PagePayload.pageStatusCode data));;
              Ad.modify_log
                (LogRecord.set_error_message (PagePayload.pageError data));;
              Ad.ret
                {| FireEngineResponse.html :=
                     default "" (PagePayload.content data);
                   FireEngineResponse.screenshot :=
                     default "" (PagePayload.screenshot data);
                   FireEngineResponse.pageStatusCode :=
                     PagePayload.pageStatusCode data;
                   FireEngineResponse.pageError :=
                     PagePayload.pageError data |}
          end)
       (λ error, log_failure error;; Ad.ret emptyFireEngineResponse))
    log_scrape.

(** [scrapWithScrapingBee] (lines 163-235). *)
Definition scrapWithScrapingBee_body
    (url wait_browser : string) (timeout : Z)
    (pageOptions : option PageOptions.t) : Adapter ContentResponse.t :=
  Ad.modify_log
    (λ _, LogRecord.initial url
            (if (wait_browser =? "networkidle2")%string
             then "scrapingBeeLoad" else "scrapingBee"));;
  Ad.finally
    (Ad.try_catch
       (let! clientParams :=
          Ad.lift (of_result
                     (generateRequestParams URL_hostname urlSpecificParams
                        url wait_browser timeout)) in
        let params := scrapingBee_params clientParams in
        let apiKey := SCRAPING_BEE_API_KEY env in
        let! response :=
          Ad.request (ScrapingBeeGet apiKey params)
            (λ h, Net.scrapingBee_get N h apiKey params) in
        if is_pdf (HttpResponse.contentType response) then
          Ad.modify_log (LogRecord.set_success true);;
          let! pdf := process_pdf url (parsePDF_of pageOptions) in
          Ad.ret
            {| ContentResponse.content := ContentResponse.content pdf;
               ContentResponse.pageStatusCode :=
                 ContentResponse.pageStatusCode pdf;
               ContentResponse.pageError := ContentResponse.pageError pdf |}
        else
          let! text :=
            Ad.try_catch
              (let! text :=
                 Ad.lift (Net.TextDecoder_decode N
                            (HttpResponse.data response)) in
               Ad.modify_log (LogRecord.set_success true);;
               Ad.ret text)
              (λ decodeError,
                 Ad.modify_log
                   (LogRecord.set_error_message
                      (Some (thrown_message decodeError)));;
                 Ad.ret "") in
          let status := HttpResponse.status response in
          let pageError :=
            if (HttpResponse.statusText response =? "OK")%string
            then None else Some (HttpResponse.statusText response) in
          Ad.modify_log (LogRecord.set_response_code (Some status));;
          Ad.modify_log (LogRecord.set_html (Some text));;
          Ad.modify_log
            (LogRecord.set_success (success_status (Some status)));;
          Ad.modify_log (LogRecord.set_error_message pageError);;
          Ad.ret
            {| ContentResponse.content := text;
               ContentResponse.pageStatusCode := Some status;
               ContentResponse.pageError := pageError |})
       (λ error,
          Ad.modify_log
            (LogRecord.set_error_message (Some (thrown_message error)));;
          Ad.modify_log (LogRecord.set_response_code (thrown_status error));;
          Ad.ret
            {| ContentResponse.content := "";
               ContentResponse.pageStatusCode := thrown_status error;
               ContentResponse.pageError := thrown_statusText error |}))
    log_scrape.

(** [scrapWithPlaywright] (lines 237-329). *)
Definition scrapWithPlaywright_body
    (url : string) (waitFor : option Z) (headers : option Headers)
    (pageOptions : option PageOptions.t) : Adapter ContentResponse.t :=
  Ad.modify_log (λ _, LogRecord.initial url "playwright");;
  Ad.finally
    (Ad.try_catch
       (let! reqParams :=
          Ad.lift (of_result
                     (generateRequestParams URL_hostname urlSpecificParams
                        url "domcontentloaded" 15000)) in
        let body := playwright_post_body url waitFor headers reqParams in
        let waitParam := PlaywrightBody.wait_after_load body in
        let endpoint := PLAYWRIGHT_MICROSERVICE_URL env in
        let timeout := universalTimeout + waitParam in
        let! response :=
          Ad.request (PostPlaywright endpoint body timeout)
            (λ h, Net.axios_post_playwright N h endpoint body timeout) in
        if negb (HttpResponse.status response =? 200) then
          (* [response.data?.pageError] on the raw text is [undefined] *)
          Ad.modify_log (LogRecord.set_error_message None);;
          Ad.modify_log (LogRecord.set_response_code None);;
          Ad.ret emptyContent
        else if is_pdf (HttpResponse.contentType response) then
          Ad.modify_log (LogRecord.set_success true);;
          process_pdf url (parsePDF_of pageOptions)
        else
          let textData := HttpResponse.data response in
          Ad.try_catch
            (let! data := Ad.lift (Net.JSON_parse N textData) in
             match data with
             | None =>
                 Ad.throw
                   (Raised (TypeError "Cannot read properties of null"))
             | Some data =>
                 let html := PagePayload.content data in
                 Ad.modify_log (LogRecord.set_success true);;
                 Ad.modify_log (LogRecord.set_html html);;
                 Ad.modify_log
                   (LogRecord.set_response_code
                      (PagePayload.pageStatusCode data));;
                 Ad.modify_log
                   (LogRecord.set_error_message (PagePayload.pageError data));;
                 Ad.ret
                   {| ContentResponse.content := default "" html;
                      ContentResponse.pageStatusCode :=
                        PagePayload.pageStatusCode data;
                      ContentResponse.pageError :=
                        PagePayload.pageError data |}
             end)
            (λ jsonError,
               Ad.modify_log
                 (LogRecord.set_error_message
                    (Some (thrown_message jsonError)));;
               Ad.ret emptyContent))
       (λ error, log_failure error;; Ad.ret emptyContent))
    log_scrape.

(** [scrapWithFetch] (lines 331-396). *)
Definition scrapWithFetch_body
    (url : string) (pageOptions : option PageOptions.t)
  : Adapter ContentResponse.t :=
  Ad.modify_log (λ _, LogRecord.initial url "fetch");;
  Ad.finally
    (Ad.try_catch
       (let! response :=
          Ad.request (GetUrl url universalTimeout)
            (λ h, Net.axios_get N h url universalTimeout) in
        let status := HttpResponse.status response in
        let statusText := HttpResponse.statusText response in
        if negb (status =? 200) then
          Ad.modify_log (LogRecord.set_error_message (Some statusText));;
          Ad.modify_log (LogRecord.set_response_code (Some status));;
          Ad.ret
            {| ContentResponse.content := "";
               ContentResponse.pageStatusCode := Some status;
               ContentResponse.pageError := Some statusText |}
        else if is_pdf (HttpResponse.contentType response) then
          Ad.modify_log (LogRecord.set_success true);;
          process_pdf url (parsePDF_of pageOptions)
        else
          let text := HttpResponse.data response in
          Ad.modify_log (LogRecord.set_success true);;
          Ad.modify_log (LogRecord.set_html (Some text));;
          Ad.modify_log (LogRecord.set_response_code (Some 200));;
          Ad.modify_log (LogRecord.set_error_message None);;
          Ad.ret
            {| ContentResponse.content := text;
               ContentResponse.pageStatusCode := Some 200;
               ContentResponse.pageError := None |})
       (λ error, log_failure error;; Ad.ret emptyContent))
    log_scrape.

End Adapters.

(** The override entry [generateRequestParams] finds for a URL, if any. *)
Definition override_of (URL_hostname : string → Result string)
    (urlSpecificParams : gmap string (gmap string JS.value)) (url : string)
  : option (gmap string JS.value) :=
  match URL_hostname url with
  | Ok hostname => urlSpecificParams !! JS.strip_www hostname
  | Throw _ => None
  end.

(** The wait an adapter sends: the [params.wait] of the override of the host
    when it is a number, else the [waitFor] of the caller, else 0. *)
Definition resolved_wait (override : option (gmap string JS.value))
    (waitFor : option Z) : Z :=
  match override ≫= (λ o, param_of o "wait") with
  | Some (JS.VNum n) => n
  | _ => default 0 waitFor
  end.

(** What the caller of an adapter sees of an outcome. *)
Definition result_of_outcome {A} (o : Outcome A) : Result A :=
  match o with
  | Returned a => Ok a
  | Threw (Raised e) => Throw e
  | Threw (Rejected e) => Throw (Error (AxiosError.message e))
  end.

Definition fresh_adapter_state : AdapterState.t :=
  {| AdapterState.log := LogRecord.initial "" ""; AdapterState.calls := [] |}.

(** The world whose adapters are the four adapters of the module, over the
    collaborators [N h] at the history [h] of the run; [attemptScraping] calls
    them without [pageOptions]. The other collaborators are those of
    [rest]. *)
Definition world_of_net (env : Env)
    (URL_hostname : string → Result string)
    (urlSpecificParams : gmap string (gmap string JS.value))
    (N : list Event → Net.t) (rest : World) : World :=
  {| scrapWithFireEngine := λ h args,
       result_of_outcome
         (scrapWithFireEngine_body env URL_hostname urlSpecificParams (N h)
            args fresh_adapter_state).2;
     scrapWithScrapingBee := λ h url wait_browser timeout,
       result_of_outcome
         (scrapWithScrapingBee_body env URL_hostname urlSpecificParams (N h)
            url wait_browser timeout None fresh_adapter_state).2;
     scrapWithPlaywright := λ h url waitFor headers,
       result_of_outcome
         (scrapWithPlaywright_body env URL_hostname urlSpecificParams (N h)
            url waitFor headers None fresh_adapter_state).2;
     scrapWithFetch := λ h url,
       result_of_outcome
         (scrapWithFetch_body (N h) url None fresh_adapter_state).2;
     fetchAndProcessPdf := fetchAndProcessPdf rest;
     handleCustomScraping := handleCustomScraping rest;
     removeUnwantedElements := removeUnwantedElements rest;
     parseMarkdown := parseMarkdown rest;
     extractMetadata := extractMetadata rest |}.

(** An error without response: the connection was refused. *)
Definition refused : Thrown :=
  Rejected {| AxiosError.code := Some "ECONNREFUSED";
              AxiosError.message := "connect ECONNREFUSED";
              AxiosError.response := None |}.

(** A timeout of the HTTP client. *)
Definition timed_out : Thrown :=
  Rejected {| AxiosError.code := Some "ECONNABORTED";
              AxiosError.message := "timeout of 15000ms exceeded";
              AxiosError.response := None |}.

(** The rejection of a request that was answered with 404. *)
Definition rejected_404 : Thrown :=
  Rejected {| AxiosError.code := Some "ERR_BAD_REQUEST";
              AxiosError.message := "Request failed with status code 404";
              AxiosError.response := Some (404, "Not Found") |}.

(** Collaborators whose requests are all rejected with [error]. *)
Definition down_net (error : Thrown) : Net.t :=
  {| Net.axios_post_fire_engine := λ _ _ _ _, Threw error;
     Net.axios_post_playwright := λ _ _ _ _, Threw error;
     Net.axios_get := λ _ _ _, Threw error;
     Net.scrapingBee_get := λ _ _ _, Threw error;
     Net.TextDecoder_decode := λ data, Returned data;
     Net.JSON_parse := λ _, Returned None;
     Net.fetchAndProcessPdf := λ _ _ _, Returned emptyContent;
     Net.logScrape := λ _ _, Returned tt |}.

(** Collaborators that answer every request with the status [status], the
    content type [contentType] and the body [body]; the body parses to a
    payload with that content; the PDF extractor answers [pdf]. *)
Definition answering_net (status : Z) (statusText : string)
    (contentType : option string) (body : string)
    (pdf : Outcome ContentResponse.t) : Net.t :=
  let payload :=
    {| PagePayload.content := Some body;
       PagePayload.screenshot := None;
       PagePayload.pageStatusCode := Some status;
       PagePayload.pageError := None |} in
  {| Net.axios_post_fire_engine := λ _ _ _ _,
       Returned {| HttpResponse.status := 200;
                   HttpResponse.statusText := "OK";
                   HttpResponse.contentType := contentType;
                   HttpResponse.data := Some payload |};
     Net.axios_post_playwright := λ _ _ _ _,
       Returned {| HttpResponse.status := status;
                   HttpResponse.statusText := statusText;
                   HttpResponse.contentType := contentType;
                   HttpResponse.data := body |};
     Net.axios_get := λ _ _ _,
       Returned {| HttpResponse.status := status;
                   HttpResponse.statusText := statusText;
                   HttpResponse.contentType := contentType;
                   HttpResponse.data := body |};
     Net.scrapingBee_get := λ _ _ _,
       Returned {| HttpResponse.status := status;
                   HttpResponse.statusText := statusText;
                   HttpResponse.contentType := contentType;
                   HttpResponse.data := body |};
     Net.TextDecoder_decode := λ data, Returned data;
     Net.JSON_parse := λ _, Returned (Some payload);
     Net.fetchAndProcessPdf := λ _ _ _, pdf;
     Net.logScrape := λ _ _, Returned tt |}.

Definition pdf_text : ContentResponse.t :=
  {| ContentResponse.content := "text of the pdf";
     ContentResponse.pageStatusCode := Some 200;
     ContentResponse.pageError := None |}.

Definition example_args : FireEngineArgs.t :=
  {| FireEngineArgs.url := "https://www.example.com/docs";
     FireEngineArgs.waitFor := Some 500;
     FireEngineArgs.screenshot := None;
     FireEngineArgs.pageOptions := defaultPageOptions;
     FireEngineArgs.headers := None |}.


(** * Properties *)

(** ** JavaScript helpers *)

Lemma includes_true (arr : list string) (x : string) :
  JS.includes arr x = true ↔ x ∈ arr.
Proof.
  unfold JS.includes. rewrite existsb_exists. split.
  - intros (y & Hin & Heq). apply String.eqb_eq in Heq. subst y.
    by apply list_elem_of_In.
  - intros Hin. exists x. split; [by apply list_elem_of_In|].
    apply String.eqb_refl.
Qed.

Lemma includes_false (arr : list string) (x : string) :
  JS.includes arr x = false ↔ x ∉ arr.
Proof.
  rewrite <- includes_true. destruct (JS.includes arr x); naive_solver.
Qed.

Lemma Set_add_elem (s : list string) (x y : string) :
  y ∈ JS.Set_add s x ↔ y ∈ s ∨ y = x.
Proof.
  unfold JS.Set_add. destruct (JS.includes s x) eqn:E.
  - apply includes_true in E. split; [tauto|]. intros [?| ->]; done.
  - rewrite elem_of_app, list_elem_of_singleton. tauto.
Qed.

Lemma Set_add_NoDup (s : list string) (x : string) :
  NoDup s → NoDup (JS.Set_add s x).
Proof.
  intros Hs. unfold JS.Set_add. destruct (JS.includes s x) eqn:E; [done|].
  apply includes_false in E. apply NoDup_app. split; [done|]. split.
  - intros y Hy Hx. apply list_elem_of_singleton in Hx. congruence.
  - apply NoDup_singleton.
Qed.

(** Adding elements only ever appends to the insertion order. *)
Lemma fold_Set_add_extends (l acc : list string) :
  ∃ t, fold_left JS.Set_add l acc = acc ++ t.
Proof.
  revert acc. induction l as [|x l IH]; intros acc; simpl.
  - exists []. by rewrite app_nil_r.
  - unfold JS.Set_add at 2. destruct (JS.includes acc x).
    + apply IH.
    + destruct (IH (acc ++ [x])) as [t Ht]. exists (x :: t).
      rewrite Ht. by rewrite <- app_assoc.
Qed.

Lemma fold_Set_add_elem (l acc : list string) (y : string) :
  y ∈ fold_left JS.Set_add l acc ↔ y ∈ acc ∨ y ∈ l.
Proof.
  revert acc. induction l as [|x l IH]; intros acc; simpl.
  - rewrite elem_of_nil. tauto.
  - rewrite IH, Set_add_elem, elem_of_cons. tauto.
Qed.

Lemma fold_Set_add_NoDup (l acc : list string) :
  NoDup acc → NoDup (fold_left JS.Set_add l acc).
Proof.
  revert acc. induction l as [|x l IH]; intros acc Hacc; simpl; [done|].
  apply IH. by apply Set_add_NoDup.
Qed.

Lemma new_Set_elem (l : list string) (y : string) :
  y ∈ JS.new_Set l ↔ y ∈ l.
Proof.
  unfold JS.new_Set. rewrite fold_Set_add_elem, elem_of_nil. tauto.
Qed.

Lemma new_Set_NoDup (l : list string) : NoDup (JS.new_Set l).
Proof. apply fold_Set_add_NoDup, NoDup_nil_2. Qed.

(** The element at a first occurrence is inserted right after the distinct
    elements that precede it. *)
Lemma new_Set_first_occurrence (l1 l2 : list string) (x : string) :
  x ∉ l1 →
  ∃ t, JS.new_Set (l1 ++ x :: l2) = JS.new_Set l1 ++ x :: t.
Proof.
  intros Hx. unfold JS.new_Set. rewrite fold_left_app. simpl.
  fold (JS.new_Set l1).
  assert (JS.Set_add (JS.new_Set l1) x = JS.new_Set l1 ++ [x]) as ->.
  { unfold JS.Set_add.
    destruct (JS.includes (JS.new_Set l1) x) eqn:E; [|done].
    apply includes_true in E. apply (proj1 (new_Set_elem _ _)) in E.
    by destruct Hx. }
  destruct (fold_Set_add_extends l2 (JS.new_Set l1 ++ [x])) as [t Ht].
  exists t. rewrite Ht. by rewrite <- app_assoc.
Qed.

Lemma trim_empty : JS.trim "" = "".
Proof. reflexivity. Qed.

(** ** The fallback order planner *)

Lemma elem_of_List_filter {A} (f : A → bool) (l : list A) (x : A) :
  x ∈ List.filter f l ↔ x ∈ l ∧ f x = true.
Proof. rewrite !list_elem_of_In. apply filter_In. Qed.

Lemma availableScrapers_configured (env : Env) (x : string) :
  x ∈ availableScrapers env → scraper_configured env x = true.
Proof. unfold availableScrapers. rewrite elem_of_List_filter. tauto. Qed.

Lemma filteredDefaultOrder_available (env : Env) (w s h : bool) (x : string) :
  x ∈ filteredDefaultOrder env w s h → x ∈ availableScrapers env.
Proof.
  unfold filteredDefaultOrder. rewrite elem_of_List_filter.
  intros [_ Hx]. by apply includes_true.
Qed.

(** The plain HTTP fetch needs no configuration, so it is always planned. *)
Lemma fetch_available (env : Env) : "fetch" ∈ availableScrapers env.
Proof.
  unfold availableScrapers. apply elem_of_List_filter. split; [|reflexivity].
  unfold baseScrapers. set_solver.
Qed.

Lemma plan_elem (env : Env) (d : option string) (w s h : bool) (x : string) :
  x ∈ getScrapingFallbackOrder env d w s h ↔ x ∈ plan_candidates env d w s h.
Proof. unfold getScrapingFallbackOrder, JS.Array_from. apply new_Set_elem. Qed.

Lemma fetch_planned (env : Env) (d : option string) (w s h : bool) :
  "fetch" ∈ getScrapingFallbackOrder env d w s h.
Proof.
  apply plan_elem. unfold plan_candidates.
  destruct (JS.truthy_ostring d); rewrite ?elem_of_cons, elem_of_app;
    auto using fetch_available.
Qed.

Lemma plan_nonempty (env : Env) (d : option string) (w s h : bool) :
  getScrapingFallbackOrder env d w s h ≠ [].
Proof.
  intros E. pose proof (fetch_planned env d w s h) as H. rewrite E in H.
  by apply elem_of_nil in H.
Qed.

(** Every planned backend is configured, the forced one apart. *)
Lemma plan_configured_or_forced
    (env : Env) (d : option string) (w s h : bool) (x : string) :
  x ∈ getScrapingFallbackOrder env d w s h →
  scraper_configured env x = true
  ∨ (JS.truthy_ostring d = true ∧ d = Some x).
Proof.
  rewrite plan_elem. unfold plan_candidates.
  destruct (JS.truthy_ostring d) eqn:Hd.
  - rewrite elem_of_cons, elem_of_app. intros [-> | [Hx | Hx]].
    + right. split; [done|]. destruct d; [done | discriminate].
    + left. eauto using availableScrapers_configured,
        filteredDefaultOrder_available.
    + left. by apply availableScrapers_configured.
  - rewrite elem_of_app. intros [Hx | Hx]; left;
      eauto using availableScrapers_configured, filteredDefaultOrder_available.
Qed.

(** C3, at the failing input. With no environment variable set and the host
    override forcing ["fire-engine"], the planned order starts with
    ["fire-engine"] although [FIRE_ENGINE_BETA_URL] is absent: the forced
    backend is put in front of the order without the availability check that
    every other entry goes through. *)
Theorem plan_forced_backend_not_configured :
  getScrapingFallbackOrder env_none (Some "fire-engine") false false false
  = ["fire-engine"; "fetch"]
  ∧ scraper_configured env_none "fire-engine" = false
  ∧ "fire-engine" ∉ availableScrapers env_none.
Proof.
  split; [reflexivity|]. split; [reflexivity|].
  intros H. apply availableScrapers_configured in H. discriminate.
Qed.

(** C4. A forced backend named by the host override is the first element of
    the planned order; the planned order never holds a backend twice, it has
    the elements of the array handed to [new Set], and each element stands
    where its first occurrence stood: the elements before it are those that
    precede its first occurrence. *)
Theorem plan_forced_first_no_duplicates
    (env : Env) (defaultScraper : option string) (w s h : bool) :
  let plan := getScrapingFallbackOrder env defaultScraper w s h in
  let candidates := plan_candidates env defaultScraper w s h in
  (∀ d, defaultScraper = Some d → d ≠ "" → head plan = Some d)
  ∧ NoDup plan
  ∧ (∀ x, x ∈ plan ↔ x ∈ candidates)
  ∧ (∀ l1 x l2, candidates = l1 ++ x :: l2 → x ∉ l1 →
       ∃ o1 o2, plan = o1 ++ x :: o2 ∧ NoDup o1 ∧ ∀ y, y ∈ o1 ↔ y ∈ l1).
Proof.
  intros plan candidates. repeat split.
  - intros d -> Hd. subst plan.
    unfold getScrapingFallbackOrder, JS.Array_from, plan_candidates.
    destruct d as [|c d']; [done|]. simpl JS.truthy_ostring. cbv iota.
    unfold JS.new_Set. simpl fold_left.
    match goal with
    | |- head (fold_left JS.Set_add ?l ?acc) = _ =>
        destruct (fold_Set_add_extends l acc) as [t ->]
    end.
    reflexivity.
  - apply new_Set_NoDup.
  - by apply plan_elem.
  - by apply plan_elem.
  - intros l1 x l2 Hc Hx. subst plan.
    unfold getScrapingFallbackOrder, JS.Array_from. fold candidates.
    rewrite Hc. destruct (new_Set_first_occurrence l1 l2 x Hx) as [t Ht].
    exists (JS.new_Set l1), t. split; [done|]. split.
    + apply new_Set_NoDup.
    + intros y. apply new_Set_elem.
Qed.

Lemma plan_forced_first_no_duplicates_witness :
  head (getScrapingFallbackOrder env_all (Some "playwright") false false false)
  = Some "playwright".
Proof.
  apply (plan_forced_first_no_duplicates
           env_all (Some "playwright") false false false);
    [reflexivity | discriminate].
Defined.

(** C9. When the request has a wait, a screenshot or custom headers, and no
    backend is forced, the planned order is: fire-engine, then playwright
    (each when configured), then the other backends in the order the
    no-flags plan gives them. *)
Theorem plan_heavy_promoted
    (env : Env) (defaultScraper : option string) (w s h : bool) :
  JS.truthy_ostring defaultScraper = false →
  w || s || h = true →
  getScrapingFallbackOrder env defaultScraper w s h
  = List.filter (scraper_configured env) ["fire-engine"; "playwright"]
    ++ List.filter (fun x => negb (is_heavy x))
         (getScrapingFallbackOrder env defaultScraper false false false).
Proof.
  intros Hd Hflags.
  unfold getScrapingFallbackOrder, plan_candidates, filteredDefaultOrder,
    defaultOrder, JS.Array_from.
  rewrite Hd, Hflags. simpl orb. cbv iota.
  destruct env as [[[|??]|] [[|??]|] [[|??]|]]; reflexivity.
Qed.

Lemma plan_heavy_promoted_witness :
  getScrapingFallbackOrder env_all None true false false
  = ["fire-engine"; "playwright"; "scrapingBee"; "scrapingBeeLoad"; "fetch"].
Proof.
  exact (plan_heavy_promoted env_all None true false false eq_refl eq_refl).
Defined.

(** ** The host parameter resolver *)

Lemma substring_all (s : string) : String.substring 0 (String.length s) s = s.
Proof. induction s as [|c s IH]; simpl; [done | by rewrite IH]. Qed.

(** A leading ["www."] is stripped, and nothing else is. *)
Lemma strip_www_prefixed (host : string) : JS.strip_www ("www." +:+ host) = host.
Proof.
  unfold JS.strip_www. simpl. change ("" +:+ host) with host.
  rewrite Nat.sub_0_r, substring_all. by destruct host.
Qed.

Lemma strip_www_other (host : string) :
  String.prefix "www." host = false → JS.strip_www host = host.
Proof. unfold JS.strip_www. by intros ->. Qed.

Section ResolverProperties.

Variable URL_hostname : string → Result string.
Variable urlSpecificParams : gmap string (gmap string JS.value).

(** C8. [generateRequestParams] never throws. It returns the default
    parameters when the URL is malformed and when the normalized host has no
    entry in the override table; when the host has an entry, every field of
    the entry is in the result with the entry's value, and every field the
    entry lacks has its default value. *)
Theorem generateRequestParams_resolves
    (url wait_browser : string) (timeout : Z) :
  let defaults := defaultParams url wait_browser timeout in
  let result :=
    generateRequestParams URL_hostname urlSpecificParams
      url wait_browser timeout in
  (∃ r, result = Ok r)
  ∧ (∀ e, URL_hostname url = Throw e → result = Ok defaults)
  ∧ (∀ hostname,
       URL_hostname url = Ok hostname →
       urlSpecificParams !! JS.strip_www hostname = None →
       result = Ok defaults)
  ∧ (∀ hostname override,
       URL_hostname url = Ok hostname →
       urlSpecificParams !! JS.strip_www hostname = Some override →
       ∃ r, result = Ok r
            ∧ (∀ k v, override !! k = Some v → r !! k = Some v)
            ∧ (∀ k, override !! k = None → r !! k = defaults !! k)).
Proof.
  intros defaults result. subst result.
  unfold generateRequestParams, urlKey_of, try_catch_pure.
  fold defaults. repeat split.
  - destruct (URL_hostname url) as [hostname|e]; [|by eexists].
    destruct (urlSpecificParams !! JS.strip_www hostname); by eexists.
  - by intros e ->.
  - by intros hostname -> ->.
  - intros hostname override -> ->. eexists. split; [done|].
    unfold JS.spread. split.
    + intros k v Hk. by apply lookup_union_Some_l.
    + intros k Hk. by apply lookup_union_r.
Qed.

End ResolverProperties.

Lemma generateRequestParams_resolves_witness :
  ∃ r,
    generateRequestParams example_URL_hostname example_urlSpecificParams
      "https://www.example.com/docs" "domcontentloaded" 15000 = Ok r
    ∧ r !! "params" = Some (JS.VObj [("wait", JS.VNum 3000)])
    ∧ r !! "url" = Some (JS.VStr "https://www.example.com/docs").
Proof.
  destruct (generateRequestParams_resolves
              example_URL_hostname example_urlSpecificParams
              "https://www.example.com/docs" "domcontentloaded" 15000)
    as (_ & _ & _ & H).
  destruct (H "www.example.com" example_override eq_refl eq_refl)
    as (r & Hr & Hover & Hdef).
  exists r. split; [exact Hr|]. split.
  - apply Hover. reflexivity.
  - rewrite Hdef; reflexivity.
Defined.

(** ** The carried variables *)

Lemma carry_text (a : Attempt.t) (v : Vars.t) :
  Vars.text (carry a v) = Attempt.text a.
Proof.
  unfold carry, carry_error, carry_status, set_pageError, assign_attempt.
  repeat case_match; reflexivity.
Qed.

Lemma carry_pageStatusCode (a : Attempt.t) (v : Vars.t) :
  Vars.pageStatusCode (carry a v)
  = if JS.truthy_onumber (Attempt.pageStatusCode a)
    then default 0 (Attempt.pageStatusCode a)
    else Vars.pageStatusCode v.
Proof.
  unfold carry, carry_error, carry_status, set_pageError, assign_attempt.
  destruct (Attempt.pageStatusCode a) as [code|]; simpl;
    repeat case_match; reflexivity.
Qed.

Lemma carry_pageError (a : Attempt.t) (v : Vars.t) :
  Vars.pageError (carry a v)
  = if JS.truthy_ostring (Attempt.pageError a)
       && JS.oge (Attempt.pageStatusCode a) 400
    then Attempt.pageError a
    else if JS.olt (Attempt.pageStatusCode a) 400 then None
    else Vars.pageError v.
Proof.
  unfold carry, carry_error, carry_status, set_pageError, assign_attempt.
  repeat case_match; reflexivity.
Qed.

Lemma carry_all_snoc (attempts : list Attempt.t) (a : Attempt.t) (v : Vars.t) :
  carry_all (attempts ++ [a]) v = carry a (carry_all attempts v).
Proof. unfold carry_all. by rewrite fold_left_app. Qed.

Lemma last_truthy_status_snoc (attempts : list Attempt.t) (a : Attempt.t) :
  last_truthy_status (attempts ++ [a])
  = if JS.truthy_onumber (Attempt.pageStatusCode a)
    then Attempt.pageStatusCode a
    else last_truthy_status attempts.
Proof. unfold last_truthy_status. by rewrite fold_left_app. Qed.

Lemma carry_error_needs_failure (a : Attempt.t) (v : Vars.t) :
  error_needs_failure v → error_needs_failure (carry a v).
Proof.
  unfold error_needs_failure.
  rewrite carry_pageError, carry_pageStatusCode.
  destruct (Attempt.pageStatusCode a) as [code|]; simpl.
  - destruct (JS.truthy_ostring (Attempt.pageError a)); simpl;
      destruct (400 <=? code) eqn:Hge, (code <? 400) eqn:Hlt,
        (code =? 0) eqn:H0; simpl; intros; try done; lia.
  - rewrite andb_false_r. done.
Qed.

Lemma carry_all_error_needs_failure (attempts : list Attempt.t) (v : Vars.t) :
  error_needs_failure v → error_needs_failure (carry_all attempts v).
Proof.
  intros Hv. induction attempts as [|a attempts IH] using rev_ind; [done|].
  rewrite carry_all_snoc. by apply carry_error_needs_failure.
Qed.

Lemma carry_all_pageStatusCode (attempts : list Attempt.t) (v : Vars.t) :
  Vars.pageStatusCode (carry_all attempts v)
  = default (Vars.pageStatusCode v) (last_truthy_status attempts).
Proof.
  induction attempts as [|a attempts IH] using rev_ind; [done|].
  rewrite carry_all_snoc, carry_pageStatusCode, last_truthy_status_snoc, IH.
  destruct (Attempt.pageStatusCode a) as [code|]; simpl; [|done].
  by destruct (code =? 0).
Qed.

(** C5, as stated, fails on its last part: an attempt that reports the status
    code 0 reports a status code that is not [undefined], and the loop does
    not carry it. After a first attempt with status 500 and a second with
    status 0 the carried status is 500. *)
Lemma carried_status_skips_zero :
  ¬ (∀ attempts code,
       last_non_null_status attempts = Some code →
       Vars.pageStatusCode (carry_all attempts Vars.init) = code).
Proof.
  intros H.
  specialize (H [mkAttempt (Some 500) (Some "Internal Server Error");
                 mkAttempt (Some 0) None] 0 eq_refl).
  vm_compute in H. discriminate.
Qed.

(** C5, amended. After any sequence of attempts folded into the carried
    variables: [pageError] is set only when the carried [pageStatusCode] is
    400 or more; if the last attempt reported a status below 400, [pageError]
    is cleared; and the carried [pageStatusCode] is the most recent status
    code that is neither [undefined] nor 0 (the initial 200 if there is
    none). *)
Theorem carried_status_error_invariant (attempts : list Attempt.t) :
  let v := carry_all attempts Vars.init in
  (Vars.pageError v ≠ None → 400 ≤ Vars.pageStatusCode v)
  ∧ (∀ earlier a,
       attempts = earlier ++ [a] →
       JS.olt (Attempt.pageStatusCode a) 400 = true →
       Vars.pageError v = None)
  ∧ Vars.pageStatusCode v = default 200 (last_truthy_status attempts).
Proof.
  intros v. subst v. split; [|split].
  - apply carry_all_error_needs_failure. by intros [].
  - intros earlier a -> Hlt. rewrite carry_all_snoc, carry_pageError, Hlt.
    destruct (Attempt.pageStatusCode a) as [code|]; [|done].
    simpl in *. apply Z.ltb_lt in Hlt.
    assert ((400 <=? code) = false) as -> by lia.
    by rewrite andb_false_r.
  - apply carry_all_pageStatusCode.
Qed.

Lemma carried_status_error_invariant_witness :
  Vars.pageError
    (carry_all [mkAttempt (Some 500) (Some "Internal Server Error");
                mkAttempt (Some 200) None] Vars.init) = None
  ∧ Vars.pageStatusCode
      (carry_all [mkAttempt (Some 500) (Some "Internal Server Error");
                  mkAttempt (Some 200) None] Vars.init) = 200.
Proof.
  destruct (carried_status_error_invariant
              [mkAttempt (Some 500) (Some "Internal Server Error");
               mkAttempt (Some 200) None]) as (_ & Hclear & Hstatus).
  split.
  - apply (Hclear [mkAttempt (Some 500) (Some "Internal Server Error")]
                  (mkAttempt (Some 200) None)); reflexivity.
  - rewrite Hstatus. reflexivity.
Defined.

(** ** Computations and the loop variables *)

Lemma preserves_vars_ret {A} (a : A) : preserves_vars (ret a).
Proof. by intros m. Qed.

Lemma preserves_vars_lift {A} (r : Result A) : preserves_vars (lift r).
Proof. by intros m. Qed.

Lemma preserves_vars_call {A} (ev : Event) (answer : list Event → Result A) :
  preserves_vars (call ev answer).
Proof. by intros m. Qed.

Lemma preserves_vars_bind {A B} (c : M A) (k : A → M B) :
  preserves_vars c → (∀ a, preserves_vars (k a)) → preserves_vars (bind c k).
Proof.
  intros Hc Hk m. unfold bind. specialize (Hc m).
  destruct (c m) as [m' [a|e]]; simpl in *; [|done].
  by rewrite Hk.
Qed.

Create HintDb frame.
#[local] Hint Resolve preserves_vars_ret preserves_vars_lift
  preserves_vars_call : frame.

Ltac frame :=
  repeat first
    [ apply preserves_vars_bind; [|intros ?]
    | progress eauto with frame
    | case_match ].

Section LoopProperties.

Variable env : Env.
Variable URL_hostname : string → Result string.
Variable urlSpecificParams : gmap string (gmap string JS.value).
Variable W : World.
Variable pageOptions : PageOptions.t.
Variable extractorOptions : ExtractorOptions.t.
Variable existingHtml : string.

Local Abbreviation attempt := (attemptScraping env W pageOptions).
Local Abbreviation loop := (for_scrapers env W pageOptions existingHtml).
Local Abbreviation plan := (plan_for env URL_hostname urlSpecificParams pageOptions).
Local Abbreviation scrape :=
  (scrapSingleUrl env URL_hostname urlSpecificParams W
     pageOptions extractorOptions existingHtml).

Lemma callScraper_preserves_vars (url method : string) :
  preserves_vars (callScraper env W pageOptions url method).
Proof. unfold callScraper. frame. Qed.

Lemma customScrape_preserves_vars (screenshot : string) (d : Directive.t) :
  preserves_vars (customScrape W pageOptions screenshot d).
Proof. unfold customScrape. frame. Qed.

Lemma attemptScraping_preserves_vars (url method : string) :
  preserves_vars (attempt url method).
Proof.
  unfold attemptScraping.
  apply preserves_vars_bind; [apply callScraper_preserves_vars|intros ?].
  apply preserves_vars_bind; [apply preserves_vars_call|intros o].
  apply preserves_vars_bind.
  { destruct o; [apply customScrape_preserves_vars|apply preserves_vars_ret]. }
  intros ?. frame.
Qed.

(** ** The loop, one iteration at a time *)

Lemma sufficient_length (text : string) :
  sufficient text = (100 <=? JS.length (JS.trim text)).
Proof. unfold sufficient. by destruct text. Qed.

Lemma for_scrapers_step (url scraper : string) (rest : list string) (m : Machine) :
  sufficient existingHtml = false →
  loop url (scraper :: rest) m
  = match attempt url scraper m with
    | (m', Ok a) =>
        let m'' := {| trace := trace m'; vars := carry a (vars m') |} in
        if sufficient (Attempt.text a) then (m'', Ok tt)
        else if carried_404 (vars m'') then (m'', Ok tt)
        else loop url rest m''
    | (m', Throw e) => (m', Throw e)
    end.
Proof.
  intros Hex. simpl. rewrite Hex. unfold bind at 1.
  destruct (attempt url scraper m) as [m' [a|e]]; [|done].
  unfold bind, modify_vars, get_vars; simpl.
  fold (carry a (vars m')). rewrite carry_text.
  by destruct (sufficient (Attempt.text a)), (carried_404 (carry a (vars m'))).
Qed.

Lemma judging_loop_step
    (url scraper : string) (rest : list string) (m : Machine) :
  sufficient existingHtml = false →
  judging_loop env W pageOptions existingHtml url (scraper :: rest) m
  = match attempt url scraper m with
    | (m', Ok a) =>
        let m'' := {| trace := trace m'; vars := carry a (vars m') |} in
        match judge a with
        | Advance => judging_loop env W pageOptions existingHtml url rest m''
        | _ => (m'', Ok tt)
        end
    | (m', Throw e) => (m', Throw e)
    end.
Proof.
  intros Hex. simpl. rewrite Hex. unfold bind at 1.
  destruct (attempt url scraper m) as [m' [a|e]]; [|done].
  unfold bind, modify_vars; simpl. by destruct (judge a).
Qed.

(** As long as the loop goes on, the carried status is not 404; then the test
    of the carried status is a test of the status of the attempt. *)
Lemma carried_404_attempt (a : Attempt.t) (v : Vars.t) :
  Vars.pageStatusCode v ≠ 404 →
  carried_404 (carry a v)
  = match Attempt.pageStatusCode a with
    | Some code => code =? 404
    | None => false
    end.
Proof.
  intros Hv. unfold carried_404. rewrite carry_pageStatusCode.
  destruct (Attempt.pageStatusCode a) as [code|]; simpl.
  - destruct (code =? 0) eqn:H0; simpl.
    + destruct (Vars.pageStatusCode v =? 404) eqn:E, (code =? 404) eqn:E';
        try lia; by rewrite andb_false_r.
    + by rewrite H0.
  - destruct (Vars.pageStatusCode v =? 404) eqn:E; [lia|].
    by rewrite andb_false_r.
Qed.

Lemma carried_404_false (v : Vars.t) :
  carried_404 v = false → Vars.pageStatusCode v ≠ 404.
Proof. unfold carried_404. intros H E. rewrite E in H. discriminate. Qed.

Lemma for_scrapers_judging (url : string) (scrapers : list string) (m : Machine) :
  Vars.pageStatusCode (vars m) ≠ 404 →
  loop url scrapers m
  = judging_loop env W pageOptions existingHtml url scrapers m.
Proof.
  revert m. induction scrapers as [|scraper rest IH]; intros m Hm; [done|].
  destruct (sufficient existingHtml) eqn:Hex.
  { simpl. by rewrite Hex. }
  rewrite for_scrapers_step, judging_loop_step by done.
  pose proof (attemptScraping_preserves_vars url scraper m) as Hvars.
  destruct (attempt url scraper m) as [m' [a|e]]; [|done].
  simpl in Hvars. cbv zeta. simpl vars.
  unfold judge. rewrite <- sufficient_length.
  destruct (sufficient (Attempt.text a)); [done|].
  pose proof (carried_404_attempt a (vars m')) as H404.
  rewrite Hvars in H404. specialize (H404 Hm). rewrite Hvars.
  destruct (carried_404 (carry a (vars m))) eqn:Hc.
  - destruct (Attempt.pageStatusCode a) as [code|]; [|done]. by rewrite <- H404.
  - assert (judged :
      match Attempt.pageStatusCode a with
      | Some code => if code =? 404 then Exhausted else Advance
      | None => Advance
      end = Advance).
    { destruct (Attempt.pageStatusCode a) as [code|]; [|done].
      by rewrite <- H404. }
    rewrite judged. apply IH. simpl. by apply carried_404_false.
Qed.

(** C1. From the initial variables of [scrapSingleUrl], the loop of the code
    is the loop that judges every attempt in this order: trimmed text of
    length 100 or more, stop; else status code of the attempt equal to 404,
    stop; else go on with the next planned backend. The text test is the
    length test alone: 100 passes and 99 does not. *)
Theorem judging_order (url : string) (scrapers : list string) (tr : list Event) :
  loop url scrapers {| trace := tr; vars := Vars.init |}
  = judging_loop env W pageOptions existingHtml url scrapers
      {| trace := tr; vars := Vars.init |}
  ∧ (∀ text, sufficient text = true ↔ 100 ≤ JS.length (JS.trim text))
  ∧ (∀ text, JS.length (JS.trim text) = 100 → sufficient text = true)
  ∧ (∀ text, JS.length (JS.trim text) = 99 → sufficient text = false).
Proof.
  split; [by apply for_scrapers_judging|].
  split; [|split]; intros text; rewrite sufficient_length.
  - apply Z.leb_le.
  - by intros ->.
  - by intros ->.
Qed.

(** ** The whole of [scrapSingleUrl] *)

(** What [scrapSingleUrl] returns, by the way the loop ends. Whatever is thrown
    inside the [try] block ends in the document of the [catch] block. *)
Lemma scrapSingleUrl_unfold (url : string) (m : Machine) :
  scrape url m
  = let url' := JS.trim url in
    match loop url' (plan url') {| trace := trace m; vars := Vars.init |} with
    | (m1, Ok _) =>
        let degraded :=
          degraded_document url'
            (Vars.pageStatusCode (vars m1)) (Vars.pageError (vars m1)) in
        if JS.truthy_string (Vars.text (vars m1)) then
          match extractMetadata W (Vars.rawHtml (vars m1)) url' with
          | Ok metadata =>
              (m1, Ok (build_document pageOptions extractorOptions
                         url' (vars m1) metadata))
          | Throw _ => (m1, Ok degraded)
          end
        else (m1, Ok degraded)
    | (m1, Throw _) =>
        (m1, Ok (degraded_document url'
                   (Vars.pageStatusCode (vars m1)) (Vars.pageError (vars m1))))
    end.
Proof.
  unfold scrapSingleUrl, scrapSingleUrl_try, try_catch, bind, modify_vars,
    get_vars, throw, lift, ret; simpl.
  destruct (loop _ _ _) as [m1 [[]|e]]; simpl; [|done].
  destruct (JS.truthy_string (Vars.text (vars m1))); simpl; [|done].
  by destruct (extractMetadata W _ _).
Qed.

(** No exception leaves [scrapSingleUrl]. *)
Lemma scrapSingleUrl_returns (url : string) (m : Machine) :
  ∃ m' d, scrape url m = (m', Ok d).
Proof.
  rewrite scrapSingleUrl_unfold. cbv zeta.
  destruct (loop _ _ _) as [m1 [[]|e]]; [|by eauto].
  destruct (JS.truthy_string _); [|by eauto].
  destruct (extractMetadata W _ _); by eauto.
Qed.

Lemma truthy_string_false (text : string) :
  JS.truthy_string text = false ↔ text = "".
Proof. by destruct text. Qed.

(** When every attempt on a planned backend returns an empty text, the loop
    runs to its end, or to the first carried 404, with an empty text: the
    attempts it made are the attempts on a prefix of the plan, one after the
    other, and the variables it leaves are those attempts carried. *)
Lemma for_scrapers_exhausts (url : string) (scrapers : list string) :
  sufficient existingHtml = false →
  (∀ scraper m0, scraper ∈ scrapers →
     ∃ m1 a, attempt url scraper m0 = (m1, Ok a) ∧ Attempt.text a = "") →
  ∀ m, Vars.text (vars m) = "" →
       Vars.pageStatusCode (vars m) ≠ 404 →
  ∃ tried skipped attempts m',
    loop url scrapers m = (m', Ok tt)
    ∧ scrapers = tried ++ skipped
    ∧ attempts_on env W pageOptions url tried m = Some (attempts, m')
    ∧ (skipped = [] ∨ Vars.pageStatusCode (vars m') = 404)
    ∧ (∀ earlier later,
         attempts = earlier ++ later → later ≠ [] →
         Vars.pageStatusCode (carry_all earlier (vars m)) ≠ 404)
    ∧ Vars.text (vars m') = ""
    ∧ vars m' = carry_all attempts (vars m)
    ∧ Forall (λ a, Attempt.text a = "") attempts.
Proof.
  intros Hex. induction scrapers as [|scraper rest IH]; intros Hempty m Hm H404.
  - exists [], [], [], m. repeat split; try done.
    + by left.
    + intros earlier later E. by destruct earlier, later.
  - rewrite for_scrapers_step by done.
    destruct (Hempty scraper m) as (m1 & a & Hrun & Ha); [set_solver|].
    pose proof (attemptScraping_preserves_vars url scraper m) as Hvars.
    rewrite Hrun in *. simpl in Hvars. cbv zeta. rewrite Ha.
    change (sufficient "") with false. cbv iota. simpl vars.
    destruct (carried_404 (carry a (vars m1))) eqn:Hc.
    + exists [scraper], rest, [a]. eexists. split; [reflexivity|].
      split; [reflexivity|]. split; [simpl; by rewrite Hrun|].
      split.
      { right. simpl. unfold carried_404 in Hc.
        apply andb_true_iff in Hc as [_ Hc]. by apply Z.eqb_eq in Hc. }
      split.
      { intros earlier later E Hne.
        destruct earlier as [|a0 earlier]; [done|].
        destruct earlier, later; try done; discriminate E. }
      split; [simpl; by rewrite carry_text|].
      split; [simpl; by rewrite Hvars|]. by constructor.
    + destruct (IH (λ s m0 Hs, Hempty s m0 ltac:(set_solver))
                  {| trace := trace m1; vars := carry a (vars m1) |})
        as (tried & skipped & attempts & m' & Hloop & Hplan & Hon & Hstop
            & Hfirst & Htext & Hcarried & Hall).
      { simpl. by rewrite carry_text. }
      { simpl. by apply carried_404_false. }
      exists (scraper :: tried), skipped, (a :: attempts), m'.
      split; [done|]. split; [by rewrite Hplan|].
      split; [simpl; by rewrite Hrun, Hon|]. split; [done|].
      split.
      { intros earlier later E Hne.
        destruct earlier as [|a0 earlier]; [done|].
        injection E as <- E. simpl. rewrite <- Hvars.
        by apply (Hfirst earlier later). }
      split; [done|]. split; [rewrite Hcarried; simpl; by rewrite Hvars|].
      by constructor.
Qed.

Lemma degraded_document_fields (url : string) (code : Z) (error : option string) :
  let d := degraded_document url code error in
  Document.content d = ""
  ∧ Document.markdown d = ""
  ∧ Document.metadata d !! "sourceURL" = Some (JS.VStr url)
  ∧ Document.metadata d !! "pageStatusCode" = Some (JS.VNum code)
  ∧ Document.metadata d !! "pageError" = Some (JS.of_ostring error).
Proof. repeat split. Qed.

(** C2. When the text coming from the crawler is not used and every attempt
    on a planned backend returns an empty text, [scrapSingleUrl] returns (it
    does not throw) the document of its [catch] block. The attempts of the run
    are the attempts on the planned backends, in the planned order, each
    starting where the previous one ended, up to the end of the plan or to the
    first carried status 404. [content] and [markdown] are empty and the
    metadata holds [sourceURL], the [pageStatusCode] carried from these
    attempts (the most recent one that is neither [undefined] nor 0, else the
    initial 200) and the [pageError] carried from them: the error of the last
    attempt when it has one beside a status of 400 or more, [undefined] when
    the last attempt has a status below 400. *)
Theorem exhaustion_returns_degraded_document (url : string) (m : Machine) :
  sufficient existingHtml = false →
  (∀ scraper m0, scraper ∈ plan (JS.trim url) →
     ∃ m1 a, attempt (JS.trim url) scraper m0 = (m1, Ok a)
             ∧ Attempt.text a = "") →
  ∃ tried skipped attempts m' d,
    scrape url m = (m', Ok d)
    ∧ plan (JS.trim url) = tried ++ skipped
    ∧ attempts_on env W pageOptions (JS.trim url) tried
        {| trace := trace m; vars := Vars.init |} = Some (attempts, m')
    ∧ (skipped = [] ∨ last_truthy_status attempts = Some 404)
    ∧ (∀ earlier later,
         attempts = earlier ++ later → later ≠ [] →
         last_truthy_status earlier ≠ Some 404)
    ∧ Forall (λ a, Attempt.text a = "") attempts
    ∧ vars m' = carry_all attempts Vars.init
    ∧ d = degraded_document (JS.trim url)
            (default 200 (last_truthy_status attempts))
            (Vars.pageError (carry_all attempts Vars.init))
    ∧ Document.content d = ""
    ∧ Document.markdown d = ""
    ∧ Document.metadata d !! "sourceURL" = Some (JS.VStr (JS.trim url))
    ∧ Document.metadata d !! "pageStatusCode"
      = Some (JS.VNum (default 200 (last_truthy_status attempts)))
    ∧ Document.metadata d !! "pageError"
      = Some (JS.of_ostring (Vars.pageError (carry_all attempts Vars.init)))
    ∧ (∀ earlier a,
         attempts = earlier ++ [a] →
         (JS.truthy_ostring (Attempt.pageError a) = true →
          JS.oge (Attempt.pageStatusCode a) 400 = true →
          Document.metadata d !! "pageError"
          = Some (JS.of_ostring (Attempt.pageError a)))
         ∧ (JS.olt (Attempt.pageStatusCode a) 400 = true →
            Document.metadata d !! "pageError" = Some JS.VUndefined)).
Proof.
  intros Hex Hempty.
  destruct (for_scrapers_exhausts (JS.trim url) (plan (JS.trim url)) Hex
              Hempty {| trace := trace m; vars := Vars.init |} eq_refl)
    as (tried & skipped & attempts & m' & Hloop & Hplan & Hon & Hstop
        & Hfirst & Htext & Hcarried & Hall); [done|].
  simpl vars in *.
  assert (Vars.pageStatusCode (vars m')
          = default 200 (last_truthy_status attempts)) as Hcode.
  { rewrite Hcarried. apply carry_all_pageStatusCode. }
  exists tried, skipped, attempts, m'. eexists.
  rewrite scrapSingleUrl_unfold. cbv zeta.
  rewrite Hloop, Htext. simpl JS.truthy_string. cbv iota.
  rewrite Hcode, Hcarried.
  split; [reflexivity|]. split; [exact Hplan|]. split; [exact Hon|].
  split.
  { destruct Hstop as [->|H404]; [by left|right].
    rewrite Hcode in H404.
    destruct (last_truthy_status attempts) as [code|]; simpl in H404;
      [by subst code | discriminate H404]. }
  split.
  { intros earlier later E Hne Hlast.
    apply (Hfirst earlier later E Hne).
    by rewrite carry_all_pageStatusCode, Hlast. }
  split; [exact Hall|]. split; [reflexivity|]. split; [reflexivity|].
  split; [reflexivity|]. split; [reflexivity|]. split; [reflexivity|].
  split; [reflexivity|]. split; [reflexivity|].
  intros earlier a ->.
  change (Document.metadata _ !! "pageError")
    with (Some (JS.of_ostring
                  (Vars.pageError (carry_all (earlier ++ [a]) Vars.init)))).
  rewrite carry_all_snoc, carry_pageError. split.
  - intros Herr Hge. by rewrite Herr, Hge.
  - intros Hlt. rewrite Hlt.
    destruct (Attempt.pageStatusCode a) as [code|]; [|done].
    simpl in *. apply Z.ltb_lt in Hlt.
    assert ((400 <=? code) = false) as -> by lia.
    by rewrite andb_false_r.
Qed.

Lemma build_document_fields
    (url : string) (v : Vars.t) (metadata : gmap string JS.value) :
  let d := build_document pageOptions extractorOptions url v metadata in
  Document.content d = Vars.text v
  ∧ Document.markdown d = Vars.text v
  ∧ Document.metadata d !! "sourceURL" = Some (JS.VStr url)
  ∧ Document.metadata d !! "pageStatusCode"
    = Some (JS.VNum (Vars.pageStatusCode v)).
Proof.
  unfold build_document. cbv zeta.
  destruct (JS.truthy_string (Vars.screenshot v)
            && (0 <? JS.length (Vars.screenshot v))); simpl;
    repeat split;
    repeat first [ rewrite lookup_insert_eq | rewrite lookup_insert_ne by done ];
    reflexivity.
Qed.

(** The variables of a run in which no attempt reports a status. *)
Lemma use_existingHtml_status (m : Machine) :
  Vars.pageStatusCode (vars (use_existingHtml W pageOptions existingHtml m).1)
  = Vars.pageStatusCode (vars m)
  ∧ Vars.pageError (vars (use_existingHtml W pageOptions existingHtml m).1)
    = Vars.pageError (vars m)
  ∧ trace (use_existingHtml W pageOptions existingHtml m).1 = trace m.
Proof.
  unfold use_existingHtml, bind, lift, modify_vars, ret.
  destruct (removeUnwantedElements W existingHtml pageOptions) as [c|e];
    [|done].
  by destruct (parseMarkdown W c).
Qed.

Lemma for_scrapers_no_status (url : string) (scrapers : list string) :
  (∀ scraper m0 m1 a,
     attempt url scraper m0 = (m1, Ok a) → Attempt.pageStatusCode a = None) →
  ∀ m,
    Vars.pageStatusCode (vars (loop url scrapers m).1)
    = Vars.pageStatusCode (vars m)
    ∧ Vars.pageError (vars (loop url scrapers m).1) = Vars.pageError (vars m).
Proof.
  intros Hnone. induction scrapers as [|scraper rest IH]; intros m; [done|].
  destruct (sufficient existingHtml) eqn:Hex.
  { simpl. rewrite Hex. pose proof (use_existingHtml_status m). tauto. }
  rewrite for_scrapers_step by done.
  pose proof (attemptScraping_preserves_vars url scraper m) as Hvars.
  pose proof (Hnone scraper m) as Hnone'.
  destruct (attempt url scraper m) as [m1 [a|e]]; simpl in Hvars;
    [|simpl; by rewrite Hvars].
  specialize (Hnone' m1 a eq_refl). cbv zeta. simpl vars.
  assert (Vars.pageStatusCode (carry a (vars m1)) = Vars.pageStatusCode (vars m)
          ∧ Vars.pageError (carry a (vars m1)) = Vars.pageError (vars m))
    as [Hs He].
  { rewrite carry_pageStatusCode, carry_pageError, Hnone', Hvars. simpl.
    by rewrite andb_false_r. }
  destruct (sufficient (Attempt.text a)); [done|].
  destruct (carried_404 (carry a (vars m1))); [done|].
  destruct (IH {| trace := trace m1; vars := carry a (vars m1) |}) as [-> ->].
  done.
Qed.

(** C10. When no attempt reports a status code, the document that
    [scrapSingleUrl] returns carries the initial status 200; the document of
    the [catch] block, returned when no text was obtained, is the one with
    status 200 and no error. *)
Theorem no_status_reported_gives_200 (url : string) (m : Machine) :
  (∀ scraper m0 m1 a,
     attempt (JS.trim url) scraper m0 = (m1, Ok a) →
     Attempt.pageStatusCode a = None) →
  ∃ m' d,
    scrape url m = (m', Ok d)
    ∧ Vars.pageStatusCode (vars m') = 200
    ∧ Document.metadata d !! "pageStatusCode" = Some (JS.VNum 200)
    ∧ (Document.content d = "" →
       d = degraded_document (JS.trim url) 200 None).
Proof.
  intros Hnone. rewrite scrapSingleUrl_unfold. cbv zeta.
  destruct (for_scrapers_no_status (JS.trim url) (plan (JS.trim url)) Hnone
              {| trace := trace m; vars := Vars.init |}) as [Hs He].
  destruct (loop _ _ _) as [m1 [[]|e]]; simpl in Hs, He.
  - destruct (JS.truthy_string (Vars.text (vars m1))) eqn:Htext.
    + destruct (extractMetadata W _ _) as [metadata|e].
      * eexists _, _. split; [reflexivity|]. split; [done|].
        destruct (build_document_fields (JS.trim url) (vars m1) metadata)
          as (Hc & _ & _ & Hcode).
        split; [by rewrite Hcode, Hs|].
        rewrite Hc. intros E. rewrite E in Htext. discriminate.
      * eexists _, _. split; [reflexivity|]. rewrite Hs, He. done.
    + eexists _, _. split; [reflexivity|]. rewrite Hs, He. done.
  - eexists _, _. split; [reflexivity|]. rewrite Hs, He. done.
Qed.

(** ** Text coming from the crawler *)

Lemma for_scrapers_existing (url scraper : string) (rest : list string) :
  sufficient existingHtml = true →
  loop url (scraper :: rest) = use_existingHtml W pageOptions existingHtml.
Proof. intros Hex. simpl. by rewrite Hex. Qed.

Lemma plan_for_nonempty (url : string) : plan url ≠ [].
Proof. apply plan_nonempty. Qed.

(** C7. When the text coming from the crawler has a trimmed length of 100 or
    more, [scrapSingleUrl] makes no call out of the module: no adapter is
    invoked (nor the hook, nor the PDF extractor). When cleaning and
    conversion return, the loop ends without an exception, with the converted
    text in [text] and the cleaned text in [html]; that text, when it is not
    empty and the metadata is extracted, is the content of the document. *)
Theorem prefetched_content_short_circuits (url : string) (m : Machine) :
  100 ≤ JS.length (JS.trim existingHtml) →
  ∃ m' d,
    scrape url m = (m', Ok d)
    ∧ trace m' = trace m
    ∧ List.filter is_adapter_call (trace m')
      = List.filter is_adapter_call (trace m)
    ∧ (∀ cleanedHtml markdown,
         removeUnwantedElements W existingHtml pageOptions = Ok cleanedHtml →
         parseMarkdown W cleanedHtml = Ok markdown →
         loop (JS.trim url) (plan (JS.trim url))
           {| trace := trace m; vars := Vars.init |}
         = ({| trace := trace m;
               vars := set_html cleanedHtml (set_text markdown Vars.init) |},
            Ok tt)
         ∧ Vars.text (vars m') = markdown
         ∧ Vars.html (vars m') = cleanedHtml
         ∧ (markdown ≠ "" →
            ∀ metadata,
              extractMetadata W "" (JS.trim url) = Ok metadata →
              Document.content d = markdown
              ∧ Document.markdown d = markdown)).
Proof.
  intros Hlen. apply Z.leb_le in Hlen. rewrite <- sufficient_length in Hlen.
  rewrite scrapSingleUrl_unfold. cbv zeta.
  destruct (plan (JS.trim url)) as [|scraper rest] eqn:Hplan.
  { by destruct (plan_for_nonempty (JS.trim url)). }
  rewrite for_scrapers_existing by done.
  unfold use_existingHtml, bind, lift, modify_vars, ret. simpl.
  destruct (removeUnwantedElements W existingHtml pageOptions) as [c|e].
  2: { eexists _, _. split; [reflexivity|]. do 2 (split; [done|]).
       intros c' md' Hc. discriminate Hc. }
  destruct (parseMarkdown W c) as [md|e] eqn:Hpm; simpl.
  2: { eexists _, _. split; [reflexivity|]. do 2 (split; [done|]).
       intros c' md' [= <-] Hmd. rewrite Hpm in Hmd. discriminate Hmd. }
  destruct (JS.truthy_string md) eqn:Htruthy.
  - destruct (extractMetadata W "" (JS.trim url)) as [metadata|e] eqn:Hmeta.
    + eexists _, _. split; [reflexivity|]. do 2 (split; [done|]).
      intros c' md' [= <-] Hmd. rewrite Hpm in Hmd. injection Hmd as <-.
      do 3 (split; [done|]).
      intros _ metadata' _.
      destruct (build_document_fields (JS.trim url)
                  (set_html c (set_text md Vars.init)) metadata)
        as (Hc & Hm & _).
      by split.
    + eexists _, _. split; [reflexivity|]. do 2 (split; [done|]).
      intros c' md' [= <-] Hmd. rewrite Hpm in Hmd. injection Hmd as <-.
      do 3 (split; [done|]).
      intros _ metadata' Hm. discriminate Hm.
  - apply truthy_string_false in Htruthy. subst md.
    eexists _, _. split; [reflexivity|]. do 2 (split; [done|]).
    intros c' md' [= <-] Hmd. rewrite Hpm in Hmd. injection Hmd as <-.
    do 3 (split; [done|]).
    by intros [].
Qed.

(** ** The carried variables of a run *)

(** The variables the loop leaves are the initial ones with the attempts it
    made folded in, in order, also when an attempt throws. *)
Lemma for_scrapers_carried (url : string) (scrapers : list string) (m : Machine) :
  sufficient existingHtml = false →
  ∃ attempts, vars (loop url scrapers m).1 = carry_all attempts (vars m).
Proof.
  intros Hex. revert m. induction scrapers as [|scraper rest IH]; intros m.
  { by exists []. }
  rewrite for_scrapers_step by done.
  pose proof (attemptScraping_preserves_vars url scraper m) as Hvars.
  destruct (attempt url scraper m) as [m1 [a|e]]; simpl in Hvars.
  2: { exists []. simpl. by rewrite Hvars. }
  cbv zeta. simpl vars.
  destruct (sufficient (Attempt.text a)).
  { exists [a]. simpl. by rewrite Hvars. }
  destruct (carried_404 (carry a (vars m1))).
  { exists [a]. simpl. by rewrite Hvars. }
  destruct (IH {| trace := trace m1; vars := carry a (vars m1) |})
    as [attempts Hrest].
  exists (a :: attempts). rewrite Hrest. simpl. by rewrite Hvars.
Qed.

(** Whatever the collaborators do, the variables that [scrapSingleUrl] leaves
    hold an error only with a status of 400 or more. *)
Lemma scrapSingleUrl_error_needs_failure (url : string) (m : Machine) :
  error_needs_failure (vars (scrape url m).1).
Proof.
  assert (error_needs_failure
            (vars (loop (JS.trim url) (plan (JS.trim url))
                     {| trace := trace m; vars := Vars.init |}).1)) as Hloop.
  { destruct (sufficient existingHtml) eqn:Hex.
    - destruct (plan (JS.trim url)) as [|scraper rest] eqn:Hplan.
      { by destruct (plan_for_nonempty (JS.trim url)). }
      rewrite for_scrapers_existing by done.
      destruct (use_existingHtml_status
                  {| trace := trace m; vars := Vars.init |}) as (Hs & He & _).
      unfold error_needs_failure. rewrite Hs, He. by intros [].
    - destruct (for_scrapers_carried (JS.trim url) (plan (JS.trim url))
                  {| trace := trace m; vars := Vars.init |} Hex)
        as [attempts ->].
      apply carry_all_error_needs_failure. by intros []. }
  rewrite scrapSingleUrl_unfold. cbv zeta.
  destruct (loop _ _ _) as [m1 [[]|e]]; simpl in *; [|done].
  destruct (JS.truthy_string _); [|done].
  by destruct (extractMetadata W _ _).
Qed.

(** ** The override hook *)

Lemma customScrape_one_fetch
    (screenshot : string) (d : Directive.t) (m m' : Machine)
    (r : Result (option FireEngineResponse.t)) :
  customScrape W pageOptions screenshot d m = (m', r) →
  ∃ ev, trace m' = trace m ++ [ev]
        ∧ is_fetch_call ev = true
        ∧ is_hook_call ev = false
        ∧ (∀ o, r = Ok o → is_Some o).
Proof.
  unfold customScrape, bind, call, ret.
  destruct (Directive.scraper d); simpl.
  - destruct (scrapWithFireEngine W (trace m) _) as [c|e]; intros [= <- <-];
      eexists; repeat split; try done; intros o [= <-]; by eexists.
  - destruct (fetchAndProcessPdf W (trace m) _ _) as [c|e]; intros [= <- <-];
      eexists; repeat split; try done; intros o [= <-]; by eexists.
Qed.

(** What one attempt does around the hook: the hook is called once, on the
    text of the backend; a directive makes one more fetch, and its text
    replaces the text of the backend; the screenshot and the status of the
    attempt are those of the backend in every case. *)
Lemma attemptScraping_override
    (url method : string) (m m' : Machine) (a : Attempt.t) :
  attempt url method m = (m', Ok a) →
  ∃ m1 resp directive,
    callScraper env W pageOptions url method m = (m1, Ok resp)
    ∧ handleCustomScraping W (trace m1) (ScraperResponse.text resp) url
      = Ok directive
    ∧ Attempt.screenshot a = ScraperResponse.screenshot resp
    ∧ Attempt.pageStatusCode a = ScraperResponse.pageStatusCode resp
    ∧ match directive with
      | None =>
          trace m' = trace m1 ++ [CallHook (ScraperResponse.text resp) url]
          ∧ Attempt.rawHtml a = ScraperResponse.text resp
      | Some d =>
          ∃ ev c,
            trace m'
            = trace m1 ++ [CallHook (ScraperResponse.text resp) url; ev]
            ∧ is_fetch_call ev = true
            ∧ is_hook_call ev = false
            ∧ (customScrape W pageOptions "" d
                 {| trace :=
                      trace m1 ++ [CallHook (ScraperResponse.text resp) url];
                    vars := vars m1 |}).2 = Ok (Some c)
            ∧ Attempt.rawHtml a = FireEngineResponse.html c
      end.
Proof.
  unfold attemptScraping. unfold bind at 1.
  destruct (callScraper env W pageOptions url method m) as [m1 [resp|e]];
    [|done].
  unfold bind at 1. unfold call at 1. simpl.
  destruct (handleCustomScraping W (trace m1) (ScraperResponse.text resp) url)
    as [directive|e] eqn:Hhook; [|done].
  intros Hrun. exists m1, resp, directive. split; [done|]. split; [done|].
  destruct directive as [d|].
  - unfold bind at 1 in Hrun.
    destruct (customScrape W pageOptions "" d _) as [m2 r] eqn:Hcustom.
    destruct (customScrape_one_fetch _ _ _ _ _ Hcustom)
      as (ev & Htrace & Hfetch & Hhookcall & Hsome).
    destruct r as [o|e]; [|done].
    destruct (Hsome o eq_refl) as [c ->].
    unfold bind, lift, ret in Hrun.
    destruct (removeUnwantedElements W _ _); [|done].
    destruct (parseMarkdown W _); [|done].
    injection Hrun as <- <-. simpl. repeat split.
    exists ev, c. simpl in Htrace. rewrite Htrace, <- app_assoc. done.
  - unfold bind, lift, ret in Hrun.
    destruct (removeUnwantedElements W _ _); [|done].
    destruct (parseMarkdown W _); [|done].
    injection Hrun as <- <-. done.
Qed.

End LoopProperties.


(** ** The theorems at concrete inputs *)

Lemma judging_order_witness : sufficient hundred_chars = true.
Proof.
  destruct (judging_order env_none offline_world defaultPageOptions ""
              "https://example.com" ["fetch"] []) as (_ & _ & H100 & _).
  apply H100. reflexivity.
Defined.

Lemma exhaustion_returns_degraded_document_witness :
  ∃ m' d,
    scrapSingleUrl env_all example_URL_hostname ∅ server_error_world
      defaultPageOptions defaultExtractorOptions ""
      " https://down.example " machine0 = (m', Ok d)
    ∧ adapters_invoked m'
      = ["scrapingBee"; "fire-engine"; "playwright"; "scrapingBeeLoad";
         "fetch"]
    ∧ Document.content d = ""
    ∧ Document.markdown d = ""
    ∧ Document.metadata d !! "sourceURL"
      = Some (JS.VStr "https://down.example")
    ∧ Document.metadata d !! "pageStatusCode" = Some (JS.VNum 500)
    ∧ Document.metadata d !! "pageError"
      = Some (JS.VStr "Internal Server Error").
Proof.
  destruct (exhaustion_returns_degraded_document
              env_all example_URL_hostname ∅ server_error_world
              defaultPageOptions defaultExtractorOptions ""
              " https://down.example " machine0)
    as (tried & skipped & attempts & m' & d & Hrun & _ & _ & _ & _ & _ & _
        & _ & Hc & Hm & Hurl & _).
  - reflexivity.
  - intros scraper m0 Hin.
    assert (plan_for env_all example_URL_hostname ∅ defaultPageOptions
              (JS.trim " https://down.example ")
            = ["scrapingBee"; "fire-engine"; "playwright"; "scrapingBeeLoad";
               "fetch"]) as Hplan
      by reflexivity.
    rewrite Hplan in Hin.
    repeat (apply elem_of_cons in Hin as [-> | Hin];
            [eexists _, _; split; [vm_compute; reflexivity | reflexivity]|]).
    by apply elem_of_nil in Hin.
  - exists m', d. split; [exact Hrun|].
    assert ((m', Ok d)
            = scrapSingleUrl env_all example_URL_hostname ∅ server_error_world
                defaultPageOptions defaultExtractorOptions ""
                " https://down.example " machine0) as Hsame by (by rewrite Hrun).
    vm_compute in Hsame. injection Hsame as -> Hd.
    split; [reflexivity|]. split; [exact Hc|]. split; [exact Hm|].
    split; [exact Hurl|]. rewrite Hd. split; reflexivity.
Defined.

Lemma offline_world_reports_no_status
    (env : Env) (po : PageOptions.t) (url scraper : string)
    (m0 m1 : Machine) (a : Attempt.t) :
  attemptScraping env offline_world po url scraper m0 = (m1, Ok a) →
  Attempt.pageStatusCode a = None.
Proof.
  intros Hrun.
  destruct (attemptScraping_override _ _ _ _ _ _ _ _ Hrun)
    as (m1' & resp & d & Hcall & _ & _ & Hstatus & _).
  rewrite Hstatus. revert Hcall.
  unfold callScraper, bind, call, ret; simpl.
  repeat case_match; intros [= <- <-]; reflexivity.
Qed.

Lemma no_status_reported_gives_200_witness :
  ∃ m' d,
    scrapSingleUrl env_all example_URL_hostname ∅ offline_world
      defaultPageOptions defaultExtractorOptions ""
      "https://offline.example" machine0 = (m', Ok d)
    ∧ Document.metadata d !! "pageStatusCode" = Some (JS.VNum 200).
Proof.
  destruct (no_status_reported_gives_200
              env_all example_URL_hostname ∅ offline_world
              defaultPageOptions defaultExtractorOptions ""
              "https://offline.example" machine0)
    as (m' & d & Hrun & _ & Hcode & _).
  - intros scraper m0 m1 a. apply offline_world_reports_no_status.
  - exists m', d. split; [exact Hrun | exact Hcode].
Defined.

Lemma prefetched_content_short_circuits_witness :
  ∃ m' d,
    scrapSingleUrl env_all example_URL_hostname ∅ redirect_world
      screenshotPageOptions defaultExtractorOptions hundred_chars
      "https://example.com" machine0 = (m', Ok d)
    ∧ trace m' = [].
Proof.
  destruct (prefetched_content_short_circuits
              env_all example_URL_hostname ∅ redirect_world
              screenshotPageOptions defaultExtractorOptions hundred_chars
              "https://example.com" machine0)
    as (m' & d & Hrun & Htrace & _).
  - vm_compute. discriminate.
  - exists m', d. split; [exact Hrun | exact Htrace].
Defined.

(** ** Planned orders of concrete configurations *)

Example plan_all_noflags :
  getScrapingFallbackOrder env_all None false false false
  = ["scrapingBee"; "fire-engine"; "playwright"; "scrapingBeeLoad"; "fetch"].
Proof. reflexivity. Qed.

Example plan_all_screenshot :
  getScrapingFallbackOrder env_all (Some "") false true false
  = ["fire-engine"; "playwright"; "scrapingBee"; "scrapingBeeLoad"; "fetch"].
Proof. reflexivity. Qed.

Example plan_all_forced :
  getScrapingFallbackOrder env_all (Some "playwright") false false false
  = ["playwright"; "scrapingBee"; "fire-engine"; "scrapingBeeLoad"; "fetch"].
Proof. reflexivity. Qed.

Example plan_fire_engine_only_wait :
  getScrapingFallbackOrder env_fire_engine None true false false
  = ["fire-engine"; "fetch"].
Proof. reflexivity. Qed.

Example trim_both_ends : JS.trim "  a b	 " = "a b".
Proof. reflexivity. Qed.

(** ** Runs in concrete worlds *)

(** A short text from the first backend and a long one from the second: the
    document has the second text, and the loop stops there. *)
Example second_backend_wins :
  let r := scrapSingleUrl env_all example_URL_hostname ∅ two_step_world
             defaultPageOptions defaultExtractorOptions ""
             "https://example.org" machine0 in
  adapters_invoked r.1 = ["scrapingBee"; "fire-engine"]
  ∧ (Document.content <$> match r.2 with Ok d => Some d | Throw _ => None end)
    = Some (chars 150).
Proof. vm_compute. done. Qed.

(** A 404 without text from the first backend: no other backend is tried,
    and the document of the [catch] block carries the status and the error. *)
Example not_found_stops_the_loop :
  let r := scrapSingleUrl env_all example_URL_hostname ∅ not_found_world
             defaultPageOptions defaultExtractorOptions ""
             "https://example.org" machine0 in
  adapters_invoked r.1 = ["scrapingBee"]
  ∧ r.2 = Ok (degraded_document "https://example.org" 404 (Some "Not Found")).
Proof. vm_compute. done. Qed.

(** With every backend offline the whole order is tried. *)
Example offline_tries_every_backend :
  adapters_invoked
    (scrapSingleUrl env_all example_URL_hostname ∅ offline_world
       defaultPageOptions defaultExtractorOptions ""
       "https://example.org" machine0).1
  = ["scrapingBee"; "fire-engine"; "playwright"; "scrapingBeeLoad"; "fetch"].
Proof. vm_compute. done. Qed.

(** The forced backend of the override table comes first. *)
Example forced_backend_of_the_table :
  plan_for env_all example_URL_hostname example_urlSpecificParams
    defaultPageOptions "https://www.example.com/docs"
  = ["playwright"; "scrapingBee"; "fire-engine"; "scrapingBeeLoad"; "fetch"].
Proof. reflexivity. Qed.

(** * Further properties *)

(** ** The planner *)

Lemma includes_cons_ne (acc : list string) (d x : string) :
  x ≠ d →
  JS.includes (d :: List.filter (λ y, negb (y =? d)%string) acc) x
  = JS.includes acc x.
Proof.
  intros Hne.
  destruct (JS.includes acc x) eqn:E.
  - apply includes_true. apply includes_true in E.
    apply elem_of_cons. right. apply elem_of_List_filter. split; [done|].
    apply negb_true_iff, String.eqb_neq. done.
  - apply includes_false. apply includes_false in E.
    rewrite elem_of_cons, elem_of_List_filter. tauto.
Qed.

Lemma fold_Set_add_front (l acc : list string) (d : string) :
  fold_left JS.Set_add l (d :: List.filter (λ y, negb (y =? d)%string) acc)
  = d :: List.filter (λ y, negb (y =? d)%string) (fold_left JS.Set_add l acc).
Proof.
  revert acc. induction l as [|x l IH]; intros acc; [done|]. simpl.
  rewrite <- IH. f_equal.
  destruct (String.eqb_spec x d) as [->|Hne].
  - unfold JS.Set_add at 1.
    assert (JS.includes
              (d :: List.filter (λ y, negb (y =? d)%string) acc) d = true)
      as -> by (apply includes_true; set_solver).
    unfold JS.Set_add. destruct (JS.includes acc d); [done|].
    rewrite List.filter_app. simpl. rewrite String.eqb_refl. simpl.
    by rewrite app_nil_r.
  - unfold JS.Set_add. rewrite includes_cons_ne by done.
    destruct (JS.includes acc x); [done|].
    rewrite List.filter_app. simpl.
    apply String.eqb_neq in Hne. by rewrite Hne.
Qed.

Lemma plan_forced_front (env : Env) (d : string) (w s h : bool) :
  d ≠ "" →
  getScrapingFallbackOrder env (Some d) w s h
  = d :: List.filter (λ x, negb (x =? d)%string)
           (getScrapingFallbackOrder env None w s h).
Proof.
  intros Hd. unfold getScrapingFallbackOrder, JS.Array_from, plan_candidates.
  assert (JS.truthy_ostring (Some d) = true) as -> by by destruct d.
  simpl. unfold JS.new_Set. simpl.
  apply (fold_Set_add_front _ [] d).
Qed.

(** X1. Forcing a backend only moves it to the front: the planned order with a
    forced backend is that backend followed by the order planned without it,
    the forced backend taken out. *)
Theorem plan_forced_is_front_of_unforced
    (env : Env) (d : string) (w s h : bool) :
  d ≠ "" →
  getScrapingFallbackOrder env (Some d) w s h
  = d :: List.filter (λ x, negb (x =? d)%string)
           (getScrapingFallbackOrder env None w s h).
Proof. apply plan_forced_front. Qed.

Lemma plan_forced_is_front_of_unforced_witness :
  getScrapingFallbackOrder env_all (Some "playwright") true false false
  = ["playwright"; "fire-engine"; "scrapingBee"; "scrapingBeeLoad"; "fetch"].
Proof.
  rewrite (plan_forced_is_front_of_unforced env_all "playwright" true false false)
    by discriminate.
  reflexivity.
Defined.

Lemma defaultOrder_base (w s h : bool) (x : string) :
  x ∈ defaultOrder w s h ↔ x ∈ baseScrapers.
Proof.
  unfold defaultOrder, baseScrapers, defaultOrder0.
  destruct (w || s || h); simpl; rewrite !elem_of_cons, !elem_of_nil; tauto.
Qed.

Lemma plan_unforced_elem
    (env : Env) (defaultScraper : option string) (w s h : bool) (x : string) :
  JS.truthy_ostring defaultScraper = false →
  x ∈ getScrapingFallbackOrder env defaultScraper w s h
  ↔ x ∈ baseScrapers ∧ scraper_configured env x = true.
Proof.
  intros Hd. rewrite plan_elem. unfold plan_candidates. rewrite Hd.
  rewrite elem_of_app. unfold filteredDefaultOrder, availableScrapers.
  rewrite !elem_of_List_filter, includes_true, elem_of_List_filter.
  rewrite defaultOrder_base. tauto.
Qed.

(** X2. Without a forced backend the planned order holds exactly the base
    backends that are configured, each once, and the plain fetch is the last
    resort. *)
Theorem plan_unforced_is_configured_base
    (env : Env) (defaultScraper : option string) (w s h : bool) :
  JS.truthy_ostring defaultScraper = false →
  let plan := getScrapingFallbackOrder env defaultScraper w s h in
  NoDup plan
  ∧ (∀ x, x ∈ plan ↔ x ∈ baseScrapers ∧ scraper_configured env x = true)
  ∧ last plan = Some "fetch".
Proof.
  intros Hd plan. subst plan. split; [apply new_Set_NoDup|]. split.
  - intros x. by apply plan_unforced_elem.
  - unfold getScrapingFallbackOrder, plan_candidates, filteredDefaultOrder,
      defaultOrder, JS.Array_from.
    rewrite Hd.
    destruct env as [[[|??]|] [[|??]|] [[|??]|]], w, s, h; reflexivity.
Qed.

Lemma plan_unforced_is_configured_base_witness :
  last (getScrapingFallbackOrder env_fire_engine None false true false)
  = Some "fetch".
Proof.
  apply (plan_unforced_is_configured_base
           env_fire_engine None false true false eq_refl).
Defined.

(** ** Attempts and runs *)

Section RunProperties.

Variable env : Env.
Variable URL_hostname : string → Result string.
Variable urlSpecificParams : gmap string (gmap string JS.value).
Variable W : World.
Variable pageOptions : PageOptions.t.
Variable extractorOptions : ExtractorOptions.t.

Local Abbreviation attempt := (attemptScraping env W pageOptions).
Local Abbreviation loop := (for_scrapers env W pageOptions).
Local Abbreviation plan := (plan_for env URL_hostname urlSpecificParams pageOptions).
Local Abbreviation scrape :=
  (scrapSingleUrl env URL_hostname urlSpecificParams W
     pageOptions extractorOptions).

Lemma callScraper_guard (url method : string) (m : Machine) :
  scraper_configured env method = false ∨ method ∉ baseScrapers →
  callScraper env W pageOptions url method m = (m, Ok emptyResponse).
Proof.
  unfold callScraper, scraper_configured, baseScrapers.
  destruct (String.eqb_spec method "fire-engine") as [->|Hfe]; simpl.
  { intros [-> | Hin]; [done|]. destruct Hin. rewrite !elem_of_cons. auto 10. }
  destruct (String.eqb_spec method "scrapingBee") as [->|Hsb]; simpl.
  { intros [-> | Hin]; [done|]. destruct Hin. rewrite !elem_of_cons. auto 10. }
  destruct (String.eqb_spec method "playwright") as [->|Hpw]; simpl.
  { intros [-> | Hin]; [done|]. destruct Hin. rewrite !elem_of_cons. auto 10. }
  destruct (String.eqb_spec method "scrapingBeeLoad") as [->|Hsbl]; simpl.
  { intros [-> | Hin]; [done|]. destruct Hin. rewrite !elem_of_cons. auto 10. }
  destruct (String.eqb_spec method "fetch") as [->|Hf]; simpl; [|done].
  intros [? | Hin]; [done|]. destruct Hin. rewrite !elem_of_cons. auto 10.
Qed.

(** X3. A backend that is planned without being configured (the forced one
    can be), or whose name is not a base backend, is never called: the
    attempt goes straight to the hook, with an empty text and no status. *)
Theorem unconfigured_backend_is_not_called
    (url method : string) (m : Machine) :
  scraper_configured env method = false ∨ method ∉ baseScrapers →
  callScraper env W pageOptions url method m = (m, Ok emptyResponse)
  ∧ ∃ rest, trace (attempt url method m).1
            = trace m ++ CallHook "" url :: rest
  ∧ ∀ m' a, attempt url method m = (m', Ok a) →
            Attempt.pageStatusCode a = None ∧ Attempt.screenshot a = "".
Proof.
  intros Hguard. split; [by apply callScraper_guard|].
  unfold attemptScraping, bind, call, lift, ret.
  rewrite callScraper_guard by done. simpl.
  destruct (handleCustomScraping W (trace m) "" url) as [[d|]|e]; simpl.
  - destruct (customScrape W pageOptions "" d _) as [m2 r] eqn:Hcustom.
    destruct (customScrape_one_fetch _ _ _ _ _ _ _ Hcustom)
      as (ev & Htrace & _).
    simpl in Htrace. exists [ev]. rewrite <- app_assoc in Htrace.
    destruct r as [o|e]; simpl; [|by split].
    destruct (removeUnwantedElements W _ _); simpl; [|by split].
    destruct (parseMarkdown W _); simpl; [|by split].
    split; [done|]. by intros m' att [= <- <-].
  - exists [].
    destruct (removeUnwantedElements W _ _); simpl; [|by split].
    destruct (parseMarkdown W _); simpl; [|by split].
    split; [done|]. by intros m' att [= <- <-].
  - exists []. by split.
Qed.

End RunProperties.

Lemma unconfigured_backend_is_not_called_witness :
  callScraper env_none offline_world defaultPageOptions
    "https://example.com" "fire-engine" machine0
  = (machine0, Ok emptyResponse).
Proof.
  apply (unconfigured_backend_is_not_called env_none offline_world
           defaultPageOptions "https://example.com" "fire-engine" machine0).
  left. reflexivity.
Defined.

(** ** The returned document *)

Lemma carry_fields (a : Attempt.t) (v : Vars.t) :
  Vars.html (carry a v) = Attempt.html a
  ∧ Vars.rawHtml (carry a v) = Attempt.rawHtml a
  ∧ Vars.screenshot (carry a v) = Attempt.screenshot a.
Proof.
  unfold carry, carry_error, carry_status, set_pageError, assign_attempt.
  repeat case_match; done.
Qed.

Section DocumentProperties.

Variable env : Env.
Variable URL_hostname : string → Result string.
Variable urlSpecificParams : gmap string (gmap string JS.value).
Variable W : World.
Variable pageOptions : PageOptions.t.
Variable extractorOptions : ExtractorOptions.t.

Local Abbreviation attempt := (attemptScraping env W pageOptions).
Local Abbreviation loop := (for_scrapers env W pageOptions).
Local Abbreviation plan := (plan_for env URL_hostname urlSpecificParams pageOptions).
Local Abbreviation scrape :=
  (scrapSingleUrl env URL_hostname urlSpecificParams W
     pageOptions extractorOptions).
Local Abbreviation build := (build_document pageOptions extractorOptions).

(** The two shapes of the returned document. *)
Lemma scrapSingleUrl_shapes (existingHtml url : string) (m : Machine) :
  ∃ m' d,
    scrape existingHtml url m = (m', Ok d)
    ∧ m' = (loop existingHtml (JS.trim url) (plan (JS.trim url))
              {| trace := trace m; vars := Vars.init |}).1
    ∧ (d = degraded_document (JS.trim url)
             (Vars.pageStatusCode (vars m')) (Vars.pageError (vars m'))
       ∨ ∃ metadata,
           JS.truthy_string (Vars.text (vars m')) = true
           ∧ d = build (JS.trim url) (vars m') metadata).
Proof.
  rewrite scrapSingleUrl_unfold. cbv zeta.
  destruct (loop _ _ _ _) as [m1 [[]|e]]; simpl; [|by eauto 10].
  destruct (JS.truthy_string (Vars.text (vars m1))) eqn:Htext; [|by eauto 10].
  destruct (extractMetadata W _ _); by eauto 10.
Qed.

Lemma build_document_pageError
    (url : string) (v : Vars.t) (metadata : gmap string JS.value) :
  Document.metadata (build url v metadata) !! "pageError"
  = Some (JS.of_ostring (Vars.pageError v)).
Proof.
  unfold build_document. cbv zeta.
  destruct (JS.truthy_string (Vars.screenshot v)
            && (0 <? JS.length (Vars.screenshot v))); simpl;
    repeat first [ rewrite lookup_insert_eq | rewrite lookup_insert_ne by done ];
    reflexivity.
Qed.

(** X4. [scrapSingleUrl] returns a document whatever its collaborators do or
    throw. The document has the trimmed URL as [sourceURL] and equal [content]
    and [markdown]; its content is empty exactly when it is the document of
    the [catch] block. *)
Theorem scrapSingleUrl_always_returns (existingHtml url : string) (m : Machine) :
  ∃ m' d,
    scrape existingHtml url m = (m', Ok d)
    ∧ Document.metadata d !! "sourceURL" = Some (JS.VStr (JS.trim url))
    ∧ Document.content d = Document.markdown d
    ∧ (Document.content d = ""
       ↔ d = degraded_document (JS.trim url)
               (Vars.pageStatusCode (vars m')) (Vars.pageError (vars m'))).
Proof.
  destruct (scrapSingleUrl_shapes existingHtml url m)
    as (m' & d & Hrun & _ & [-> | (metadata & Htext & ->)]).
  - exists m'. eexists. split; [exact Hrun|]. by repeat split.
  - exists m'. eexists. split; [exact Hrun|].
    destruct (build_document_fields pageOptions extractorOptions
                (JS.trim url) (vars m') metadata) as (Hc & Hm & Hurl & _).
    split; [done|]. split; [by rewrite Hc, Hm|]. rewrite Hc. split.
    + intros E. rewrite E in Htext. discriminate.
    + intros E. apply (f_equal Document.content) in E. rewrite Hc in E.
      simpl in E. rewrite E in Htext. discriminate.
Qed.

(** X5. In the returned document [pageStatusCode] is a number, and [pageError]
    is a string only beside a status of 400 or more. *)
Theorem document_error_needs_failure
    (existingHtml url : string) (m m' : Machine) (d : Document.t) :
  scrape existingHtml url m = (m', Ok d) →
  ∃ code,
    Document.metadata d !! "pageStatusCode" = Some (JS.VNum code)
    ∧ (∀ e, Document.metadata d !! "pageError" = Some (JS.VStr e) →
            400 ≤ code).
Proof.
  intros Hrun.
  pose proof (scrapSingleUrl_error_needs_failure env URL_hostname
                urlSpecificParams W pageOptions extractorOptions
                existingHtml url m) as Hinv.
  destruct (scrapSingleUrl_shapes existingHtml url m)
    as (m1 & d1 & Hrun1 & _ & Hshape).
  rewrite Hrun in Hrun1, Hinv. injection Hrun1 as <- <-. simpl in Hinv.
  exists (Vars.pageStatusCode (vars m')).
  unfold error_needs_failure in Hinv.
  destruct Hshape as [-> | (metadata & _ & ->)].
  - split; [reflexivity|]. intros e He.
    change (Some (JS.of_ostring (Vars.pageError (vars m'))) = Some (JS.VStr e))
      in He.
    apply Hinv. destruct (Vars.pageError (vars m')); [done|discriminate].
  - destruct (build_document_fields pageOptions extractorOptions
                (JS.trim url) (vars m') metadata) as (_ & _ & _ & Hcode).
    split; [exact Hcode|]. intros e. rewrite build_document_pageError.
    intros He. apply Hinv.
    destruct (Vars.pageError (vars m')); [done|discriminate].
Qed.

(** What an attempt returns as [html] is the cleaned source, and what it
    returns as [text] is the conversion of that. *)
Lemma attemptScraping_cleaned
    (url method : string) (m m' : Machine) (a : Attempt.t) :
  attempt url method m = (m', Ok a) →
  removeUnwantedElements W (Attempt.rawHtml a) pageOptions
  = Ok (Attempt.html a)
  ∧ parseMarkdown W (Attempt.html a) = Ok (Attempt.text a).
Proof.
  unfold attemptScraping. unfold bind at 1.
  destruct (callScraper env W pageOptions url method m) as [m1 [resp|e]];
    [|done].
  unfold bind at 1. unfold call at 1. simpl.
  destruct (handleCustomScraping W (trace m1) (ScraperResponse.text resp) url)
    as [directive|e]; [|done].
  unfold bind at 1.
  destruct (match directive with
            | Some d => customScrape W pageOptions "" d
            | None => ret None
            end _) as [m2 [custom|e]]; [|done].
  unfold bind, lift, ret. simpl.
  destruct (removeUnwantedElements W _ pageOptions) as [cleanedHtml|e] eqn:Hclean;
    [|done].
  destruct (parseMarkdown W cleanedHtml) as [markdown|e] eqn:Hmd; [|done].
  intros [= <- <-]. simpl. by rewrite Hclean, Hmd.
Qed.

(** The cleaned HTML and the text the loop leaves are made, by the cleaner and
    the converter, of the text of the crawler when it is used, and of the raw
    HTML the loop leaves otherwise. *)
Lemma for_scrapers_cleaned
    (existingHtml url : string) (scrapers : list string) (m : Machine) :
  let v' := vars (loop existingHtml url scrapers m).1 in
  v' = vars m
  ∨ ∃ source,
      removeUnwantedElements W source pageOptions = Ok (Vars.html v')
      ∧ parseMarkdown W (Vars.html v') = Ok (Vars.text v')
      ∧ (if sufficient existingHtml
         then source = existingHtml ∧ Vars.rawHtml v' = Vars.rawHtml (vars m)
         else source = Vars.rawHtml v').
Proof.
  destruct (sufficient existingHtml) eqn:Hex.
  - destruct scrapers as [|scraper rest]; [by left|].
    cbv zeta. simpl. rewrite Hex.
    unfold use_existingHtml, bind, lift, modify_vars, ret. simpl.
    destruct (removeUnwantedElements W existingHtml pageOptions)
      as [cleanedHtml|e] eqn:Hclean; [|by left].
    destruct (parseMarkdown W cleanedHtml) as [markdown|e] eqn:Hmd;
      [|by left].
    right. by exists existingHtml.
  - revert m. induction scrapers as [|scraper rest IH]; intros m; [by left|].
    cbv zeta. rewrite for_scrapers_step by done.
    pose proof (attemptScraping_preserves_vars env W pageOptions url scraper m)
      as Hvars.
    destruct (attempt url scraper m) as [m1 [a|e]] eqn:Hrun; simpl in Hvars.
    2: { left. simpl. by rewrite Hvars. }
    cbv zeta.
    destruct (attemptScraping_cleaned _ _ _ _ _ Hrun) as (Hclean & Hmd).
    destruct (carry_fields a (vars m1)) as (Hh & Hr & _).
    pose proof (carry_text a (vars m1)) as Ht.
    assert (∃ source,
              removeUnwantedElements W source pageOptions
              = Ok (Vars.html (carry a (vars m1)))
              ∧ parseMarkdown W (Vars.html (carry a (vars m1)))
                = Ok (Vars.text (carry a (vars m1)))
              ∧ source = Vars.rawHtml (carry a (vars m1))) as Hhere.
    { exists (Attempt.rawHtml a). by rewrite Hh, Hr, Ht. }
    destruct (sufficient (Attempt.text a)); [by right|].
    destruct (carried_404 _); [by right|].
    destruct (IH {| trace := trace m1; vars := carry a (vars m1) |})
      as [E | Hlater]; cbv zeta in *; simpl vars in *.
    + right. by rewrite E.
    + by right.
Qed.

(** X6. The document of the [catch] block holds an empty string as [html] and
    no [rawHtml]. A document with content holds the cleaned HTML as [html]
    exactly when the request asks for it, and the raw HTML as [rawHtml]
    exactly when the request or the extraction mode asks for it. The cleaned
    HTML is the one whose conversion is the content; it is made of the text
    of the crawler when that is used (the raw HTML is then empty), and of the
    raw HTML otherwise. *)
Theorem document_html_fields
    (existingHtml url : string) (m m' : Machine) (d : Document.t) :
  scrape existingHtml url m = (m', Ok d) →
  (Document.content d = "" →
   Document.html d = Some "" ∧ Document.rawHtml d = None)
  ∧ (Document.content d ≠ "" →
     ∃ source raw cleanedHtml,
       removeUnwantedElements W source pageOptions = Ok cleanedHtml
       ∧ parseMarkdown W cleanedHtml = Ok (Document.content d)
       ∧ (if sufficient existingHtml
          then source = existingHtml ∧ raw = ""
          else source = raw)
       ∧ Document.html d
         = (if is_true_option (PageOptions.includeHtml pageOptions)
            then Some cleanedHtml else None)
       ∧ Document.rawHtml d
         = (if is_true_option (PageOptions.includeRawHtml pageOptions)
               || (ExtractorOptions.mode extractorOptions
                   =? "llm-extraction-from-raw-html")%string
            then Some raw else None)).
Proof.
  intros Hrun.
  destruct (scrapSingleUrl_shapes existingHtml url m)
    as (m1 & d1 & Hrun1 & Hm1 & Hshape).
  rewrite Hrun in Hrun1. injection Hrun1 as <- <-.
  destruct Hshape as [-> | (metadata & Htext & ->)].
  - split; [done|]. intros Hne. by destruct Hne.
  - destruct (build_document_fields pageOptions extractorOptions
                (JS.trim url) (vars m') metadata) as (Hc & _).
    split.
    { rewrite Hc. intros E. rewrite E in Htext. discriminate. }
    intros _. rewrite Hc.
    pose proof (for_scrapers_cleaned existingHtml (JS.trim url)
                  (plan (JS.trim url))
                  {| trace := trace m; vars := Vars.init |}) as Hloop.
    cbv zeta in Hloop. rewrite <- Hm1 in Hloop. simpl vars in Hloop.
    destruct Hloop as [E | (source & Hclean & Hmd & Hsource)].
    { rewrite E in Htext. discriminate. }
    exists source, (Vars.rawHtml (vars m')), (Vars.html (vars m')).
    split; [exact Hclean|]. split; [exact Hmd|]. split; [exact Hsource|].
    unfold build_document. cbv zeta.
    by destruct (JS.truthy_string (Vars.screenshot (vars m'))
                 && (0 <? JS.length (Vars.screenshot (vars m')))).
Qed.

End DocumentProperties.

(** ** Text coming from the crawler, and the origin of the fields *)

Section OriginProperties.

Variable env : Env.
Variable URL_hostname : string → Result string.
Variable urlSpecificParams : gmap string (gmap string JS.value).
Variable W : World.
Variable pageOptions : PageOptions.t.
Variable extractorOptions : ExtractorOptions.t.

Local Abbreviation attempt := (attemptScraping env W pageOptions).
Local Abbreviation loop := (for_scrapers env W pageOptions).
Local Abbreviation plan := (plan_for env URL_hostname urlSpecificParams pageOptions).
Local Abbreviation scrape :=
  (scrapSingleUrl env URL_hostname urlSpecificParams W
     pageOptions extractorOptions).
Local Abbreviation build := (build_document pageOptions extractorOptions).

(** X7. A document made from the text of the crawler reports the status 200
    and no error; its metadata is extracted from an empty raw HTML, and its
    [rawHtml], when asked for, is the empty string: the HTML of the crawler is
    cleaned and converted, it is not returned as raw HTML. *)
Theorem prefetched_document_fields
    (existingHtml url : string) (m m' : Machine) (d : Document.t) :
  sufficient existingHtml = true →
  scrape existingHtml url m = (m', Ok d) →
  Document.metadata d !! "pageStatusCode" = Some (JS.VNum 200)
  ∧ Document.metadata d !! "pageError" = Some JS.VUndefined
  ∧ (∀ raw, Document.rawHtml d = Some raw → raw = "")
  ∧ (Document.content d ≠ "" →
     ∃ cleanedHtml metadata,
       removeUnwantedElements W existingHtml pageOptions = Ok cleanedHtml
       ∧ parseMarkdown W cleanedHtml = Ok (Document.content d)
       ∧ extractMetadata W "" (JS.trim url) = Ok metadata
       ∧ d = build (JS.trim url)
               (set_html cleanedHtml
                  (set_text (Document.content d) Vars.init)) metadata).
Proof.
  intros Hex. rewrite scrapSingleUrl_unfold. cbv zeta.
  destruct (plan (JS.trim url)) as [|scraper rest] eqn:Hplan.
  { by destruct (plan_for_nonempty env URL_hostname urlSpecificParams
                   pageOptions (JS.trim url)). }
  rewrite for_scrapers_existing by done.
  unfold use_existingHtml, bind, lift, modify_vars, ret. simpl.
  destruct (removeUnwantedElements W existingHtml pageOptions) as [c|e];
    [|by intros [= <- <-]].
  destruct (parseMarkdown W c) as [md|e] eqn:Hmd; simpl;
    [|by intros [= <- <-]].
  destruct (JS.truthy_string md) eqn:Htruthy; [|by intros [= <- <-]].
  destruct (extractMetadata W "" (JS.trim url)) as [metadata|e] eqn:Hmeta;
    [|by intros [= <- <-]].
  intros [= <- <-].
  destruct (build_document_fields pageOptions extractorOptions (JS.trim url)
              (set_html c (set_text md Vars.init)) metadata)
    as (Hc & _ & _ & Hcode).
  split; [exact Hcode|]. split; [apply build_document_pageError|]. split.
  - unfold build_document. cbv zeta. simpl. intros raw.
    destruct (_ || _); [by intros [= <-] | done].
  - intros _. exists c, metadata. rewrite Hc. simpl. by rewrite Hmd.
Qed.

Lemma for_scrapers_ignores_short (e1 e2 url : string) (scrapers : list string) :
  sufficient e1 = false → sufficient e2 = false →
  ∀ m, loop e1 url scrapers m = loop e2 url scrapers m.
Proof.
  intros H1 H2. induction scrapers as [|scraper rest IH]; intros m; [done|].
  rewrite !for_scrapers_step by done.
  destruct (attempt url scraper m) as [m1 [a|e]]; [|done]. cbv zeta.
  destruct (sufficient (Attempt.text a)); [done|].
  destruct (carried_404 _); [done|]. apply IH.
Qed.

(** X8. A text of the crawler whose trimmed length is below 100 is not used
    at all: the run is the one without it. *)
Theorem short_prefetched_content_is_ignored
    (existingHtml url : string) (m : Machine) :
  sufficient existingHtml = false →
  scrape existingHtml url m = scrape "" url m.
Proof.
  intros Hex. rewrite !scrapSingleUrl_unfold. cbv zeta.
  by rewrite (for_scrapers_ignores_short existingHtml "").
Qed.




End OriginProperties.

(** ** How many calls a run makes *)

Lemma count_calls_app (p : Event → bool) (l1 l2 : list Event) :
  count_calls p (l1 ++ l2) = (count_calls p l1 + count_calls p l2)%nat.
Proof. unfold count_calls. by rewrite List.filter_app, length_app. Qed.

Section CallBounds.

Variable env : Env.
Variable URL_hostname : string → Result string.
Variable urlSpecificParams : gmap string (gmap string JS.value).
Variable W : World.
Variable pageOptions : PageOptions.t.
Variable extractorOptions : ExtractorOptions.t.

Local Abbreviation attempt := (attemptScraping env W pageOptions).
Local Abbreviation loop := (for_scrapers env W pageOptions).
Local Abbreviation plan := (plan_for env URL_hostname urlSpecificParams pageOptions).
Local Abbreviation scrape :=
  (scrapSingleUrl env URL_hostname urlSpecificParams W
     pageOptions extractorOptions).

Lemma callScraper_calls (url method : string) (m : Machine) :
  ∃ evs,
    trace (callScraper env W pageOptions url method m).1 = trace m ++ evs
    ∧ count_calls is_hook_call evs = 0%nat
    ∧ (count_calls is_fetch_call evs ≤ 1)%nat.
Proof.
  unfold callScraper, bind, call, ret.
  repeat case_match; simpl;
    first [ exists []; rewrite app_nil_r;
            split; [reflexivity|]; split; [reflexivity|];
            unfold count_calls; simpl; lia
          | eexists [_];
            split; [reflexivity|]; split; [reflexivity|];
            unfold count_calls; simpl; lia ].
Qed.

Lemma attemptScraping_calls (url method : string) (m : Machine) :
  ∃ evs,
    trace (attempt url method m).1 = trace m ++ evs
    ∧ (count_calls is_hook_call evs ≤ 1)%nat
    ∧ (count_calls is_fetch_call evs ≤ 2)%nat.
Proof.
  destruct (callScraper_calls url method m) as (evs & Htrace & Hhook & Hfetch).
  unfold attemptScraping. unfold bind at 1.
  destruct (callScraper env W pageOptions url method m) as [m1 [resp|e]];
    simpl in Htrace; [|exists evs; simpl; split; [done|lia]].
  unfold bind, call, lift, ret. simpl.
  destruct (handleCustomScraping W (trace m1) _ url) as [[d|]|e]; simpl.
  - destruct (customScrape W pageOptions "" d _) as [m2 r] eqn:Hcustom.
    destruct (customScrape_one_fetch _ _ _ _ _ _ _ Hcustom)
      as (ev & Htrace2 & Hf & Hh & _).
    simpl in Htrace2.
    exists (evs ++ [CallHook (ScraperResponse.text resp) url; ev]).
    assert (trace m2
            = trace m
              ++ evs ++ [CallHook (ScraperResponse.text resp) url; ev]) as Ht.
    { rewrite Htrace2, Htrace, <- !app_assoc. done. }
    assert ((count_calls is_hook_call
               (evs ++ [CallHook (ScraperResponse.text resp) url; ev]) ≤ 1)%nat
            ∧ (count_calls is_fetch_call
                 (evs ++ [CallHook (ScraperResponse.text resp) url; ev]) ≤ 2)%nat)
      as Hcount.
    { rewrite !count_calls_app. unfold count_calls at 2 4. simpl.
      rewrite Hf, Hh. simpl. lia. }
    destruct r as [o|e]; simpl; [|done].
    destruct (removeUnwantedElements W _ _); simpl; [|done].
    by destruct (parseMarkdown W _).
  - exists (evs ++ [CallHook (ScraperResponse.text resp) url]).
    assert ((count_calls is_hook_call
               (evs ++ [CallHook (ScraperResponse.text resp) url]) ≤ 1)%nat
            ∧ (count_calls is_fetch_call
                 (evs ++ [CallHook (ScraperResponse.text resp) url]) ≤ 2)%nat)
      as Hcount.
    { rewrite !count_calls_app. unfold count_calls at 2 4. simpl. lia. }
    rewrite Htrace, <- app_assoc.
    destruct (removeUnwantedElements W _ _); simpl; [|done].
    by destruct (parseMarkdown W _).
  - exists (evs ++ [CallHook (ScraperResponse.text resp) url]).
    rewrite Htrace, <- app_assoc. split; [done|].
    rewrite !count_calls_app. unfold count_calls at 2 4. simpl. lia.
Qed.

Lemma for_scrapers_calls
    (existingHtml url : string) (scrapers : list string) (m : Machine) :
  ∃ evs,
    trace (loop existingHtml url scrapers m).1 = trace m ++ evs
    ∧ (count_calls is_hook_call evs ≤ length scrapers)%nat
    ∧ (count_calls is_fetch_call evs ≤ 2 * length scrapers)%nat.
Proof.
  revert m. induction scrapers as [|scraper rest IH]; intros m.
  { exists []. simpl. rewrite app_nil_r. by repeat split. }
  destruct (sufficient existingHtml) eqn:Hex.
  { rewrite for_scrapers_existing by done.
    destruct (use_existingHtml_status W pageOptions existingHtml m)
      as (_ & _ & Htrace).
    exists []. rewrite Htrace, app_nil_r. split; [done|].
    unfold count_calls. simpl. lia. }
  rewrite for_scrapers_step by done.
  destruct (attemptScraping_calls url scraper m) as (evs & Htrace & Hh & Hf).
  destruct (attempt url scraper m) as [m1 [a|e]]; simpl in Htrace.
  2: { exists evs. simpl length. split; [done|]. lia. }
  cbv zeta.
  destruct (sufficient (Attempt.text a)).
  { exists evs. simpl length. split; [done|]. lia. }
  destruct (carried_404 _).
  { exists evs. simpl length. split; [done|]. lia. }
  destruct (IH {| trace := trace m1; vars := carry a (vars m1) |})
    as (evs' & Htrace' & Hh' & Hf').
  exists (evs ++ evs'). simpl in Htrace'.
  rewrite Htrace', Htrace, <- app_assoc. split; [done|].
  rewrite !count_calls_app. simpl length. lia.
Qed.

Lemma plan_length (defaultScraper : option string) (w s h : bool) :
  (length (getScrapingFallbackOrder env defaultScraper w s h) ≤ 6)%nat.
Proof.
  assert ((length (getScrapingFallbackOrder env None w s h) ≤ 5)%nat)
    as Hnone.
  { change 5%nat with (length baseScrapers).
    apply submseteq_length, NoDup_submseteq; [apply new_Set_NoDup|].
    intros x Hx. by apply plan_unforced_elem in Hx as [? _]. }
  destruct defaultScraper as [d|]; [|lia].
  destruct (decide (d = "")) as [->|Hd].
  - change (getScrapingFallbackOrder env (Some "") w s h)
      with (getScrapingFallbackOrder env None w s h).
    lia.
  - rewrite plan_forced_front by done. simpl.
    pose proof (List.filter_length_le
                  (λ x, negb (x =? d)%string)
                  (getScrapingFallbackOrder env None w s h)).
    lia.
Qed.

(** X10. A run tries at most six backends: it calls the hook at most six times
    and makes at most twelve fetches (one by the backend and one more for a
    directive of the hook, per attempt). *)
Theorem scrapSingleUrl_call_bounds (existingHtml url : string) (m : Machine) :
  ∃ evs,
    trace (scrape existingHtml url m).1 = trace m ++ evs
    ∧ (count_calls is_hook_call evs ≤ length (plan (JS.trim url)))%nat
    ∧ (count_calls is_fetch_call evs ≤ 2 * length (plan (JS.trim url)))%nat
    ∧ (length (plan (JS.trim url)) ≤ 6)%nat
    ∧ (count_calls is_hook_call evs ≤ 6)%nat
    ∧ (count_calls is_fetch_call evs ≤ 12)%nat.
Proof.
  destruct (for_scrapers_calls existingHtml (JS.trim url) (plan (JS.trim url))
              {| trace := trace m; vars := Vars.init |})
    as (evs & Htrace & Hh & Hf).
  pose proof (plan_length
                (Some (defaultScraper_of urlSpecificParams
                         match urlKey_of URL_hostname (JS.trim url) with
                         | Ok k => k
                         | Throw _ => JS.trim url
                         end))
                (isWaitPresent pageOptions) (isScreenshotPresent pageOptions)
                (isHeadersPresent pageOptions)) as Hlen.
  fold (plan (JS.trim url)) in Hlen.
  exists evs. split.
  - rewrite scrapSingleUrl_unfold. cbv zeta. simpl in Htrace.
    destruct (loop _ _ _ _) as [m1 [[]|e]]; simpl in *; [|done].
    destruct (JS.truthy_string _); [|done].
    by destruct (extractMetadata W _ _).
  - repeat split; try done; lia.
Qed.

End CallBounds.

(** ** The further theorems at concrete inputs *)

Lemma document_error_needs_failure_witness :
  ∃ code,
    Document.metadata
      (degraded_document "https://example.org" 404 (Some "Not Found"))
      !! "pageStatusCode" = Some (JS.VNum code)
    ∧ 400 ≤ code.
Proof.
  destruct (document_error_needs_failure
              env_all example_URL_hostname ∅ not_found_world
              defaultPageOptions defaultExtractorOptions ""
              "https://example.org" machine0
              (scrapSingleUrl env_all example_URL_hostname ∅ not_found_world
                 defaultPageOptions defaultExtractorOptions ""
                 "https://example.org" machine0).1
              (degraded_document "https://example.org" 404 (Some "Not Found")))
    as (code & Hcode & Herr).
  - vm_compute. reflexivity.
  - exists code. split; [exact Hcode|]. apply (Herr "Not Found"). reflexivity.
Defined.

Lemma document_html_fields_witness :
  Document.html two_step_html_document = Some (chars 150)
  ∧ Document.rawHtml two_step_html_document = Some (chars 150)
  ∧ parseMarkdown two_step_world (chars 150)
    = Ok (Document.content two_step_html_document).
Proof.
  destruct (document_html_fields
              env_all example_URL_hostname ∅ two_step_world
              htmlPageOptions defaultExtractorOptions ""
              "https://example.org" machine0
              (scrapSingleUrl env_all example_URL_hostname ∅ two_step_world
                 htmlPageOptions defaultExtractorOptions ""
                 "https://example.org" machine0).1
              two_step_html_document)
    as (_ & Hfull).
  - vm_compute. reflexivity.
  - destruct Hfull as (source & raw & cleanedHtml & _ & Hmd & _ & Hhtml & Hraw).
    + vm_compute. discriminate.
    + assert (cleanedHtml = chars 150) as ->.
      { vm_compute in Hhtml. injection Hhtml as <-. reflexivity. }
      assert (raw = chars 150) as ->.
      { vm_compute in Hraw. injection Hraw as <-. reflexivity. }
      split; [exact Hhtml|]. split; [exact Hraw | exact Hmd].
Defined.

Lemma prefetched_document_fields_witness :
  Document.metadata prefetched_document !! "pageStatusCode"
  = Some (JS.VNum 200)
  ∧ Document.metadata prefetched_document !! "pageError"
    = Some JS.VUndefined.
Proof.
  destruct (prefetched_document_fields
              env_all example_URL_hostname ∅ two_step_world
              defaultPageOptions defaultExtractorOptions hundred_chars
              "https://example.org" machine0
              (scrapSingleUrl env_all example_URL_hostname ∅ two_step_world
                 defaultPageOptions defaultExtractorOptions hundred_chars
                 "https://example.org" machine0).1
              prefetched_document)
    as (Hcode & Herr & _).
  - reflexivity.
  - vm_compute. reflexivity.
  - split; [exact Hcode | exact Herr].
Defined.

Lemma short_prefetched_content_is_ignored_witness :
  scrapSingleUrl env_all example_URL_hostname ∅ two_step_world
    defaultPageOptions defaultExtractorOptions "<p>short</p>"
    "https://example.org" machine0
  = scrapSingleUrl env_all example_URL_hostname ∅ two_step_world
      defaultPageOptions defaultExtractorOptions ""
      "https://example.org" machine0.
Proof.
  apply (short_prefetched_content_is_ignored
           env_all example_URL_hostname ∅ two_step_world
           defaultPageOptions defaultExtractorOptions "<p>short</p>"
           "https://example.org" machine0).
  reflexivity.
Defined.


(** * The backend adapters *)

Ltac adapter_unfold :=
  unfold Ad.finally, Ad.try_catch, Ad.bind, Ad.request, Ad.modify_log,
    Ad.get_log, Ad.lift, Ad.ret, Ad.throw; simpl.

Lemma generateRequestParams_ok
    (URL_hostname : string → Result string)
    (urlSpecificParams : gmap string (gmap string JS.value))
    (url wait_browser : string) (timeout : Z) :
  ∃ r, generateRequestParams URL_hostname urlSpecificParams
         url wait_browser timeout = Ok r.
Proof.
  unfold generateRequestParams, urlKey_of, try_catch_pure.
  destruct (URL_hostname url) as [hostname|e]; [|by eexists].
  destruct (urlSpecificParams !! JS.strip_www hostname); by eexists.
Qed.

Section AdapterProperties.

Variable env : Env.
Variable URL_hostname : string → Result string.
Variable urlSpecificParams : gmap string (gmap string JS.value).
Variable N : Net.t.

Local Abbreviation fetch := (scrapWithFetch_body N).

(** Every adapter is [logParams = ...; try { ... } finally { logScrape }]. *)
Lemma adapter_finally {A} (url name : string) (inner : Adapter A)
    (s : AdapterState.t) :
  let adapter :=
    Ad.bind (Ad.modify_log (λ _, LogRecord.initial url name))
      (λ _, Ad.finally inner (log_scrape N)) in
  let r :=
    inner {| AdapterState.log := LogRecord.initial url name;
             AdapterState.calls := AdapterState.calls s |} in
  AdapterState.calls (adapter s).1
  = AdapterState.calls r.1 ++ [LogScrape (AdapterState.log r.1)]
  ∧ (adapter s).2
    = match Net.logScrape N (AdapterState.calls r.1) (AdapterState.log r.1)
      with
      | Returned _ => r.2
      | Threw error => Threw error
      end.
Proof.
  cbv zeta. unfold log_scrape. adapter_unfold.
  destruct (inner _) as [s1 o]. simpl.
  by destruct (Net.logScrape N _ _).
Qed.

Ltac adapter_shape url name s :=
  match goal with
  | |- context [Ad.finally ?inner _] =>
      destruct (adapter_finally url name inner s) as [Hcalls Hout];
      cbv zeta in Hcalls, Hout; rewrite ?Hcalls, ?Hout; clear Hcalls Hout
  end.

(** X11. [scrapWithFetch] makes one GET of the URL with the universal
    timeout, then at most one PDF extraction, then logs once, last, under the
    name ["fetch"]; it returns whenever [logScrape] returns, and throws what
    [logScrape] throws. *)
Theorem scrapWithFetch_calls
    (url : string) (pageOptions : option PageOptions.t) (s : AdapterState.t) :
  ∃ before pdfs record,
    AdapterState.calls (fetch url pageOptions s).1
    = before ++ [LogScrape record]
    ∧ before = AdapterState.calls s ++ GetUrl url universalTimeout :: pdfs
    ∧ (pdfs = [] ∨ pdfs = [ProcessPdf url (parsePDF_of pageOptions)])
    ∧ LogRecord.url record = url
    ∧ LogRecord.scraper record = "fetch"
    ∧ match Net.logScrape N before record with
      | Returned _ => ∃ c, (fetch url pageOptions s).2 = Returned c
      | Threw error => (fetch url pageOptions s).2 = Threw error
      end.
Proof.
  unfold scrapWithFetch_body. adapter_shape url "fetch" s.
  unfold log_failure, process_pdf. adapter_unfold.
  destruct (Net.axios_get N _ url universalTimeout) as [response|error]; simpl.
  - destruct (HttpResponse.status response =? 200); simpl.
    + destruct (is_pdf (HttpResponse.contentType response)); simpl.
      * destruct (Net.fetchAndProcessPdf N _ url _) as [pdf|error]; simpl.
        -- eexists _, [_], _. split; [reflexivity|].
           split; [by rewrite <- app_assoc|]. split; [by right|].
           split; [reflexivity|]. split; [reflexivity|].
           destruct (Net.logScrape N _ _); simpl; eauto.
        -- case_bool_decide; simpl.
           all: eexists _, [_], _; split; [reflexivity|].
           all: split; [by rewrite <- app_assoc|]; split; [by right|].
           all: split; [reflexivity|]; split; [reflexivity|].
           all: destruct (Net.logScrape N _ _); simpl; eauto.
      * eexists _, [], _. split; [reflexivity|]. split; [done|].
        split; [by left|]. split; [reflexivity|]. split; [reflexivity|].
        destruct (Net.logScrape N _ _); simpl; eauto.
    + eexists _, [], _. split; [reflexivity|]. split; [done|].
      split; [by left|]. split; [reflexivity|]. split; [reflexivity|].
      destruct (Net.logScrape N _ _); simpl; eauto.
  - case_bool_decide; simpl.
    all: eexists _, [], _; split; [reflexivity|]; split; [done|].
    all: split; [by left|]; split; [reflexivity|]; split; [reflexivity|].
    all: destruct (Net.logScrape N _ _); simpl; eauto.
Qed.

Local Abbreviation fireEngine :=
  (scrapWithFireEngine_body env URL_hostname urlSpecificParams N).
Local Abbreviation scrapingBee :=
  (scrapWithScrapingBee_body env URL_hostname urlSpecificParams N).
Local Abbreviation playwright :=
  (scrapWithPlaywright_body env URL_hostname urlSpecificParams N).

Ltac with_request_params url wait_browser timeout :=
  let r := fresh "reqParams" in
  let H := fresh "HreqParams" in
  destruct (generateRequestParams_ok URL_hostname urlSpecificParams
              url wait_browser timeout) as [r H];
  rewrite H; simpl.

Ltac with_body k :=
  match goal with
  | |- context [PostFireEngine _ ?b _] => k b
  | |- context [PostPlaywright _ ?b _] => k b
  end.

Ltac log_outcome :=
  match goal with
  | |- context [Net.logScrape N ?h ?r] =>
      destruct (Net.logScrape N h r); simpl; eauto
  end.

Lemma fireEngine_shape
    (args : FireEngineArgs.t) (s : AdapterState.t)
    (reqParams : gmap string JS.value) :
  generateRequestParams URL_hostname urlSpecificParams
    (FireEngineArgs.url args) "domcontentloaded" 15000 = Ok reqParams →
  let body := fireEngine_post_body args reqParams in
  ∃ before pdfs record,
    AdapterState.calls (fireEngine args s).1 = before ++ [LogScrape record]
    ∧ before
      = AdapterState.calls s
        ++ PostFireEngine
             (default "undefined" (FIRE_ENGINE_BETA_URL env) +:+ "/scrape")
             body (universalTimeout + FireEngineBody.wait body)
           :: pdfs
    ∧ (pdfs = []
       ∨ pdfs = [ProcessPdf (FireEngineArgs.url args)
                   (PageOptions.parsePDF (FireEngineArgs.pageOptions args))])
    ∧ LogRecord.url record = FireEngineArgs.url args
    ∧ LogRecord.scraper record = "fire-engine"
    ∧ match Net.logScrape N before record with
      | Returned _ => ∃ c, (fireEngine args s).2 = Returned c
      | Threw error => (fireEngine args s).2 = Threw error
      end.
Proof.
  intros Hreq body. subst body.
  unfold scrapWithFireEngine_body. cbv zeta.
  adapter_shape (FireEngineArgs.url args) "fire-engine" s.
  unfold log_failure, process_pdf. adapter_unfold.
  rewrite Hreq; simpl.
  destruct (Net.axios_post_fire_engine N _ _ _ _) as [response|error]; simpl.
  - destruct (HttpResponse.status response =? 200); simpl.
    + destruct (is_pdf (HttpResponse.contentType response)); simpl.
      * destruct (Net.fetchAndProcessPdf N _ _ _) as [pdf|error]; simpl.
        -- eexists _, [_], _. split; [reflexivity|].
           split; [by rewrite <- app_assoc|].
           split; [by right|]. split; [reflexivity|]. split; [reflexivity|].
           log_outcome.
        -- case_bool_decide; simpl.
           all: eexists _, [_], _; split; [reflexivity|].
           all: split; [by rewrite <- app_assoc|].
           all: split; [by right|]; split; [reflexivity|].
           all: split; [reflexivity|]; log_outcome.
      * destruct (HttpResponse.data response) as [data|]; simpl.
        -- eexists _, [], _. split; [reflexivity|]. split; [done|].
           split; [by left|]. split; [reflexivity|].
           split; [reflexivity|]. log_outcome.
        -- eexists _, [], _. split; [reflexivity|]. split; [done|].
           split; [by left|]. split; [reflexivity|].
           split; [reflexivity|]. log_outcome.
    + eexists _, [], _. split; [reflexivity|]. split; [done|].
      split; [by left|]. split; [reflexivity|].
      split; [reflexivity|]. log_outcome.
  - case_bool_decide; simpl.
    all: eexists _, [], _; split; [reflexivity|]; split; [done|].
    all: split; [by left|]; split; [reflexivity|].
    all: split; [reflexivity|]; log_outcome.
Qed.


(** X12. [scrapWithFireEngine] makes one POST to the [/scrape] endpoint of
    the render service, with the timeout [universalTimeout] plus the wait it
    sends, then at most one PDF extraction, then logs once, last, under the
    name ["fire-engine"]; it returns whenever [logScrape] returns, and throws
    what [logScrape] throws. *)
Theorem scrapWithFireEngine_calls (args : FireEngineArgs.t) (s : AdapterState.t) :
  ∃ before body pdfs record,
    AdapterState.calls (fireEngine args s).1 = before ++ [LogScrape record]
    ∧ before
      = AdapterState.calls s
        ++ PostFireEngine
             (default "undefined" (FIRE_ENGINE_BETA_URL env) +:+ "/scrape")
             body (universalTimeout + FireEngineBody.wait body)
           :: pdfs
    ∧ FireEngineBody.url body = FireEngineArgs.url args
    ∧ (pdfs = []
       ∨ pdfs = [ProcessPdf (FireEngineArgs.url args)
                   (PageOptions.parsePDF (FireEngineArgs.pageOptions args))])
    ∧ LogRecord.url record = FireEngineArgs.url args
    ∧ LogRecord.scraper record = "fire-engine"
    ∧ match Net.logScrape N before record with
      | Returned _ => ∃ c, (fireEngine args s).2 = Returned c
      | Threw error => (fireEngine args s).2 = Threw error
      end.
Proof.
  destruct (generateRequestParams_ok URL_hostname urlSpecificParams
              (FireEngineArgs.url args) "domcontentloaded" 15000)
    as [reqParams Hreq].
  destruct (fireEngine_shape args s reqParams Hreq)
    as (before & pdfs & record & H1 & H2 & H3 & H4 & H5 & H6).
  exists before, (fireEngine_post_body args reqParams), pdfs, record.
  by repeat split.
Qed.

(** X13. [scrapWithScrapingBee] makes one request through the client, then
    at most one PDF extraction, then logs once, last, under the name
    ["scrapingBeeLoad"] when the wait condition is ["networkidle2"] and
    ["scrapingBee"] otherwise; it returns whenever [logScrape] returns, and
    throws what [logScrape] throws. *)
Theorem scrapWithScrapingBee_calls
    (url wait_browser : string) (timeout : Z)
    (pageOptions : option PageOptions.t) (s : AdapterState.t) :
  ∃ before params pdfs record,
    AdapterState.calls (scrapingBee url wait_browser timeout pageOptions s).1
    = before ++ [LogScrape record]
    ∧ before
      = AdapterState.calls s
        ++ ScrapingBeeGet (SCRAPING_BEE_API_KEY env) params :: pdfs
    ∧ (pdfs = [] ∨ pdfs = [ProcessPdf url (parsePDF_of pageOptions)])
    ∧ LogRecord.url record = url
    ∧ LogRecord.scraper record
      = (if (wait_browser =? "networkidle2")%string
         then "scrapingBeeLoad" else "scrapingBee")
    ∧ match Net.logScrape N before record with
      | Returned _ =>
          ∃ c, (scrapingBee url wait_browser timeout pageOptions s).2
               = Returned c
      | Threw error =>
          (scrapingBee url wait_browser timeout pageOptions s).2 = Threw error
      end.
Proof.
  unfold scrapWithScrapingBee_body.
  adapter_shape url
    (if (wait_browser =? "networkidle2")%string
     then "scrapingBeeLoad" else "scrapingBee") s.
  unfold process_pdf. adapter_unfold.
  with_request_params url wait_browser timeout.
  destruct (Net.scrapingBee_get N _ _ _) as [response|error]; simpl.
  - destruct (is_pdf (HttpResponse.contentType response)); simpl.
    + destruct (Net.fetchAndProcessPdf N _ _ _) as [pdf|error]; simpl.
      all: eexists _, _, [_], _; split; [reflexivity|].
      all: split; [by rewrite <- app_assoc|]; split; [by right|].
      all: split; [reflexivity|]; split; [reflexivity|]; log_outcome.
    + destruct (Net.TextDecoder_decode N _) as [text|error]; simpl.
      all: eexists _, _, [], _; split; [reflexivity|]; split; [done|].
      all: split; [by left|]; split; [reflexivity|]; split; [reflexivity|].
      all: log_outcome.
  - eexists _, _, [], _. split; [reflexivity|]. split; [done|].
    split; [by left|]. split; [reflexivity|]. split; [reflexivity|].
    log_outcome.
Qed.

(** X14. [scrapWithPlaywright] makes one POST to the browser microservice,
    with the timeout [universalTimeout] plus the wait it sends, then at most
    one PDF extraction, then logs once, last, under the name ["playwright"];
    it returns whenever [logScrape] returns, and throws what [logScrape]
    throws. *)
Theorem scrapWithPlaywright_calls
    (url : string) (waitFor : option Z) (headers : option Headers)
    (pageOptions : option PageOptions.t) (s : AdapterState.t) :
  ∃ before body pdfs record,
    AdapterState.calls (playwright url waitFor headers pageOptions s).1
    = before ++ [LogScrape record]
    ∧ before
      = AdapterState.calls s
        ++ PostPlaywright (PLAYWRIGHT_MICROSERVICE_URL env) body
             (universalTimeout + PlaywrightBody.wait_after_load body)
           :: pdfs
    ∧ PlaywrightBody.url body = url
    ∧ PlaywrightBody.headers body = headers
    ∧ (pdfs = [] ∨ pdfs = [ProcessPdf url (parsePDF_of pageOptions)])
    ∧ LogRecord.url record = url
    ∧ LogRecord.scraper record = "playwright"
    ∧ match Net.logScrape N before record with
      | Returned _ =>
          ∃ c, (playwright url waitFor headers pageOptions s).2 = Returned c
      | Threw error =>
          (playwright url waitFor headers pageOptions s).2 = Threw error
      end.
Proof.
  unfold scrapWithPlaywright_body. cbv zeta.
  adapter_shape url "playwright" s.
  unfold log_failure, process_pdf. adapter_unfold.
  with_request_params url "domcontentloaded" 15000.
  destruct (Net.axios_post_playwright N _ _ _ _) as [response|error]; simpl.
  - destruct (HttpResponse.status response =? 200); simpl.
    + destruct (is_pdf (HttpResponse.contentType response)); simpl.
      * destruct (Net.fetchAndProcessPdf N _ _ _) as [pdf|error]; simpl.
        -- with_body ltac:(fun b => eexists _, b, [_], _). split; [reflexivity|].
           split; [by rewrite <- app_assoc|]. split; [reflexivity|].
           split; [reflexivity|].
           split; [by right|]. split; [reflexivity|]. split; [reflexivity|].
           log_outcome.
        -- case_bool_decide; simpl.
           all: with_body ltac:(fun b => eexists _, b, [_], _); split; [reflexivity|].
           all: split; [by rewrite <- app_assoc|]; split; [reflexivity|].
           all: split; [reflexivity|].
           all: split; [by right|]; split; [reflexivity|].
           all: split; [reflexivity|]; log_outcome.
      * destruct (Net.JSON_parse N _) as [[data|]|error]; simpl.
        all: with_body ltac:(fun b => eexists _, b, [], _); split; [reflexivity|]; split; [done|].
        all: split; [reflexivity|]; split; [reflexivity|].
        all: split; [by left|]; split; [reflexivity|].
        all: split; [reflexivity|]; log_outcome.
    + with_body ltac:(fun b => eexists _, b, [], _). split; [reflexivity|]. split; [done|].
      split; [reflexivity|]. split; [reflexivity|].
      split; [by left|]. split; [reflexivity|].
      split; [reflexivity|]. log_outcome.
  - case_bool_decide; simpl.
    all: with_body ltac:(fun b => eexists _, b, [], _); split; [reflexivity|]; split; [done|].
    all: split; [reflexivity|]; split; [reflexivity|].
    all: split; [by left|]; split; [reflexivity|].
    all: split; [reflexivity|]; log_outcome.
Qed.

(** The record an adapter call logged. *)
Local Abbreviation logged r := (last (AdapterState.calls r.1)).

Ltac adapter_run url name s Hlog :=
  adapter_shape url name s; rewrite last_snoc, Hlog;
  unfold log_failure, process_pdf; adapter_unfold.

(** X15. When the request of [scrapWithFireEngine], [scrapWithPlaywright] or
    [scrapWithFetch] is rejected, with a timeout or any other error, the
    adapter returns an empty content without status nor error, and logs a
    failure whose message is ["Request timed out"] for the error code
    [ECONNABORTED] and the message of the error otherwise. *)
Theorem rejected_request_gives_empty_result
    (error : Thrown) (s : AdapterState.t) :
  (∀ h record, Net.logScrape N h record = Returned tt) →
  let message :=
    Some (if bool_decide (thrown_code error = Some "ECONNABORTED")
          then "Request timed out" else thrown_message error) in
  (∀ args,
     (∀ endpoint body timeout,
        Net.axios_post_fire_engine N (AdapterState.calls s)
          endpoint body timeout = Threw error) →
     (fireEngine args s).2 = Returned emptyFireEngineResponse
     ∧ ∃ record,
         logged (fireEngine args s) = Some (LogScrape record)
         ∧ LogRecord.success record = false
         ∧ LogRecord.response_code record = None
         ∧ LogRecord.error_message record = message)
  ∧ (∀ url waitFor headers pageOptions,
       (∀ endpoint body timeout,
          Net.axios_post_playwright N (AdapterState.calls s)
            endpoint body timeout = Threw error) →
       (playwright url waitFor headers pageOptions s).2 = Returned emptyContent
       ∧ ∃ record,
           logged (playwright url waitFor headers pageOptions s)
           = Some (LogScrape record)
           ∧ LogRecord.success record = false
           ∧ LogRecord.response_code record = None
           ∧ LogRecord.error_message record = message)
  ∧ (∀ url pageOptions,
       Net.axios_get N (AdapterState.calls s) url universalTimeout
       = Threw error →
       (fetch url pageOptions s).2 = Returned emptyContent
       ∧ ∃ record,
           logged (fetch url pageOptions s) = Some (LogScrape record)
           ∧ LogRecord.success record = false
           ∧ LogRecord.response_code record = None
           ∧ LogRecord.error_message record = message).
Proof.
  intros Hlog message. subst message. split; [|split].
  - intros args Hpost. unfold scrapWithFireEngine_body. cbv zeta.
    adapter_run (FireEngineArgs.url args) "fire-engine" s Hlog.
    with_request_params (FireEngineArgs.url args) "domcontentloaded" 15000.
    rewrite Hpost. simpl. case_bool_decide; simpl; eauto 10.
  - intros url waitFor headers pageOptions Hpost.
    unfold scrapWithPlaywright_body. cbv zeta.
    adapter_run url "playwright" s Hlog.
    with_request_params url "domcontentloaded" 15000.
    rewrite Hpost. simpl. case_bool_decide; simpl; eauto 10.
  - intros url pageOptions Hget. unfold scrapWithFetch_body.
    adapter_run url "fetch" s Hlog.
    rewrite Hget. simpl. case_bool_decide; simpl; eauto 10.
Qed.

(** X16. When the request of [scrapWithScrapingBee] is rejected, the adapter
    returns an empty content with the status and the status text of the
    response the error carries, if any, and logs that status as a failure. *)
Theorem scrapingBee_rejection_reports_status
    (url wait_browser : string) (timeout : Z)
    (pageOptions : option PageOptions.t) (error : Thrown)
    (s : AdapterState.t) :
  (∀ h record, Net.logScrape N h record = Returned tt) →
  (∀ apiKey params,
     Net.scrapingBee_get N (AdapterState.calls s) apiKey params
     = Threw error) →
  (scrapingBee url wait_browser timeout pageOptions s).2
  = Returned {| ContentResponse.content := "";
                ContentResponse.pageStatusCode := thrown_status error;
                ContentResponse.pageError := thrown_statusText error |}
  ∧ ∃ record,
      logged (scrapingBee url wait_browser timeout pageOptions s)
      = Some (LogScrape record)
      ∧ LogRecord.success record = false
      ∧ LogRecord.response_code record = thrown_status error
      ∧ LogRecord.error_message record = Some (thrown_message error).
Proof.
  intros Hlog Hget. unfold scrapWithScrapingBee_body.
  adapter_run url
    (if (wait_browser =? "networkidle2")%string
     then "scrapingBeeLoad" else "scrapingBee") s Hlog.
  with_request_params url wait_browser timeout.
  rewrite Hget. simpl. eauto 10.
Qed.

(** X17. What [scrapWithFetch] makes of a response that is not a PDF: a
    status other than 200 gives an empty content with that status, and the
    status text as the error, logged as a failure; a status 200 gives the body
    as the content, with the status 200 and no error, logged as a success. *)
Theorem scrapWithFetch_response
    (url : string) (pageOptions : option PageOptions.t)
    (response : HttpResponse.t string) (s : AdapterState.t) :
  (∀ h record, Net.logScrape N h record = Returned tt) →
  Net.axios_get N (AdapterState.calls s) url universalTimeout
  = Returned response →
  (HttpResponse.status response ≠ 200 →
   (fetch url pageOptions s).2
   = Returned
       {| ContentResponse.content := "";
          ContentResponse.pageStatusCode := Some (HttpResponse.status response);
          ContentResponse.pageError :=
            Some (HttpResponse.statusText response) |}
   ∧ ∃ record,
       logged (fetch url pageOptions s) = Some (LogScrape record)
       ∧ LogRecord.success record = false
       ∧ LogRecord.response_code record
         = Some (HttpResponse.status response))
  ∧ (HttpResponse.status response = 200 →
     is_pdf (HttpResponse.contentType response) = false →
     (fetch url pageOptions s).2
     = Returned
         {| ContentResponse.content := HttpResponse.data response;
            ContentResponse.pageStatusCode := Some 200;
            ContentResponse.pageError := None |}
     ∧ ∃ record,
         logged (fetch url pageOptions s) = Some (LogScrape record)
         ∧ LogRecord.success record = true
         ∧ LogRecord.response_code record = Some 200
         ∧ LogRecord.html record = Some (HttpResponse.data response)).
Proof.
  intros Hlog Hget. split.
  - intros Hstatus. unfold scrapWithFetch_body.
    adapter_run url "fetch" s Hlog. rewrite Hget. simpl.
    apply Z.eqb_neq in Hstatus. rewrite Hstatus. simpl. eauto 10.
  - intros Hstatus Hpdf. unfold scrapWithFetch_body.
    adapter_run url "fetch" s Hlog. rewrite Hget. simpl.
    rewrite Hstatus, Hpdf. simpl. eauto 10.
Qed.

(** X18. A response whose content type includes [application/pdf] (with
    status 200 for the adapters on axios) is handed to the PDF extractor, for
    the URL of the adapter call: the adapter returns what the extractor
    returns ([scrapWithFireEngine] as [html], with an empty screenshot) and
    logs a success. *)
Theorem pdf_response_goes_to_extractor
    (pdf : ContentResponse.t) (s : AdapterState.t) :
  (∀ h record, Net.logScrape N h record = Returned tt) →
  (∀ h url parsePDF, Net.fetchAndProcessPdf N h url parsePDF = Returned pdf) →
  (∀ args response,
     (∀ endpoint body timeout,
        Net.axios_post_fire_engine N (AdapterState.calls s)
          endpoint body timeout = Returned response) →
     HttpResponse.status response = 200 →
     is_pdf (HttpResponse.contentType response) = true →
     (fireEngine args s).2
     = Returned
         {| FireEngineResponse.html := ContentResponse.content pdf;
            FireEngineResponse.screenshot := "";
            FireEngineResponse.pageStatusCode :=
              ContentResponse.pageStatusCode pdf;
            FireEngineResponse.pageError := ContentResponse.pageError pdf |}
     ∧ ∃ before record,
         AdapterState.calls (fireEngine args s).1
         = before
           ++ [ProcessPdf (FireEngineArgs.url args)
                 (PageOptions.parsePDF (FireEngineArgs.pageOptions args));
               LogScrape record]
         ∧ LogRecord.success record = true)
  ∧ (∀ url wait_browser timeout pageOptions response,
       (∀ apiKey params,
          Net.scrapingBee_get N (AdapterState.calls s) apiKey params
          = Returned response) →
       is_pdf (HttpResponse.contentType response) = true →
       (scrapingBee url wait_browser timeout pageOptions s).2
       = Returned
           {| ContentResponse.content := ContentResponse.content pdf;
              ContentResponse.pageStatusCode :=
                ContentResponse.pageStatusCode pdf;
              ContentResponse.pageError := ContentResponse.pageError pdf |}
       ∧ ∃ before record,
           AdapterState.calls
             (scrapingBee url wait_browser timeout pageOptions s).1
           = before
             ++ [ProcessPdf url (parsePDF_of pageOptions); LogScrape record]
           ∧ LogRecord.success record = true)
  ∧ (∀ url waitFor headers pageOptions response,
       (∀ endpoint body timeout,
          Net.axios_post_playwright N (AdapterState.calls s)
            endpoint body timeout = Returned response) →
       HttpResponse.status response = 200 →
       is_pdf (HttpResponse.contentType response) = true →
       (playwright url waitFor headers pageOptions s).2 = Returned pdf
       ∧ ∃ before record,
           AdapterState.calls (playwright url waitFor headers pageOptions s).1
           = before
             ++ [ProcessPdf url (parsePDF_of pageOptions); LogScrape record]
           ∧ LogRecord.success record = true)
  ∧ (∀ url pageOptions response,
       Net.axios_get N (AdapterState.calls s) url universalTimeout
       = Returned response →
       HttpResponse.status response = 200 →
       is_pdf (HttpResponse.contentType response) = true →
       (fetch url pageOptions s).2 = Returned pdf
       ∧ ∃ before record,
           AdapterState.calls (fetch url pageOptions s).1
           = before
             ++ [ProcessPdf url (parsePDF_of pageOptions); LogScrape record]
           ∧ LogRecord.success record = true).
Proof.
  intros Hlog Hpdf. split; [|split; [|split]].
  - intros args response Hpost Hstatus Hct.
    unfold scrapWithFireEngine_body. cbv zeta.
    adapter_shape (FireEngineArgs.url args) "fire-engine" s. rewrite Hlog.
    unfold log_failure, process_pdf. adapter_unfold.
    with_request_params (FireEngineArgs.url args) "domcontentloaded" 15000.
    rewrite Hpost. simpl. rewrite Hstatus, Hct; simpl. rewrite Hpdf; simpl.
    split; [done|]. eexists _, _. rewrite <- app_assoc. by split.
  - intros url wait_browser timeout pageOptions response Hget Hct.
    unfold scrapWithScrapingBee_body.
    adapter_shape url
      (if (wait_browser =? "networkidle2")%string
       then "scrapingBeeLoad" else "scrapingBee") s.
    rewrite Hlog. unfold process_pdf. adapter_unfold.
    with_request_params url wait_browser timeout.
    rewrite Hget. simpl. rewrite Hct; simpl. rewrite Hpdf; simpl.
    split; [done|]. eexists _, _. rewrite <- app_assoc. by split.
  - intros url waitFor headers pageOptions response Hpost Hstatus Hct.
    unfold scrapWithPlaywright_body. cbv zeta.
    adapter_shape url "playwright" s. rewrite Hlog.
    unfold log_failure, process_pdf. adapter_unfold.
    with_request_params url "domcontentloaded" 15000.
    rewrite Hpost. simpl. rewrite Hstatus, Hct; simpl. rewrite Hpdf; simpl.
    split; [done|]. eexists _, _. rewrite <- app_assoc. by split.
  - intros url pageOptions response Hget Hstatus Hct.
    unfold scrapWithFetch_body.
    adapter_shape url "fetch" s. rewrite Hlog.
    unfold log_failure, process_pdf. adapter_unfold.
    rewrite Hget. simpl. rewrite Hstatus, Hct; simpl. rewrite Hpdf; simpl.
    split; [done|]. eexists _, _. rewrite <- app_assoc. by split.
Qed.

(** X19. When the PDF extractor throws, the adapter still returns: an empty
    content ([scrapWithScrapingBee] with the status of the response the error
    carries, if any). [scrapWithFireEngine] logs a failure;
    [scrapWithScrapingBee], [scrapWithPlaywright] and [scrapWithFetch] have
    marked the log record as a success before calling the extractor, and log
    it so. *)
Theorem failed_pdf_extraction
    (error : Thrown) (s : AdapterState.t) :
  (∀ h record, Net.logScrape N h record = Returned tt) →
  (∀ h url parsePDF, Net.fetchAndProcessPdf N h url parsePDF = Threw error) →
  (∀ args response,
     (∀ endpoint body timeout,
        Net.axios_post_fire_engine N (AdapterState.calls s)
          endpoint body timeout = Returned response) →
     HttpResponse.status response = 200 →
     is_pdf (HttpResponse.contentType response) = true →
     (fireEngine args s).2 = Returned emptyFireEngineResponse
     ∧ ∃ record,
         logged (fireEngine args s) = Some (LogScrape record)
         ∧ LogRecord.success record = false)
  ∧ (∀ url wait_browser timeout pageOptions response,
       (∀ apiKey params,
          Net.scrapingBee_get N (AdapterState.calls s) apiKey params
          = Returned response) →
       is_pdf (HttpResponse.contentType response) = true →
       (scrapingBee url wait_browser timeout pageOptions s).2
       = Returned
           {| ContentResponse.content := "";
              ContentResponse.pageStatusCode := thrown_status error;
              ContentResponse.pageError := thrown_statusText error |}
       ∧ ∃ record,
           logged (scrapingBee url wait_browser timeout pageOptions s)
           = Some (LogScrape record)
           ∧ LogRecord.success record = true)
  ∧ (∀ url waitFor headers pageOptions response,
       (∀ endpoint body timeout,
          Net.axios_post_playwright N (AdapterState.calls s)
            endpoint body timeout = Returned response) →
       HttpResponse.status response = 200 →
       is_pdf (HttpResponse.contentType response) = true →
       (playwright url waitFor headers pageOptions s).2 = Returned emptyContent
       ∧ ∃ record,
           logged (playwright url waitFor headers pageOptions s)
           = Some (LogScrape record)
           ∧ LogRecord.success record = true)
  ∧ (∀ url pageOptions response,
       Net.axios_get N (AdapterState.calls s) url universalTimeout
       = Returned response →
       HttpResponse.status response = 200 →
       is_pdf (HttpResponse.contentType response) = true →
       (fetch url pageOptions s).2 = Returned emptyContent
       ∧ ∃ record,
           logged (fetch url pageOptions s) = Some (LogScrape record)
           ∧ LogRecord.success record = true).
Proof.
  intros Hlog Hpdf. split; [|split; [|split]].
  - intros args response Hpost Hstatus Hct.
    unfold scrapWithFireEngine_body. cbv zeta.
    adapter_run (FireEngineArgs.url args) "fire-engine" s Hlog.
    with_request_params (FireEngineArgs.url args) "domcontentloaded" 15000.
    rewrite Hpost. simpl. rewrite Hstatus, Hct; simpl. rewrite Hpdf; simpl.
    case_bool_decide; simpl; eauto.
  - intros url wait_browser timeout pageOptions response Hget Hct.
    unfold scrapWithScrapingBee_body.
    adapter_run url
      (if (wait_browser =? "networkidle2")%string
       then "scrapingBeeLoad" else "scrapingBee") s Hlog.
    with_request_params url wait_browser timeout.
    rewrite Hget. simpl. rewrite Hct; simpl. rewrite Hpdf; simpl. eauto.
  - intros url waitFor headers pageOptions response Hpost Hstatus Hct.
    unfold scrapWithPlaywright_body. cbv zeta.
    adapter_run url "playwright" s Hlog.
    with_request_params url "domcontentloaded" 15000.
    rewrite Hpost. simpl. rewrite Hstatus, Hct; simpl. rewrite Hpdf; simpl.
    case_bool_decide; simpl; eauto.
  - intros url pageOptions response Hget Hstatus Hct.
    unfold scrapWithFetch_body.
    adapter_run url "fetch" s Hlog.
    rewrite Hget. simpl. rewrite Hstatus, Hct; simpl. rewrite Hpdf; simpl.
    case_bool_decide; simpl; eauto.
Qed.

(** X20. What [scrapWithPlaywright] makes of a response that is not a PDF.
    With a status other than 200 it returns an empty content and reports no
    status at all (the body is raw text, it has no [pageStatusCode]). With
    status 200 it parses the body: a payload gives its content (empty when
    absent), status and error, logged as a success whatever the page status;
    a body that does not parse, or parses to [null], gives an empty content
    without status, logged as a failure. *)
Theorem scrapWithPlaywright_response
    (url : string) (waitFor : option Z) (headers : option Headers)
    (pageOptions : option PageOptions.t)
    (response : HttpResponse.t string) (s : AdapterState.t) :
  (∀ h record, Net.logScrape N h record = Returned tt) →
  (∀ endpoint body timeout,
     Net.axios_post_playwright N (AdapterState.calls s) endpoint body timeout
     = Returned response) →
  let r := playwright url waitFor headers pageOptions s in
  (HttpResponse.status response ≠ 200 →
   r.2 = Returned emptyContent
   ∧ ∃ record,
       logged r = Some (LogScrape record)
       ∧ LogRecord.success record = false
       ∧ LogRecord.response_code record = None)
  ∧ (HttpResponse.status response = 200 →
     is_pdf (HttpResponse.contentType response) = false →
     match Net.JSON_parse N (HttpResponse.data response) with
     | Returned (Some payload) =>
         r.2 = Returned
                 {| ContentResponse.content :=
                      default "" (PagePayload.content payload);
                    ContentResponse.pageStatusCode :=
                      PagePayload.pageStatusCode payload;
                    ContentResponse.pageError :=
                      PagePayload.pageError payload |}
         ∧ ∃ record,
             logged r = Some (LogScrape record)
             ∧ LogRecord.success record = true
             ∧ LogRecord.response_code record
               = PagePayload.pageStatusCode payload
     | Returned None | Threw _ =>
         r.2 = Returned emptyContent
         ∧ ∃ record,
             logged r = Some (LogScrape record)
             ∧ LogRecord.success record = false
     end).
Proof.
  intros Hlog Hpost r. subst r. split.
  - intros Hstatus. unfold scrapWithPlaywright_body. cbv zeta.
    adapter_run url "playwright" s Hlog.
    with_request_params url "domcontentloaded" 15000.
    rewrite Hpost; simpl. apply Z.eqb_neq in Hstatus. rewrite Hstatus; simpl.
    eauto 10.
  - intros Hstatus Hct. unfold scrapWithPlaywright_body. cbv zeta.
    adapter_run url "playwright" s Hlog.
    with_request_params url "domcontentloaded" 15000.
    rewrite Hpost; simpl. rewrite Hstatus, Hct; simpl.
    destruct (Net.JSON_parse N (HttpResponse.data response))
      as [[payload|]|error]; simpl; eauto 10.
Qed.

(** X21. What [scrapWithScrapingBee] makes of a response that is not a PDF:
    the decoded body as the content (the empty string when decoding throws),
    the status of the response, and its status text as the error unless it is
    ["OK"]; the log record has that status, and is a success exactly for a
    status from 200 to 299 or 404, also when decoding threw. *)
Theorem scrapWithScrapingBee_response
    (url wait_browser : string) (timeout : Z)
    (pageOptions : option PageOptions.t)
    (response : HttpResponse.t string) (s : AdapterState.t) :
  (∀ h record, Net.logScrape N h record = Returned tt) →
  (∀ apiKey params,
     Net.scrapingBee_get N (AdapterState.calls s) apiKey params
     = Returned response) →
  is_pdf (HttpResponse.contentType response) = false →
  let r := scrapingBee url wait_browser timeout pageOptions s in
  let text :=
    match Net.TextDecoder_decode N (HttpResponse.data response) with
    | Returned text => text
    | Threw _ => ""
    end in
  let pageError :=
    if (HttpResponse.statusText response =? "OK")%string
    then None else Some (HttpResponse.statusText response) in
  r.2 = Returned
          {| ContentResponse.content := text;
             ContentResponse.pageStatusCode :=
               Some (HttpResponse.status response);
             ContentResponse.pageError := pageError |}
  ∧ ∃ record,
      logged r = Some (LogScrape record)
      ∧ LogRecord.success record
        = success_status (Some (HttpResponse.status response))
      ∧ LogRecord.response_code record = Some (HttpResponse.status response)
      ∧ LogRecord.error_message record = pageError
      ∧ LogRecord.html record = Some text.
Proof.
  intros Hlog Hget Hct r text pageError. subst r text pageError.
  unfold scrapWithScrapingBee_body.
  adapter_run url
    (if (wait_browser =? "networkidle2")%string
     then "scrapingBeeLoad" else "scrapingBee") s Hlog.
  with_request_params url wait_browser timeout.
  rewrite Hget; simpl. rewrite Hct; simpl.
  destruct (Net.TextDecoder_decode N (HttpResponse.data response));
    simpl; eauto 10.
Qed.

(** X22. What [scrapWithFireEngine] makes of a response that is not a PDF.
    With a status other than 200 it returns an empty HTML with the status and
    the error of the payload. With status 200 and a payload it returns the
    content and the screenshot of the payload (empty when absent) with its
    status and error, and logs a success exactly for a page status from 200
    to 299 or 404; without payload it returns the empty answer of its [catch]
    block, logged as a failure. *)
Theorem scrapWithFireEngine_response
    (args : FireEngineArgs.t)
    (response : HttpResponse.t (option PagePayload.t)) (s : AdapterState.t) :
  (∀ h record, Net.logScrape N h record = Returned tt) →
  (∀ endpoint body timeout,
     Net.axios_post_fire_engine N (AdapterState.calls s) endpoint body timeout
     = Returned response) →
  let r := fireEngine args s in
  let data := HttpResponse.data response in
  (HttpResponse.status response ≠ 200 →
   r.2 = Returned
           {| FireEngineResponse.html := "";
              FireEngineResponse.screenshot := "";
              FireEngineResponse.pageStatusCode :=
                data ≫= PagePayload.pageStatusCode;
              FireEngineResponse.pageError := data ≫= PagePayload.pageError |}
   ∧ ∃ record,
       logged r = Some (LogScrape record)
       ∧ LogRecord.success record = false)
  ∧ (HttpResponse.status response = 200 →
     is_pdf (HttpResponse.contentType response) = false →
     match data with
     | Some payload =>
         r.2 = Returned
                 {| FireEngineResponse.html :=
                      default "" (PagePayload.content payload);
                    FireEngineResponse.screenshot :=
                      default "" (PagePayload.screenshot payload);
                    FireEngineResponse.pageStatusCode :=
                      PagePayload.pageStatusCode payload;
                    FireEngineResponse.pageError :=
                      PagePayload.pageError payload |}
         ∧ ∃ record,
             logged r = Some (LogScrape record)
             ∧ LogRecord.success record
               = success_status (PagePayload.pageStatusCode payload)
             ∧ LogRecord.html record
               = Some (default "" (PagePayload.content payload))
     | None =>
         r.2 = Returned emptyFireEngineResponse
         ∧ ∃ record,
             logged r = Some (LogScrape record)
             ∧ LogRecord.success record = false
     end).
Proof.
  intros Hlog Hpost r data. subst r data. split.
  - intros Hstatus. unfold scrapWithFireEngine_body. cbv zeta.
    adapter_run (FireEngineArgs.url args) "fire-engine" s Hlog.
    with_request_params (FireEngineArgs.url args) "domcontentloaded" 15000.
    rewrite Hpost; simpl. apply Z.eqb_neq in Hstatus. rewrite Hstatus; simpl.
    eauto 10.
  - intros Hstatus Hct. unfold scrapWithFireEngine_body. cbv zeta.
    adapter_run (FireEngineArgs.url args) "fire-engine" s Hlog.
    with_request_params (FireEngineArgs.url args) "domcontentloaded" 15000.
    rewrite Hpost; simpl. rewrite Hstatus, Hct; simpl.
    destruct (HttpResponse.data response) as [payload|]; simpl; eauto 10.
Qed.

(** ** What the adapters send *)

Lemma generateRequestParams_value (url wait_browser : string) (timeout : Z) :
  generateRequestParams URL_hostname urlSpecificParams url wait_browser timeout
  = Ok match override_of URL_hostname urlSpecificParams url with
       | Some override =>
           JS.spread (defaultParams url wait_browser timeout) override
       | None => defaultParams url wait_browser timeout
       end.
Proof.
  unfold generateRequestParams, urlKey_of, try_catch_pure, override_of.
  destruct (URL_hostname url) as [hostname|e]; [|done].
  by destruct (urlSpecificParams !! JS.strip_www hostname).
Qed.

Local Arguments String.eqb : simpl never.

Lemma param_of_defaults (url wait_browser k : string) (timeout : Z) :
  param_of (defaultParams url wait_browser timeout) k
  = if (k =? "timeout")%string then Some (JS.VNum timeout)
    else if (k =? "wait_browser")%string then Some (JS.VStr wait_browser)
    else None.
Proof.
  unfold param_of, defaultParams.
  rewrite lookup_insert_ne by done. rewrite lookup_insert_eq. simpl.
  rewrite (String.eqb_sym "timeout" k).
  destruct (k =? "timeout")%string; [done|]. simpl.
  rewrite (String.eqb_sym "wait_browser" k).
  by destruct (k =? "wait_browser")%string.
Qed.

Lemma param_of_spread (defaults override : gmap string JS.value) (k : string) :
  param_of (JS.spread defaults override) k
  = match override !! "params" with
    | Some _ => param_of override k
    | None => param_of defaults k
    end.
Proof.
  unfold param_of, JS.spread.
  destruct (override !! "params") as [v|] eqn:Hp.
  - by rewrite (lookup_union_Some_l _ _ _ _ Hp).
  - by rewrite (lookup_union_r _ _ _ Hp).
Qed.

Lemma wait_param_resolved (url wait_browser : string) (timeout : Z)
    (reqParams : gmap string JS.value) (waitFor : option Z) :
  generateRequestParams URL_hostname urlSpecificParams url wait_browser timeout
  = Ok reqParams →
  wait_param reqParams (default 0 waitFor)
  = resolved_wait (override_of URL_hostname urlSpecificParams url) waitFor.
Proof.
  rewrite generateRequestParams_value. intros [= <-].
  unfold wait_param, resolved_wait.
  destruct (override_of URL_hostname urlSpecificParams url) as [o|]; simpl.
  - rewrite param_of_spread.
    destruct (o !! "params") eqn:Hp; [done|].
    rewrite param_of_defaults. simpl.
    unfold param_of. by rewrite Hp.
  - by rewrite param_of_defaults.
Qed.

Lemma playwright_first_call
    (url : string) (waitFor : option Z) (headers : option Headers)
    (pageOptions : option PageOptions.t) (s : AdapterState.t)
    (reqParams : gmap string JS.value) :
  generateRequestParams URL_hostname urlSpecificParams
    url "domcontentloaded" 15000 = Ok reqParams →
  let body := playwright_post_body url waitFor headers reqParams in
  ∃ rest,
    AdapterState.calls (playwright url waitFor headers pageOptions s).1
    = AdapterState.calls s
      ++ PostPlaywright (PLAYWRIGHT_MICROSERVICE_URL env) body
           (universalTimeout + PlaywrightBody.wait_after_load body)
         :: rest.
Proof.
  intros Hreq body. subst body.
  unfold scrapWithPlaywright_body. cbv zeta.
  adapter_shape url "playwright" s.
  unfold log_failure, process_pdf. adapter_unfold.
  rewrite Hreq; simpl.
  destruct (Net.axios_post_playwright N _ _ _ _) as [response|error]; simpl;
    [ destruct (HttpResponse.status response =? 200); simpl;
      [ destruct (is_pdf (HttpResponse.contentType response)); simpl;
        [ destruct (Net.fetchAndProcessPdf N _ _ _); simpl;
          [|case_bool_decide; simpl]
        | destruct (Net.JSON_parse N _) as [[?|]|?]; simpl ]
      | ]
    | case_bool_decide; simpl ];
    rewrite <- ?app_assoc; simpl; eexists; reflexivity.
Qed.

Lemma scrapingBee_first_call
    (url wait_browser : string) (timeout : Z)
    (pageOptions : option PageOptions.t) (s : AdapterState.t)
    (reqParams : gmap string JS.value) :
  generateRequestParams URL_hostname urlSpecificParams
    url wait_browser timeout = Ok reqParams →
  ∃ rest,
    AdapterState.calls (scrapingBee url wait_browser timeout pageOptions s).1
    = AdapterState.calls s
      ++ ScrapingBeeGet (SCRAPING_BEE_API_KEY env)
           (scrapingBee_params reqParams)
         :: rest.
Proof.
  intros Hreq. unfold scrapWithScrapingBee_body.
  adapter_shape url
    (if (wait_browser =? "networkidle2")%string
     then "scrapingBeeLoad" else "scrapingBee") s.
  unfold process_pdf. adapter_unfold.
  rewrite Hreq; simpl.
  destruct (Net.scrapingBee_get N _ _ _) as [response|error]; simpl;
    [ destruct (is_pdf (HttpResponse.contentType response)); simpl;
      [ destruct (Net.fetchAndProcessPdf N _ _ _); simpl
      | destruct (Net.TextDecoder_decode N _); simpl ]
    | ];
    rewrite <- ?app_assoc; simpl; eexists; reflexivity.
Qed.

(** X23. The wait [scrapWithFireEngine] and [scrapWithPlaywright] send is the
    [params.wait] of the override of the host when there is one and it is a
    number, whatever the caller asks for; it is the [waitFor] of the caller
    otherwise, and 0 without it. The timeout of the request is
    [universalTimeout] plus that wait. *)
Theorem host_wait_overrides_caller_wait (s : AdapterState.t) :
  (∀ args,
     let wait :=
       resolved_wait
         (override_of URL_hostname urlSpecificParams (FireEngineArgs.url args))
         (FireEngineArgs.waitFor args) in
     ∃ body rest,
       AdapterState.calls (fireEngine args s).1
       = AdapterState.calls s
         ++ PostFireEngine
              (default "undefined" (FIRE_ENGINE_BETA_URL env) +:+ "/scrape")
              body (universalTimeout + wait)
            :: rest
       ∧ FireEngineBody.wait body = wait)
  ∧ (∀ url waitFor headers pageOptions,
       let wait :=
         resolved_wait (override_of URL_hostname urlSpecificParams url)
           waitFor in
       ∃ body rest,
         AdapterState.calls (playwright url waitFor headers pageOptions s).1
         = AdapterState.calls s
           ++ PostPlaywright (PLAYWRIGHT_MICROSERVICE_URL env) body
                (universalTimeout + wait)
              :: rest
         ∧ PlaywrightBody.wait_after_load body = wait).
Proof.
  split.
  - intros args wait. subst wait.
    destruct (generateRequestParams_ok URL_hostname urlSpecificParams
                (FireEngineArgs.url args) "domcontentloaded" 15000)
      as [reqParams Hreq].
    destruct (fireEngine_shape args s reqParams Hreq)
      as (before & pdfs & record & Hcalls & -> & _).
    pose proof (wait_param_resolved _ _ _ _ (FireEngineArgs.waitFor args) Hreq)
      as Hwait.
    exists (fireEngine_post_body args reqParams), (pdfs ++ [LogScrape record]).
    rewrite Hcalls. simpl. rewrite Hwait, <- app_assoc. done.
  - intros url waitFor headers pageOptions wait. subst wait.
    destruct (generateRequestParams_ok URL_hostname urlSpecificParams
                url "domcontentloaded" 15000) as [reqParams Hreq].
    destruct (playwright_first_call url waitFor headers pageOptions s
                reqParams Hreq) as [rest Hcalls].
    pose proof (wait_param_resolved _ _ _ _ waitFor Hreq) as Hwait.
    exists (playwright_post_body url waitFor headers reqParams), rest.
    rewrite Hcalls. simpl. rewrite Hwait. done.
Qed.

Lemma find_set_field_eq (k : string) (v : JS.value)
    (fields : list (string * JS.value)) :
  List.find (λ kv, (fst kv =? k)%string) (set_field k v fields) = Some (k, v).
Proof.
  induction fields as [|[k' v'] fields IH]; simpl.
  - by rewrite String.eqb_refl.
  - destruct (k' =? k)%string eqn:E; simpl.
    + by rewrite String.eqb_refl.
    + by rewrite E.
Qed.

Lemma find_set_field_ne (k k0 : string) (v : JS.value)
    (fields : list (string * JS.value)) :
  k0 ≠ k →
  List.find (λ kv, (fst kv =? k0)%string) (set_field k v fields)
  = List.find (λ kv, (fst kv =? k0)%string) fields.
Proof.
  intros Hne. apply String.eqb_neq in Hne.
  induction fields as [|[k' v'] fields IH]; simpl.
  - rewrite String.eqb_sym. by rewrite Hne.
  - destruct (k' =? k)%string eqn:E; simpl.
    + apply String.eqb_eq in E. subst k'.
      rewrite String.eqb_sym. by rewrite Hne.
    + by rewrite IH.
Qed.

(** X24. The object [scrapWithScrapingBee] hands to the client is the
    resolved parameters of the host with [transparent_status_code: "True"]
    among the [params]; every other parameter and every other field is the
    resolved one, so a host without override is fetched with the [timeout] and
    the [wait_browser] of the caller. *)
Theorem scrapingBee_request_params
    (url wait_browser : string) (timeout : Z)
    (pageOptions : option PageOptions.t) (s : AdapterState.t) :
  ∃ reqParams params rest,
    generateRequestParams URL_hostname urlSpecificParams
      url wait_browser timeout = Ok reqParams
    ∧ AdapterState.calls (scrapingBee url wait_browser timeout pageOptions s).1
      = AdapterState.calls s
        ++ ScrapingBeeGet (SCRAPING_BEE_API_KEY env) params :: rest
    ∧ param_of params "transparent_status_code" = Some (JS.VStr "True")
    ∧ (∀ k, k ≠ "transparent_status_code" →
            param_of params k = param_of reqParams k)
    ∧ (∀ k, k ≠ "params" → params !! k = reqParams !! k)
    ∧ (override_of URL_hostname urlSpecificParams url = None →
       param_of params "timeout" = Some (JS.VNum timeout)
       ∧ param_of params "wait_browser" = Some (JS.VStr wait_browser)).
Proof.
  destruct (generateRequestParams_ok URL_hostname urlSpecificParams
              url wait_browser timeout) as [reqParams Hreq].
  destruct (scrapingBee_first_call url wait_browser timeout pageOptions s
              reqParams Hreq) as [rest Hcalls].
  exists reqParams, (scrapingBee_params reqParams), rest.
  split; [done|]. split; [done|].
  assert (∀ k, param_of (scrapingBee_params reqParams) k
               = snd <$> List.find (λ kv, (fst kv =? k)%string)
                           (set_field "transparent_status_code"
                              (JS.VStr "True") (params_fields reqParams)))
    as Hparam.
  { intros k. unfold param_of, scrapingBee_params.
    by rewrite lookup_insert_eq. }
  assert (∀ k, k ≠ "transparent_status_code" →
               param_of (scrapingBee_params reqParams) k
               = param_of reqParams k) as Hother.
  { intros k Hk. rewrite Hparam, find_set_field_ne by done.
    unfold param_of, params_fields.
    by destruct (reqParams !! "params") as [[]|]. }
  split; [by rewrite Hparam, find_set_field_eq|].
  split; [exact Hother|]. split.
  - intros k Hk. unfold scrapingBee_params. by rewrite lookup_insert_ne.
  - intros Hnone. rewrite !Hother by done.
    rewrite generateRequestParams_value, Hnone in Hreq.
    injection Hreq as <-. by rewrite !param_of_defaults.
Qed.

End AdapterProperties.

(** ** The adapters inside a run *)

Section NetworkDown.

Variable env : Env.
Variable URL_hostname : string → Result string.
Variable urlSpecificParams : gmap string (gmap string JS.value).
Variable N : list Event → Net.t.
Variable rest : World.

Hypothesis logScrape_returns :
  ∀ h calls record, Net.logScrape (N h) calls record = Returned tt.
Hypothesis fire_engine_down :
  ∀ h calls endpoint body timeout,
    ∃ error, Net.axios_post_fire_engine (N h) calls endpoint body timeout
             = Threw error.
Hypothesis playwright_down :
  ∀ h calls endpoint body timeout,
    ∃ error, Net.axios_post_playwright (N h) calls endpoint body timeout
             = Threw error.
Hypothesis fetch_down :
  ∀ h calls url timeout,
    ∃ error, Net.axios_get (N h) calls url timeout = Threw error.
Hypothesis scrapingBee_down :
  ∀ h calls apiKey params,
    ∃ error, Net.scrapingBee_get (N h) calls apiKey params = Threw error
             ∧ thrown_status error = None.

Local Abbreviation W := (world_of_net env URL_hostname urlSpecificParams N rest).

Lemma fireEngine_down_result (h : list Event) (args : FireEngineArgs.t) :
  scrapWithFireEngine W h args = Ok emptyFireEngineResponse.
Proof.
  simpl. unfold scrapWithFireEngine_body. cbv zeta.
  match goal with
  | |- context [Ad.finally ?inner _] =>
      destruct (adapter_finally (N h) (FireEngineArgs.url args) "fire-engine"
                  inner fresh_adapter_state) as [_ Hout];
      cbv zeta in Hout; rewrite Hout; clear Hout
  end.
  rewrite logScrape_returns. unfold log_failure. adapter_unfold.
  destruct (generateRequestParams_ok URL_hostname urlSpecificParams
              (FireEngineArgs.url args) "domcontentloaded" 15000)
    as [reqParams ->]. simpl.
  match goal with
  | |- context [Net.axios_post_fire_engine ?n ?c ?e ?b ?t] =>
      destruct (fire_engine_down h c e b t) as [error ->]
  end.
  simpl. by case_bool_decide.
Qed.

Lemma playwright_down_result
    (h : list Event) (url : string) (waitFor : option Z)
    (headers : option Headers) :
  scrapWithPlaywright W h url waitFor headers = Ok emptyContent.
Proof.
  simpl. unfold scrapWithPlaywright_body. cbv zeta.
  match goal with
  | |- context [Ad.finally ?inner _] =>
      destruct (adapter_finally (N h) url "playwright"
                  inner fresh_adapter_state) as [_ Hout];
      cbv zeta in Hout; rewrite Hout; clear Hout
  end.
  rewrite logScrape_returns. unfold log_failure. adapter_unfold.
  destruct (generateRequestParams_ok URL_hostname urlSpecificParams
              url "domcontentloaded" 15000) as [reqParams ->]. simpl.
  match goal with
  | |- context [Net.axios_post_playwright ?n ?c ?e ?b ?t] =>
      destruct (playwright_down h c e b t) as [error ->]
  end.
  simpl. by case_bool_decide.
Qed.

Lemma fetch_down_result (h : list Event) (url : string) :
  scrapWithFetch W h url = Ok emptyContent.
Proof.
  simpl. unfold scrapWithFetch_body.
  match goal with
  | |- context [Ad.finally ?inner _] =>
      destruct (adapter_finally (N h) url "fetch"
                  inner fresh_adapter_state) as [_ Hout];
      cbv zeta in Hout; rewrite Hout; clear Hout
  end.
  rewrite logScrape_returns. unfold log_failure. adapter_unfold.
  destruct (fetch_down h [] url universalTimeout) as [error ->].
  simpl. by case_bool_decide.
Qed.

Lemma scrapingBee_down_result
    (h : list Event) (url wait_browser : string) (timeout : Z) :
  ∃ response,
    scrapWithScrapingBee W h url wait_browser timeout = Ok response
    ∧ ContentResponse.pageStatusCode response = None.
Proof.
  simpl. unfold scrapWithScrapingBee_body.
  match goal with
  | |- context [Ad.finally ?inner _] =>
      destruct (adapter_finally (N h) url
                  (if (wait_browser =? "networkidle2")%string
                   then "scrapingBeeLoad" else "scrapingBee")
                  inner fresh_adapter_state) as [_ Hout];
      cbv zeta in Hout; rewrite Hout; clear Hout
  end.
  rewrite logScrape_returns. adapter_unfold.
  destruct (generateRequestParams_ok URL_hostname urlSpecificParams
              url wait_browser timeout) as [reqParams ->]. simpl.
  match goal with
  | |- context [Net.scrapingBee_get ?n ?c ?k ?p] =>
      destruct (scrapingBee_down h c k p) as (error & -> & Hstatus)
  end.
  simpl. eexists. split; [reflexivity|]. exact Hstatus.
Qed.

Lemma network_down_no_status
    (pageOptions : PageOptions.t) (url scraper : string)
    (m0 m1 : Machine) (a : Attempt.t) :
  attemptScraping env W pageOptions url scraper m0 = (m1, Ok a) →
  Attempt.pageStatusCode a = None.
Proof.
  intros Hrun.
  destruct (attemptScraping_override _ _ _ _ _ _ _ _ Hrun)
    as (m1' & resp & d & Hcall & _ & _ & Hstatus & _).
  rewrite Hstatus. revert Hcall. clear Hrun Hstatus.
  unfold callScraper, bind, call, ret.
  destruct (scraper =? "fire-engine")%string.
  { destruct (JS.truthy_ostring (FIRE_ENGINE_BETA_URL env));
      [|by intros [= <- <-]].
    rewrite fireEngine_down_result. by intros [= <- <-]. }
  destruct (scraper =? "scrapingBee")%string.
  { destruct (JS.truthy_ostring (SCRAPING_BEE_API_KEY env));
      [|by intros [= <- <-]].
    match goal with
    | |- context [scrapWithScrapingBee W ?h ?u ?w ?t] =>
        destruct (scrapingBee_down_result h u w t) as (response & -> & Hs)
    end.
    by intros [= <- <-]. }
  destruct (scraper =? "playwright")%string.
  { destruct (JS.truthy_ostring (PLAYWRIGHT_MICROSERVICE_URL env));
      [|by intros [= <- <-]].
    rewrite playwright_down_result. by intros [= <- <-]. }
  destruct (scraper =? "scrapingBeeLoad")%string.
  { destruct (JS.truthy_ostring (SCRAPING_BEE_API_KEY env));
      [|by intros [= <- <-]].
    match goal with
    | |- context [scrapWithScrapingBee W ?h ?u ?w ?t] =>
        destruct (scrapingBee_down_result h u w t) as (response & -> & Hs)
    end.
    by intros [= <- <-]. }
  destruct (scraper =? "fetch")%string; [|by intros [= <- <-]].
  rewrite fetch_down_result. by intros [= <- <-].
Qed.

(** X25. When every request of the four adapters is rejected (the ScrapingBee
    client without a response status) and [logScrape] returns, whatever the
    hook, the cleaner and the converter do, [scrapSingleUrl] returns a
    document whose [pageStatusCode] is the initial 200 and whose [pageError]
    is [undefined]. *)
Theorem network_down_reports_status_200
    (pageOptions : PageOptions.t) (extractorOptions : ExtractorOptions.t)
    (existingHtml url : string) (m : Machine) :
  ∃ m' d,
    scrapSingleUrl env URL_hostname urlSpecificParams W
      pageOptions extractorOptions existingHtml url m = (m', Ok d)
    ∧ Document.metadata d !! "pageStatusCode" = Some (JS.VNum 200)
    ∧ Document.metadata d !! "pageError" = Some JS.VUndefined.
Proof.
  destruct (scrapSingleUrl_shapes env URL_hostname urlSpecificParams W
              pageOptions extractorOptions existingHtml url m)
    as (m' & d & Hrun & Hm' & Hshape).
  destruct (for_scrapers_no_status env URL_hostname W pageOptions existingHtml
              (JS.trim url)
              (plan_for env URL_hostname urlSpecificParams pageOptions
                 (JS.trim url))
              (network_down_no_status pageOptions (JS.trim url))
              {| trace := trace m; vars := Vars.init |}) as [Hs He].
  rewrite <- Hm' in Hs, He. simpl in Hs, He.
  exists m', d. split; [exact Hrun|].
  destruct Hshape as [-> | (metadata & _ & ->)].
  - rewrite Hs, He. by split.
  - destruct (build_document_fields pageOptions extractorOptions
                (JS.trim url) (vars m') metadata) as (_ & _ & _ & Hcode).
    rewrite Hcode, build_document_pageError, Hs, He. by split.
Qed.

End NetworkDown.

Section NotFound.

Variable env : Env.
Variable URL_hostname : string → Result string.
Variable urlSpecificParams : gmap string (gmap string JS.value).
Variable N : list Event → Net.t.
Variable rest : World.
Variable error : Thrown.

Hypothesis logScrape_returns :
  ∀ h calls record, Net.logScrape (N h) calls record = Returned tt.
Hypothesis scrapingBee_rejects :
  ∀ h calls apiKey params,
    Net.scrapingBee_get (N h) calls apiKey params = Threw error.

Local Abbreviation W := (world_of_net env URL_hostname urlSpecificParams N rest).

Lemma scrapingBee_rejected_result
    (h : list Event) (url wait_browser : string) (timeout : Z) :
  scrapWithScrapingBee W h url wait_browser timeout
  = Ok {| ContentResponse.content := "";
          ContentResponse.pageStatusCode := thrown_status error;
          ContentResponse.pageError := thrown_statusText error |}.
Proof.
  simpl. unfold scrapWithScrapingBee_body.
  match goal with
  | |- context [Ad.finally ?inner _] =>
      destruct (adapter_finally (N h) url
                  (if (wait_browser =? "networkidle2")%string
                   then "scrapingBeeLoad" else "scrapingBee")
                  inner fresh_adapter_state) as [_ Hout];
      cbv zeta in Hout; rewrite Hout; clear Hout
  end.
  rewrite logScrape_returns. adapter_unfold.
  destruct (generateRequestParams_ok URL_hostname urlSpecificParams
              url wait_browser timeout) as [reqParams ->]. simpl.
  by rewrite scrapingBee_rejects.
Qed.

(** X26. When ScrapingBee is the first planned backend and its client rejects
    the request with a response of status 404, the run stops there: with no
    directive of the hook and a text below the threshold, ScrapingBee is the
    only adapter invoked, and the document carries the status 404. *)
Theorem scrapingBee_404_stops_fallback
    (pageOptions : PageOptions.t) (extractorOptions : ExtractorOptions.t)
    (existingHtml url : string) (others : list string)
    (cleanedHtml text : string) (m : Machine) :
  thrown_status error = Some 404 →
  JS.truthy_ostring (SCRAPING_BEE_API_KEY env) = true →
  plan_for env URL_hostname urlSpecificParams pageOptions (JS.trim url)
  = "scrapingBee" :: others →
  sufficient existingHtml = false →
  (∀ h, handleCustomScraping rest h "" (JS.trim url) = Ok None) →
  removeUnwantedElements rest "" pageOptions = Ok cleanedHtml →
  parseMarkdown rest cleanedHtml = Ok text →
  sufficient text = false →
  ∃ m' d,
    scrapSingleUrl env URL_hostname urlSpecificParams W
      pageOptions extractorOptions existingHtml url m = (m', Ok d)
    ∧ adapters_invoked m' = adapters_invoked m ++ ["scrapingBee"]
    ∧ Document.metadata d !! "pageStatusCode" = Some (JS.VNum 404)
    ∧ Document.metadata d !! "pageError"
      = Some (JS.of_ostring (JS.or_undefined (thrown_statusText error))).
Proof.
  intros H404 Hkey Hplan Hex Hhook Hclean Hmd Htext.
  destruct (scrapSingleUrl_shapes env URL_hostname urlSpecificParams W
              pageOptions extractorOptions existingHtml url m)
    as (m' & d & Hrun & Hm' & Hshape).
  exists m', d. split; [exact Hrun|].
  rewrite Hplan, for_scrapers_step in Hm' by done.
  unfold attemptScraping, callScraper in Hm'.
  change ("scrapingBee" =? "fire-engine")%string with false in Hm'.
  change ("scrapingBee" =? "scrapingBee")%string with true in Hm'.
  cbv iota in Hm'. rewrite Hkey in Hm'.
  unfold bind, call, lift, ret in Hm'.
  rewrite scrapingBee_rejected_result in Hm'. simpl in Hm'.
  rewrite Hhook in Hm'. simpl in Hm'.
  rewrite Hclean in Hm'. simpl in Hm'. rewrite Hmd in Hm'. simpl in Hm'.
  rewrite Htext in Hm'. rewrite H404 in Hm'.
  assert (vars m'
          = carry
              {| Attempt.text := text; Attempt.html := cleanedHtml;
                 Attempt.rawHtml := ""; Attempt.screenshot := "";
                 Attempt.pageStatusCode := Some 404;
                 Attempt.pageError :=
                   JS.or_undefined (thrown_statusText error) |}
              Vars.init
          ∧ trace m'
            = trace m
              ++ [CallScrapingBee (JS.trim url) "domcontentloaded"
                    match PageOptions.fallback pageOptions with
                    | Some false => 7000
                    | _ => 15000
                    end;
                  CallHook "" (JS.trim url)]) as [Hvars Htrace].
  { unfold carried_404 in Hm'. rewrite carry_pageStatusCode in Hm'.
    simpl in Hm'. subst m'. simpl. by rewrite <- app_assoc. }
  split.
  - unfold adapters_invoked. rewrite Htrace, omap_app. simpl.
    change ("domcontentloaded" =? "networkidle2")%string with false. done.
  - assert (Vars.pageStatusCode (vars m') = 404
            ∧ Vars.pageError (vars m')
              = JS.or_undefined (thrown_statusText error)) as [Hs He].
    { rewrite Hvars, carry_pageStatusCode, carry_pageError. simpl.
      unfold JS.or_undefined.
      by destruct (JS.truthy_ostring (thrown_statusText error)) eqn:E;
        simpl; rewrite ?E. }
    destruct Hshape as [-> | (metadata & _ & ->)].
    + rewrite Hs, He. by split.
    + destruct (build_document_fields pageOptions extractorOptions
                  (JS.trim url) (vars m') metadata) as (_ & _ & _ & Hcode).
      rewrite Hcode, build_document_pageError, Hs, He. by split.
Qed.

End NotFound.

(** ** The adapter theorems at concrete inputs *)

Lemma rejected_request_gives_empty_result_witness :
  (scrapWithFetch_body (down_net timed_out) "https://example.org" None
     fresh_adapter_state).2 = Returned emptyContent.
Proof.
  destruct (rejected_request_gives_empty_result
              env_all example_URL_hostname example_urlSpecificParams
              (down_net timed_out) timed_out fresh_adapter_state)
    as (_ & _ & Hfetch).
  - reflexivity.
  - apply (Hfetch "https://example.org" None). reflexivity.
Defined.

Lemma scrapingBee_rejection_reports_status_witness :
  (scrapWithScrapingBee_body env_all example_URL_hostname
     example_urlSpecificParams (down_net rejected_404)
     "https://example.org" "domcontentloaded" 15000 None
     fresh_adapter_state).2
  = Returned {| ContentResponse.content := "";
                ContentResponse.pageStatusCode := Some 404;
                ContentResponse.pageError := Some "Not Found" |}.
Proof.
  apply (scrapingBee_rejection_reports_status
           env_all example_URL_hostname example_urlSpecificParams
           (down_net rejected_404) "https://example.org" "domcontentloaded"
           15000 None rejected_404 fresh_adapter_state);
    reflexivity.
Defined.

Lemma scrapWithFetch_response_witness :
  (scrapWithFetch_body
     (answering_net 503 "Service Unavailable" None "" (Returned pdf_text))
     "https://example.org" None fresh_adapter_state).2
  = Returned {| ContentResponse.content := "";
                ContentResponse.pageStatusCode := Some 503;
                ContentResponse.pageError := Some "Service Unavailable" |}.
Proof.
  destruct (scrapWithFetch_response
              (answering_net 503 "Service Unavailable" None ""
                 (Returned pdf_text))
              "https://example.org" None
              {| HttpResponse.status := 503;
                 HttpResponse.statusText := "Service Unavailable";
                 HttpResponse.contentType := None;
                 HttpResponse.data := "" |}
              fresh_adapter_state)
    as (Hother & _).
  - reflexivity.
  - reflexivity.
  - apply Hother. discriminate.
Defined.

Lemma pdf_response_goes_to_extractor_witness :
  (scrapWithFetch_body
     (answering_net 200 "OK" (Some "application/pdf; charset=binary") "%PDF"
        (Returned pdf_text))
     "https://example.org/paper.pdf" None fresh_adapter_state).2
  = Returned pdf_text.
Proof.
  destruct (pdf_response_goes_to_extractor
              env_all example_URL_hostname example_urlSpecificParams
              (answering_net 200 "OK"
                 (Some "application/pdf; charset=binary") "%PDF"
                 (Returned pdf_text))
              pdf_text fresh_adapter_state)
    as (_ & _ & _ & Hfetch).
  - reflexivity.
  - reflexivity.
  - apply (Hfetch "https://example.org/paper.pdf" None
             {| HttpResponse.status := 200;
                HttpResponse.statusText := "OK";
                HttpResponse.contentType :=
                  Some "application/pdf; charset=binary";
                HttpResponse.data := "%PDF" |});
      reflexivity.
Defined.

Lemma failed_pdf_extraction_witness :
  (scrapWithFetch_body
     (answering_net 200 "OK" (Some "application/pdf") "%PDF"
        (Threw (Raised (Error "Invalid PDF structure"))))
     "https://example.org/paper.pdf" None fresh_adapter_state).2
  = Returned emptyContent.
Proof.
  destruct (failed_pdf_extraction
              env_all example_URL_hostname example_urlSpecificParams
              (answering_net 200 "OK" (Some "application/pdf") "%PDF"
                 (Threw (Raised (Error "Invalid PDF structure"))))
              (Raised (Error "Invalid PDF structure")) fresh_adapter_state)
    as (_ & _ & _ & Hfetch).
  - reflexivity.
  - reflexivity.
  - apply (Hfetch "https://example.org/paper.pdf" None
             {| HttpResponse.status := 200;
                HttpResponse.statusText := "OK";
                HttpResponse.contentType := Some "application/pdf";
                HttpResponse.data := "%PDF" |});
      reflexivity.
Defined.

Lemma scrapWithPlaywright_response_witness :
  (scrapWithPlaywright_body env_all example_URL_hostname
     example_urlSpecificParams
     (answering_net 204 "No Content" None "" (Returned pdf_text))
     "https://example.org" None None None fresh_adapter_state).2
  = Returned emptyContent.
Proof.
  destruct (scrapWithPlaywright_response
              env_all example_URL_hostname example_urlSpecificParams
              (answering_net 204 "No Content" None "" (Returned pdf_text))
              "https://example.org" None None None
              {| HttpResponse.status := 204;
                 HttpResponse.statusText := "No Content";
                 HttpResponse.contentType := None;
                 HttpResponse.data := "" |}
              fresh_adapter_state)
    as (Hother & _).
  - reflexivity.
  - reflexivity.
  - apply Hother. discriminate.
Defined.

Lemma scrapWithScrapingBee_response_witness :
  (scrapWithScrapingBee_body env_all example_URL_hostname
     example_urlSpecificParams
     (answering_net 404 "Not Found" (Some "text/html") "<p>gone</p>"
        (Returned pdf_text))
     "https://example.org" "networkidle2" 15000 None fresh_adapter_state).2
  = Returned {| ContentResponse.content := "<p>gone</p>";
                ContentResponse.pageStatusCode := Some 404;
                ContentResponse.pageError := Some "Not Found" |}.
Proof.
  apply (scrapWithScrapingBee_response
           env_all example_URL_hostname example_urlSpecificParams
           (answering_net 404 "Not Found" (Some "text/html") "<p>gone</p>"
              (Returned pdf_text))
           "https://example.org" "networkidle2" 15000 None
           {| HttpResponse.status := 404;
              HttpResponse.statusText := "Not Found";
              HttpResponse.contentType := Some "text/html";
              HttpResponse.data := "<p>gone</p>" |}
           fresh_adapter_state);
    reflexivity.
Defined.

Lemma scrapWithFireEngine_response_witness :
  (scrapWithFireEngine_body env_all example_URL_hostname
     example_urlSpecificParams
     (answering_net 404 "Not Found" (Some "application/json") "<p>gone</p>"
        (Returned pdf_text))
     example_args fresh_adapter_state).2
  = Returned {| FireEngineResponse.html := "<p>gone</p>";
                FireEngineResponse.screenshot := "";
                FireEngineResponse.pageStatusCode := Some 404;
                FireEngineResponse.pageError := None |}.
Proof.
  destruct (scrapWithFireEngine_response
              env_all example_URL_hostname example_urlSpecificParams
              (answering_net 404 "Not Found" (Some "application/json")
                 "<p>gone</p>" (Returned pdf_text))
              example_args
              {| HttpResponse.status := 200;
                 HttpResponse.statusText := "OK";
                 HttpResponse.contentType := Some "application/json";
                 HttpResponse.data :=
                   Some {| PagePayload.content := Some "<p>gone</p>";
                           PagePayload.screenshot := None;
                           PagePayload.pageStatusCode := Some 404;
                           PagePayload.pageError := None |} |}
              fresh_adapter_state)
    as (_ & Hok).
  - reflexivity.
  - reflexivity.
  - apply Hok; reflexivity.
Defined.

Lemma network_down_reports_status_200_witness :
  ∃ m' d,
    scrapSingleUrl env_all example_URL_hostname example_urlSpecificParams
      (world_of_net env_all example_URL_hostname example_urlSpecificParams
         (λ _, down_net refused) offline_world)
      defaultPageOptions defaultExtractorOptions ""
      "https://www.example.com/docs" machine0 = (m', Ok d)
    ∧ Document.metadata d !! "pageStatusCode" = Some (JS.VNum 200).
Proof.
  destruct (network_down_reports_status_200
              env_all example_URL_hostname example_urlSpecificParams
              (λ _, down_net refused) offline_world
              ltac:(reflexivity)
              ltac:(intros; eexists; reflexivity)
              ltac:(intros; eexists; reflexivity)
              ltac:(intros; eexists; reflexivity)
              ltac:(intros; eexists; split; reflexivity)
              defaultPageOptions defaultExtractorOptions ""
              "https://www.example.com/docs" machine0)
    as (m' & d & Hrun & Hcode & _).
  exists m', d. split; [exact Hrun | exact Hcode].
Defined.

Lemma scrapingBee_404_stops_fallback_witness :
  ∃ m' d,
    scrapSingleUrl env_all example_URL_hostname ∅
      (world_of_net env_all example_URL_hostname ∅
         (λ _, down_net rejected_404) offline_world)
      defaultPageOptions defaultExtractorOptions ""
      "https://example.org/missing" machine0 = (m', Ok d)
    ∧ adapters_invoked m' = ["scrapingBee"]
    ∧ Document.metadata d !! "pageStatusCode" = Some (JS.VNum 404).
Proof.
  destruct (scrapingBee_404_stops_fallback
              env_all example_URL_hostname ∅
              (λ _, down_net rejected_404) offline_world rejected_404
              ltac:(reflexivity) ltac:(reflexivity)
              defaultPageOptions defaultExtractorOptions ""
              "https://example.org/missing"
              ["fire-engine"; "playwright"; "scrapingBeeLoad"; "fetch"]
              "" "" machine0)
    as (m' & d & Hrun & Hadapters & Hcode & _); try reflexivity.
  exists m', d. split; [exact Hrun|]. split; [exact Hadapters | exact Hcode].
Defined.

Lemma scrapingBee_request_params_witness :
  ∃ params rest,
    AdapterState.calls
      (scrapWithScrapingBee_body env_all example_URL_hostname
         example_urlSpecificParams (down_net refused)
         "https://example.org" "domcontentloaded" 15000 None
         fresh_adapter_state).1
    = ScrapingBeeGet (SCRAPING_BEE_API_KEY env_all) params :: rest
    ∧ param_of params "timeout" = Some (JS.VNum 15000)
    ∧ param_of params "wait_browser" = Some (JS.VStr "domcontentloaded").
Proof.
  destruct (scrapingBee_request_params
              env_all example_URL_hostname example_urlSpecificParams
              (down_net refused) "https://example.org" "domcontentloaded"
              15000 None fresh_adapter_state)
    as (reqParams & params & rest & _ & Hcalls & _ & _ & _ & Hcaller).
  exists params, rest. split; [exact Hcalls|].
  apply Hcaller. reflexivity.
Defined.
